(** * scripts/text_trainer.py: a shallow embedding and its properties

    The script prepares one fine-tuning run: it parses the command line,
    creates the run's directories, builds the axolotl configuration document
    ([create_config]), computes the end-of-budget time, wraps the trainer's
    initialiser so that an eval/save callback is appended ([patched_init]) and
    calls the external training entry point.

    Python dictionaries are finite maps ([gmap string _]), YAML and JSON values
    are the inductive [yaml], the file system, standard output, the wall clock
    and the patched [Trainer.__init__] form an explicit [World] that every
    effectful function threads through the monad [M].  Exceptions derived from
    [Exception] and [SystemExit] are two different outcomes, because
    [except Exception] catches only the first. *)

From Stdlib Require Import ZArith QArith.QArith_base QArith.Qabs QArith.Qround.
From Stdlib Require Import String Ascii List Lia Floats.
From stdpp Require Import gmap strings list fin_maps pretty.

Local Set Warnings "-register-all".
Local Open Scope string_scope.
Local Open Scope Z_scope.

(** ** Python strings and paths *)

(** [s.startswith(p)] *)
Definition startswith (s p : string) : bool := String.prefix p s.

(** Characters removed by [str.strip()] with no argument, in the ASCII range:
    tab, line feed, vertical tab, form feed, carriage return, the four
    separators 0x1c-0x1f and the space. *)
Definition is_space (c : ascii) : bool :=
  let n := nat_of_ascii c in
  ((9 <=? n)%nat && (n <=? 13)%nat) || ((28 <=? n)%nat && (n <=? 32)%nat).

Fixpoint lstrip_chars (cs : list ascii) : list ascii :=
  match cs with
  | c :: cs' => if is_space c then lstrip_chars cs' else cs
  | [] => []
  end.

(** [s.strip()] on a string of ASCII characters.  Beyond ASCII, Python also
    strips the white space of Unicode (U+0085, U+00A0, ...), which a string
    of bytes does not show: what is proved with [strip] is proved for texts
    that are [plain_text]. *)
Definition strip (s : string) : string :=
  string_of_list_ascii
    (rev (lstrip_chars (rev (lstrip_chars (list_ascii_of_string s))))).

Definition newline : ascii := ascii_of_nat 10.
Definition slash : ascii := ascii_of_nat 47.

(** [f.readlines()]: the text cut after every line feed, line feeds kept.
    The text is the one Python has in hand, and that is the stored one when it
    holds no carriage return (text mode turns each of them, with a following
    line feed if any, into one line feed before the lines are cut). *)
Fixpoint split_lines (acc cs : list ascii) : list string :=
  match cs with
  | [] => match acc with
          | [] => []
          | _ => [string_of_list_ascii (rev acc)]
          end
  | c :: cs' =>
      if Ascii.eqb c newline
      then string_of_list_ascii (rev (c :: acc)) :: split_lines [] cs'
      else split_lines (c :: acc) cs'
  end.

Definition readlines (text : string) : list string :=
  split_lines [] (list_ascii_of_string text).

(** [f.writelines(lines)] writes the lines one after the other. *)
Definition writelines (lines : list string) : string :=
  fold_right String.append "" lines.

Fixpoint basename_chars (acc cs : list ascii) : list ascii :=
  match cs with
  | [] => rev acc
  | c :: cs' =>
      if Ascii.eqb c slash then basename_chars [] cs'
      else basename_chars (c :: acc) cs'
  end.

(** [os.path.basename(p)]: what follows the last slash. *)
Definition basename (p : string) : string :=
  string_of_list_ascii (basename_chars [] (list_ascii_of_string p)).

Definition ends_with_slash (a : string) : bool :=
  match rev (list_ascii_of_string a) with
  | c :: _ => Ascii.eqb c slash
  | [] => false
  end.

(** [os.path.join(a, b)] on POSIX. *)
Definition path_join (a b : string) : string :=
  if startswith b "/" then b
  else if String.eqb a "" then b
  else if ends_with_slash a then a ++ b
  else a ++ "/" ++ b.

(** How an f-string renders an optional string: [None] prints as "None". *)
Definition fstr_opt (o : option string) : string :=
  match o with
  | Some s => s
  | None => "None"
  end.

(** ** Wall-clock time

    An aware UTC [datetime] is the number of microseconds since the epoch, a
    [timedelta] a number of microseconds.  A Python [float] is an IEEE 754
    double: the primitive [float], whose multiplication is the machine's. *)

(** What a library function hands back: a value, or an exception derived
    from [Exception] (the text of the exception). *)
Inductive py_result (A : Type) : Type :=
  | Ok (a : A)
  | Err (e : string).
Arguments Ok {A} a.
Arguments Err {A} e.

#[export] Instance py_result_ret : MRet py_result := fun A a => Ok a.

#[export] Instance py_result_bind : MBind py_result := fun A B f r =>
  match r with
  | Ok a => f a
  | Err e => Err e
  end.

(** [modf(x, &intpart)] followed by [PyLong_FromDouble(intpart)]: the integer
    part of a double, towards zero, and the fraction that is left, both
    exact.  A NaN has no integer part ([ValueError]), nor has an infinity
    ([OverflowError]). *)
Definition modf (x : float) : py_result (Z * float) :=
  match Prim2SF x with
  | S754_nan => Err "cannot convert float NaN to integer"
  | S754_infinity _ => Err "cannot convert float infinity to integer"
  | S754_zero _ => Ok (0, PrimFloat.zero)
  | S754_finite s m e =>
      let sign := if s then -1 else 1 in
      if 0 <=? e then Ok (sign * (Z.pos m * 2 ^ e), PrimFloat.zero)
      else
        Ok (sign * Z.shiftr (Z.pos m) (- e),
            match Z.pos m mod 2 ^ (- e) with
            | Z.pos r => SF2Prim (S754_finite s r e)
            | _ => PrimFloat.zero
            end)
  end.

(** The rational a finite double denotes. *)
Definition Q_of_float (x : float) : Q :=
  match Prim2SF x with
  | S754_finite s m e =>
      let q := if 0 <=? e then inject_Z (Z.pos m * 2 ^ e)
               else Qmake (Z.pos m) (Pos.pow 2 (Z.to_pos (- e))) in
      if s then Qopp q else q
  | _ => 0%Q
  end.

(** [round(x)] of C: to the nearest integer, halves away from zero. *)
Definition round_half_away (q : Q) : Z :=
  if Qle_bool 0 q then Qfloor (Qplus q (Qmake 1 2))
  else Qceiling (Qminus q (Qmake 1 2)).

Definition us_per_hour : Z := 3600000000.
Definition us_per_day : Z := 86400000000.
Definition MAX_DELTA_DAYS : Z := 999999999.

(** [timedelta(hours=h)] for a float [h], in microseconds, as [delta_new] of
    CPython computes it: the whole hours exactly; the fraction of an hour
    times 3.6e9 in double arithmetic, its whole microseconds added and what
    is left rounded to the nearest microsecond, a half towards the even sum;
    [OverflowError] when the days do not fit a C [int] or exceed 999999999. *)
Definition timedelta_hours (hours : float) : py_result Z :=
  '(intpart, fracpart) ← modf hours;
  let x := intpart * us_per_hour in
  '(x, leftover_us) ←
    (if PrimFloat.eqb fracpart PrimFloat.zero then Ok (x, 0%Q)
     else
       let dnum := PrimFloat.mul (PrimFloat.of_uint63 (Uint63.of_Z us_per_hour)) fracpart in
       '(intpart, fracpart) ← modf dnum;
       Ok (x + intpart, Q_of_float fracpart));
  let x :=
    if Qeq_bool leftover_us 0 then x
    else
      let whole_us := round_half_away leftover_us in
      let whole_us :=
        if Qeq_bool (Qabs (Qminus (inject_Z whole_us) leftover_us)) (Qmake 1 2) then
          let x_is_odd := Z.land x 1 in
          2 * round_half_away (Qmult (Qplus leftover_us (inject_Z x_is_odd)) (Qmake 1 2))
          - x_is_odd
        else whole_us in
      x + whole_us in
  let days := x / us_per_day in
  if negb ((- 2 ^ 31 <=? days) && (days <? 2 ^ 31))
  then Err "Python int too large to convert to C int"
  else if negb ((- MAX_DELTA_DAYS <=? days) && (days <=? MAX_DELTA_DAYS))
  then Err ("days=" ++ pretty days ++ "; must have magnitude <= 999999999")
  else Ok x.

(** [datetime.min] and [datetime.max] on the UTC axis: the first microsecond
    of year 1 and the last of year 9999. *)
Definition datetime_min : Z := -62135596800000000.
Definition datetime_max : Z := 253402300799999999.

Definition is_datetime (t : Z) : bool := (datetime_min <=? t) && (t <=? datetime_max).

(** [dt + delta]: [OverflowError] when the sum leaves the years 1 to 9999. *)
Definition datetime_add (dt delta : Z) : py_result Z :=
  if is_datetime (dt + delta) then Ok (dt + delta)
  else Err "date value out of range".

(** Proleptic Gregorian date of a day number counted from 1970-01-01. *)
Definition civil_from_days (days : Z) : Z * Z * Z :=
  let z := days + 719468 in
  let era := z / 146097 in
  let doe := z - era * 146097 in
  let yoe := (doe - doe / 1460 + doe / 36524 - doe / 146096) / 365 in
  let doy := doe - (365 * yoe + yoe / 4 - yoe / 100) in
  let mp := (5 * doy + 2) / 153 in
  let d := doy - (153 * mp + 2) / 5 + 1 in
  let m := if mp <? 10 then mp + 3 else mp - 9 in
  let y := yoe + era * 400 in
  (if m <=? 2 then y + 1 else y, m, d).

Definition pad2 (n : Z) : string :=
  if n <? 10 then "0" ++ pretty n else pretty n.

Definition pad4 (n : Z) : string :=
  if n <? 10 then "000" ++ pretty n
  else if n <? 100 then "00" ++ pretty n
  else if n <? 1000 then "0" ++ pretty n
  else pretty n.

(** [dt.strftime("%Y-%m-%d %H:%M:%S")] of a [datetime] (years 1 to 9999): the
    microseconds are dropped.  A year below 1000 is rendered as the platform
    renders [%Y]: with leading zeros up to four digits when
    [zero_padded_year], without them otherwise (the C library of Linux). *)
Definition strftime (zero_padded_year : bool) (us : Z) : string :=
  let secs := us / 1000000 in
  let '(y, m, d) := civil_from_days (secs / 86400) in
  let sod := secs mod 86400 in
  (if zero_padded_year then pad4 y else pretty y) ++ "-" ++ pad2 m ++ "-" ++ pad2 d ++ " " ++
  pad2 (sod / 3600) ++ ":" ++ pad2 (sod mod 3600 / 60) ++ ":" ++ pad2 (sod mod 60).

(** ** Values, results and the world *)

(** A YAML or JSON value; Python dictionaries are finite maps. *)
Inductive yaml : Type :=
  | YNull
  | YBool (b : bool)
  | YInt (n : Z)
  | YFloat (q : Q)
  | YStr (s : string)
  | YList (l : list yaml)
  | YMap (m : gmap string yaml).

(** How a piece of the script ends: it returns, it raises an exception derived
    from [Exception], or it raises [SystemExit] (process status and the text
    written to standard error). *)
Inductive outcome (A : Type) : Type :=
  | Ret (a : A)
  | Raise (e : string)
  | Exit (status : Z) (msg : string).
Arguments Ret {A} a.
Arguments Raise {A} e.
Arguments Exit {A} status msg.

(** The file system: the directories made, the text of every file, and the
    paths on which any operation fails, with the text of the error
    (permissions, full disk, a text that cannot be decoded, a missing parent
    directory, ...).  Parent directories are not tracked. *)
Record FS : Type := mkFS {
  dirs : gset string;
  files : gmap string string;
  faults : gmap string string
}.

Record RewardFunction : Type := mkRewardFunction {
  reward_func : string;
  reward_weight : Q
}.

(** The three dataset-type records of [core.models.utility_models].  Only
    [reward_functions] is read by the script; the other validated fields are
    carried as they are. *)
Inductive DatasetType : Type :=
  | InstructTextDatasetType (fields : yaml)
  | DpoDatasetType (fields : yaml)
  | GrpoDatasetType (reward_functions : list RewardFunction) (fields : yaml).

(** The task families [INSTRUCT], [DPO], [GRPO] of [customized_config]. *)
Inductive TaskFamily : Type := INSTRUCT | DPO | GRPO.

(** The three tokenizer attributes that [create_config] reads. *)
Record Tokenizer : Type := mkTokenizer {
  pad_token_id : option Z;
  eos_token_id : option Z;
  eos_token : option string
}.

Record WhenToEvalHandler : Type := mkWhenToEvalHandler {
  handler_end_time : string;
  save_before_remaining_time : Z
}.

(** The callbacks a trainer is constructed with: the two of
    [customized_trainer] with their constructor arguments, and whatever the
    training loop passes itself. *)
Inductive Callback : Type :=
  | CustomEvalSaveCallback
      (h : WhenToEvalHandler) (submission_dir output_dir model_name : string)
  | GRPOCustomEvalSaveCallback
      (h : WhenToEvalHandler) (submission_dir output_dir model_name : string)
  | LoopCallback (name : string).

(** The variables of [main] that [patched_init] closes over. *)
Record Closure : Type := mkClosure {
  original_task_type : string;
  end_time : string;
  cl_submission_dir : string;
  cl_output_dir : string;
  original_model_name : string
}.

(** One process: its view of the file system, its standard output, the values
    its successive [datetime.now] calls return and how many were made, whether
    the process group is initialised, and the wrappers installed on
    [Trainer.__init__] (innermost last; empty for the library's own). *)
Record World : Type := mkWorld {
  fs : FS;
  stdout : list string;
  clock : nat -> Z;
  clock_reads : nat;
  dist_initialized : bool;
  Trainer_init : list Closure
}.

Definition set_fs (f : FS) (w : World) : World :=
  mkWorld f (stdout w) (clock w) (clock_reads w) (dist_initialized w) (Trainer_init w).

(** ** The monad of the script *)

Definition M (A : Type) : Type := World -> outcome A * World.

#[export] Instance M_ret : MRet M := fun A a w => (Ret a, w).

#[export] Instance M_bind : MBind M := fun A B f m w =>
  match m w with
  | (Ret a, w') => f a w'
  | (Raise e, w') => (Raise e, w')
  | (Exit s msg, w') => (Exit s msg, w')
  end.

Definition raise {A : Type} (e : string) : M A := fun w => (Raise e, w).

(** [sys.exit(msg)] with a string: the message goes to standard error and the
    status is 1. *)
Definition sys_exit {A : Type} (msg : string) : M A := fun w => (Exit 1 msg, w).

(** [try: body  except Exception as e: handler(e)]. [SystemExit] is not an
    [Exception] and passes through. *)
Definition try_except {A : Type} (body : M A) (handler : string -> M A) : M A :=
  fun w =>
    match body w with
    | (Raise e, w') => handler e w'
    | r => r
    end.

Definition of_result {A : Type} (r : py_result A) : M A :=
  fun w => match r with
           | Ok a => (Ret a, w)
           | Err e => (Raise e, w)
           end.

(** A collaborator that works on the file system only. *)
Definition lift_fs {A : Type} (f : FS -> py_result A * FS) : M A :=
  fun w => match f (fs w) with
           | (Ok a, f') => (Ret a, set_fs f' w)
           | (Err e, f') => (Raise e, set_fs f' w)
           end.

(** [print(line, flush=True)] on a standard output that takes the line; the
    runs of [main] considered here have such a standard output. *)
Definition print (line : string) : M unit :=
  fun w => (Ret tt,
            mkWorld (fs w) (stdout w ++ [line]) (clock w) (clock_reads w)
                    (dist_initialized w) (Trainer_init w)).

(** [print(line, flush=True)] on a standard output that may refuse the
    write: [sink n] is the error, if any, that the write raises once [n]
    lines have gone through ([BrokenPipeError], [OSError] on a full disk,
    [ValueError] on a closed file); the line is not printed then. *)
Definition print_on (sink : nat -> option string) (line : string) : M unit :=
  fun w => match sink (length (stdout w)) with
           | Some e => (Raise e, w)
           | None => print line w
           end.

(** [datetime.now(timezone.utc)]: the reading is a [datetime], or the call
    raises. *)
Definition datetime_now : M Z :=
  fun w =>
    let w' := mkWorld (fs w) (stdout w) (clock w) (S (clock_reads w))
                      (dist_initialized w) (Trainer_init w) in
    if is_datetime (clock w (clock_reads w)) then (Ret (clock w (clock_reads w)), w')
    else (Raise "year is out of range", w').

Fixpoint for_each {A : Type} (xs : list A) (body : A -> M unit) : M unit :=
  match xs with
  | [] => mret tt
  | x :: xs' => body x ;; for_each xs' body
  end.

(** ** File-system primitives *)

Definition fs_fault {A : Type} (p : string) (f : FS) (k : py_result A * FS)
  : py_result A * FS :=
  match faults f !! p with
  | Some e => (Err e, f)
  | None => k
  end.

(** The text of an [OSError] on a path. *)
Definition os_error (errno : string) (p : string) : string :=
  errno ++ ": '" ++ p ++ "'".

(** [os.path.exists(p)] never raises. *)
Definition path_exists (p : string) (f : FS) : bool :=
  bool_decide (p ∈ dirs f) || bool_decide (is_Some (files f !! p)).

Definition os_path_exists (p : string) : M bool :=
  fun w => (Ret (path_exists p (fs w)), w).

(** [os.makedirs(p, exist_ok=True)] *)
Definition makedirs_fs (p : string) (f : FS) : py_result unit * FS :=
  fs_fault p f
    (match files f !! p with
     | Some _ => (Err (os_error "[Errno 17] File exists" p), f)
     | None => (Ok tt, mkFS ({[p]} ∪ dirs f) (files f) (faults f))
     end).

Definition os_makedirs (p : string) : M unit := lift_fs (makedirs_fs p).

(** [with open(p, "r") as f: f.read()] *)
Definition read_fs (p : string) (f : FS) : py_result string * FS :=
  fs_fault p f
    (match files f !! p with
     | Some text => (Ok text, f)
     | None =>
         if bool_decide (p ∈ dirs f)
         then (Err (os_error "[Errno 21] Is a directory" p), f)
         else (Err (os_error "[Errno 2] No such file or directory" p), f)
     end).

Definition read_file (p : string) : M string := lift_fs (read_fs p).

(** [with open(p, "w") as f: f.write(text)] *)
Definition write_fs (p text : string) (f : FS) : py_result unit * FS :=
  fs_fault p f
    (if bool_decide (p ∈ dirs f)
     then (Err (os_error "[Errno 21] Is a directory" p), f)
     else (Ok tt, mkFS (dirs f) (<[p := text]> (files f)) (faults f))).

Definition write_file (p text : string) : M unit := lift_fs (write_fs p text).

(** [shutil.copy(src, dst)]: into [dst] when it is a directory. *)
Definition shutil_copy (src dst : string) : M unit :=
  text ← read_file src;
  isdir ← (fun w => (Ret (bool_decide (dst ∈ dirs (fs w))), w));
  write_file (if isdir : bool then path_join dst (basename src) else dst) text.

(** ** Dictionary access *)

(** [type(v).__name__] *)
Definition type_name (v : yaml) : string :=
  match v with
  | YNull => "NoneType"
  | YBool _ => "bool"
  | YInt _ => "int"
  | YFloat _ => "float"
  | YStr _ => "str"
  | YList _ => "list"
  | YMap _ => "dict"
  end.

(** [str(KeyError(k))] *)
Definition key_error (k : string) : string := "'" ++ k ++ "'".

(** [d[k]] on a value, [k] a string. *)
Definition getitem (d : yaml) (k : string) : py_result yaml :=
  match d with
  | YMap m => match m !! k with
              | Some v => Ok v
              | None => Err (key_error k)
              end
  | YList _ => Err "list indices must be integers or slices, not str"
  | YStr _ => Err "string indices must be integers, not 'str'"
  | _ => Err ("'" ++ type_name d ++ "' object is not subscriptable")
  end.

(** [d[k] = v] on a value, [k] a string, in place: the updated value. *)
Definition setitem (d : yaml) (k : string) (v : yaml) : py_result yaml :=
  match d with
  | YMap m => Ok (YMap (<[k := v]> m))
  | YList _ => Err "list indices must be integers or slices, not str"
  | _ => Err ("'" ++ type_name d ++ "' object does not support item assignment")
  end.

(** [k in d] for the dictionaries of the configuration. *)
Definition contains (m : gmap string yaml) (k : string) : bool :=
  bool_decide (is_Some (m !! k)).

Fixpoint assoc (k : string) (d : list (string * string)) : option string :=
  match d with
  | [] => None
  | (k', v) :: d' => if String.eqb k k' then Some v else assoc k d'
  end.

(** [d[k]] on one of the constant dictionaries. *)
Definition const_getitem (d : list (string * string)) (k : string) : M string :=
  match assoc k d with
  | Some v => mret v
  | None => raise (key_error k)
  end.

(** What [for x in v] iterates over. *)
Definition py_iter (v : yaml) : py_result (list yaml) :=
  match v with
  | YList l => Ok l
  | YMap m => Ok (YStr <$> (map_to_list m).*1)
  | YStr s => Ok ((fun c => YStr (String c EmptyString)) <$> list_ascii_of_string s)
  | _ => Err ("'" ++ type_name v ++ "' object is not iterable")
  end.

Fixpoint traverse {A B : Type} (f : A -> py_result B) (xs : list A)
  : py_result (list B) :=
  match xs with
  | [] => Ok []
  | x :: xs' => y ← f x; ys ← traverse f xs'; mret (y :: ys)
  end.

(** ** Collaborators

    Everything the script imports from the rest of the repository and from
    third-party packages, with the shapes the call sites give them, and the
    one trait of the platform that the script's output depends on.  A
    collaborator either works on values or on the file system; none of them
    reads the clock or replaces [Trainer.__init__]. *)
Record Collaborators : Type := mkCollaborators {
  (* the platform: whether [strftime] pads a year below 1000 with zeros *)
  zero_padded_year : bool;
  (* trainer.constants *)
  WANDB_LOGS_DIR : string;
  AXOLOTL_DIRECTORIES : list (string * string);
  (* trainer.utils.training_paths *)
  get_axolotl_base_config_path : DatasetType -> string;
  get_text_base_model_path : string -> string;
  get_checkpoints_output_path : string -> option string -> string;
  get_text_dataset_path : string -> string;
  get_axolotl_dataset_paths : string -> string * string;
  (* core.models.utility_models: validation of the three records *)
  validate_InstructTextDatasetType : yaml -> py_result yaml;
  validate_DpoDatasetType : yaml -> py_result yaml;
  validate_GrpoDatasetType : yaml -> py_result (list RewardFunction * yaml);
  (* yaml and json *)
  yaml_safe_load : string -> py_result yaml;
  yaml_dump : gmap string yaml -> string;
  json_loads : string -> py_result yaml;
  json_dumps : yaml -> string;
  (* core.config.config_handler *)
  create_dataset_entry : string -> DatasetType -> string -> py_result yaml;
  update_flash_attention : gmap string yaml -> string -> py_result (gmap string yaml);
  (* miner.logic.job_handler: naming and text of the generated module *)
  reward_module_name : string -> string;
  reward_func_name : nat -> string -> string;
  reward_module_text : list string -> string;
  (* core.dataset_utils *)
  adapt_columns_for_dpo_dataset : string -> DatasetType -> bool -> FS -> py_result unit * FS;
  adapt_columns_for_grpo_dataset : string -> DatasetType -> FS -> py_result unit * FS;
  (* customized_config *)
  customize_config :
    gmap string yaml -> TaskFamily -> string -> string -> py_result (gmap string yaml);
  get_available_gpu_count : Z;
  (* transformers *)
  AutoTokenizer_from_pretrained : string -> py_result Tokenizer;
  (* torch.distributed *)
  init_process_group : py_result unit;
  barrier : py_result unit;
  (* axolotl.cli.train: the training loop, given the trainer constructor *)
  do_cli : (option (list Callback) -> list Callback) -> string -> FS -> py_result unit * FS
}.

(** Modelled from the spec: the enumerations [TaskType] and [FileFormat] are
    declared in [core.models.utility_models], which is not among the sources.
    Section 6: the task type is one of three fixed tags and the file format
    one of four; the tags are the ones the command line accepts. *)
Definition TaskType_INSTRUCTTEXTTASK : string := "InstructTextTask".
Definition TaskType_DPOTASK : string := "DpoTask".
Definition TaskType_GRPOTASK : string := "GrpoTask".
Definition FileFormat_values : list string := ["csv"; "json"; "hf"; "s3"].
Definition FileFormat_HF : string := "hf".

(** [transformers.trainer_utils.is_main_process] *)
Definition is_main_process (local_rank : Z) : bool :=
  (local_rank =? -1) || (local_rank =? 0).

(** ** The deadline supervisor *)

(** Modelled from the spec: [customized_trainer] is not among the sources.
    Section 3: the outcome of a step-boundary check. *)
Inductive SaveDecision : Type :=
  | continueNormally
  | forceEvalAndSave
  | forceFinalEvalAndSave.

(** Modelled from the spec: [customized_trainer] is not among the sources.
    Section 4.2: the two states of the supervisor. *)
Inductive SupervisorState : Type := pending | finalized.

(** Modelled from the spec: [customized_trainer] is not among the sources.
    Section 3: the deadline and the safety margin, on one time axis. *)
Record DeadlineTracker : Type := mkDeadlineTracker {
  Deadline : Z;
  SafetyMargin : Z
}.

(** Modelled from the spec: [customized_trainer] ([WhenToEvalHandler] and the
    two callbacks) is not among the sources.  Section 4.1: the remaining time
    is Deadline - now, clamped at zero from below. *)
Definition remaining (t : DeadlineTracker) (now : Z) : Z :=
  Z.max 0 (Deadline t - now).

(** Modelled from the spec: [customized_trainer] is not among the sources.
    Section 4.1: now >= Deadline - SafetyMargin. *)
Definition isPastTrigger (t : DeadlineTracker) (now : Z) : bool :=
  Deadline t - SafetyMargin t <=? now.

(** Modelled from the spec: [customized_trainer] is not among the sources.
    Section 4.2, in the order of its four cases; [evaluate_now] is the
    training loop's own cadence. *)
Definition onStepBoundary (t : DeadlineTracker) (st : SupervisorState)
    (now : Z) (evaluate_now : bool) : SaveDecision * SupervisorState :=
  match st with
  | finalized => (continueNormally, finalized)
  | pending =>
      if isPastTrigger t now then (forceFinalEvalAndSave, finalized)
      else if evaluate_now then (forceEvalAndSave, pending)
      else (continueNormally, pending)
  end.

(** The decisions of one supervisor over the step boundaries of a run. *)
Fixpoint run_boundaries (t : DeadlineTracker) (st : SupervisorState)
    (calls : list (Z * bool)) : list SaveDecision :=
  match calls with
  | [] => []
  | (now, evaluate_now) :: calls' =>
      let '(d, st') := onStepBoundary t st now evaluate_now in
      d :: run_boundaries t st' calls'
  end.

Definition is_final (d : SaveDecision) : bool :=
  match d with
  | forceFinalEvalAndSave => true
  | _ => false
  end.

(** Step boundaries reached at non-decreasing times. *)
Fixpoint nondecreasing (ts : list Z) : Prop :=
  match ts with
  | a :: (b :: _) as ts' => a <= b /\ nondecreasing ts'
  | _ => True
  end.

(** ** The script *)

Section Script.

Context (X : Collaborators).

(** [FileFormat(file_format)]: the member with that value, [ValueError] when
    there is none.  A member is represented by its value. *)
Definition FileFormat_of (file_format : string) : M string :=
  if bool_decide (file_format ∈ FileFormat_values) then mret file_format
  else raise ("'" ++ file_format ++ "' is not a valid FileFormat").

(** Modelled from the spec: [miner.logic.job_handler.create_reward_funcs_file]
    is not among the sources.  Section 4.4: the reward-function source is
    generated from the supplied function bodies and written to a fixed
    location; section 3: the generated functions are named one per supplied
    body, in the order of the bodies.  The module is named after the task. *)
Definition create_reward_funcs_file (reward_funcs : list string)
    (task_id destination_dir : string) : M (string * list string) :=
  let filename := reward_module_name X task_id in
  write_file (path_join destination_dir (filename ++ ".py"))
             (reward_module_text X reward_funcs);;
  mret (filename, imap (reward_func_name X) reward_funcs).

(** Modelled from the spec: [core.config.config_handler.save_config] is not
    among the sources.  Section 4.4: the final document is persisted under the
    given path. *)
Definition save_config (config : gmap string yaml) (config_path : string) : M unit :=
  write_file config_path (yaml_dump X config).

(** Lines 136-158: the template with the dataset entry, the model path, the
    output directory, the tracker keys and the flash-attention adjustment. *)
Definition base_config (task_id model dataset : string) (dataset_type : DatasetType)
    (file_format output_dir : string) (expected_repo_name : option string)
    (log_wandb : bool) : M (gmap string yaml) :=
  let config_path := get_axolotl_base_config_path X dataset_type in
  text ← read_file config_path;
  template ← of_result (yaml_safe_load X text);
  format ← FileFormat_of file_format;
  entry ← of_result (create_dataset_entry X dataset dataset_type format);
  config ← match template with
           | YMap m => mret (<["datasets" := YList [entry]]> m)
           | YList _ => raise "list indices must be integers or slices, not str"
           | _ => raise ("'" ++ type_name template
                         ++ "' object does not support item assignment")
           end;
  let model_path := get_text_base_model_path X model in
  let config := <["base_model" := YStr model_path]> config in
  let config := <["mlflow_experiment_name" := YStr dataset]> config in
  os_makedirs output_dir;;
  let config := <["output_dir" := YStr output_dir]> config in
  config ← (if log_wandb then
              let run := task_id ++ "_" ++ fstr_opt expected_repo_name in
              let config := <["wandb_runid" := YStr run]> config in
              let config := <["wandb_name" := YStr run]> config in
              let config := <["wandb_mode" := YStr "offline"]> config in
              os_makedirs (WANDB_LOGS_DIR X);;
              mret config
            else
              mret (filter (fun kv => negb (startswith kv.1 "wandb") = true) config));
  of_result (update_flash_attention X config model).

(** Lines 160-169: the algorithm tag of a DPO run, the generated reward
    module and the two parallel lists of a GRPO run.  [config["trl"]] is
    updated in place. *)
Definition task_settings (task_id : string) (dataset_type : DatasetType)
    (config : gmap string yaml) : M (gmap string yaml) :=
  match dataset_type with
  | DpoDatasetType _ => mret (<["rl" := YStr "dpo"]> config)
  | GrpoDatasetType reward_functions _ =>
      src ← const_getitem (AXOLOTL_DIRECTORIES X) "src";
      '(filename, reward_funcs_names) ←
        create_reward_funcs_file (reward_func <$> reward_functions) task_id src;
      trl ← of_result (getitem (YMap config) "trl");
      trl ← of_result
              (setitem trl "reward_funcs"
                 (YList ((fun func_name => YStr (filename ++ "." ++ func_name))
                           <$> reward_funcs_names)));
      let config := <["trl" := trl]> config in
      trl ← of_result (getitem (YMap config) "trl");
      trl ← of_result
              (setitem trl "reward_weights"
                 (YList ((fun rf => YFloat (reward_weight rf)) <$> reward_functions)));
      mret (<["trl" := trl]> config)
  | InstructTextDatasetType _ => mret config
  end.

(** Lines 173-178, the body of the loop over the dataset entries. *)
Definition localize_entry (dataset : string) (ds : yaml) : py_result yaml :=
  match ds with
  | YMap m =>
      let m := <["ds_type" := YStr "json"]> m in
      m ← (if contains m "path" then
             match assoc "data" (AXOLOTL_DIRECTORIES X) with
             | Some data => Ok (<["path" := YStr data]> m)
             | None => Err (key_error "data")
             end
           else Ok m);
      Ok (YMap (<["data_files" := YList [YStr (basename dataset)]]> m))
  | _ => setitem ds "ds_type" (YStr "json")
  end.

(** Lines 171-178.  The entries of a list are rewritten in place; iterating
    over anything else either has no element or fails on the first one. *)
Definition localize_datasets (dataset file_format : string)
    (config : gmap string yaml) : M (gmap string yaml) :=
  if negb (String.eqb file_format FileFormat_HF) then
    datasets ← of_result (getitem (YMap config) "datasets");
    entries ← of_result (py_iter datasets);
    entries ← of_result (traverse (localize_entry dataset) entries);
    match datasets with
    | YList _ => mret (<["datasets" := YList entries]> config)
    | _ => mret config
    end
  else mret config.

(** Lines 181-182; [tokenizer.eos_token] is a string or [None]. *)
Definition pad_token_setting (tokenizer : Tokenizer) (config : gmap string yaml)
  : gmap string yaml :=
  match pad_token_id tokenizer, eos_token_id tokenizer with
  | None, Some _ =>
      let eos := match eos_token tokenizer with
                 | Some s => YStr s
                 | None => YNull
                 end in
      <["special_tokens" := YMap {["pad_token" := eos]}]> config
  | _, _ => config
  end.

(** Line 184. *)
Definition task_family (dataset_type : DatasetType) : TaskFamily :=
  match dataset_type with
  | DpoDatasetType _ => DPO
  | GrpoDatasetType _ _ => GRPO
  | InstructTextDatasetType _ => INSTRUCT
  end.

(** Lines 136-169: the document before the dataset entries are rewritten. *)
Definition config_before_localize (task_id model dataset : string)
    (dataset_type : DatasetType) (file_format output_dir : string)
    (expected_repo_name : option string) (log_wandb : bool) : M (gmap string yaml) :=
  config ← base_config task_id model dataset dataset_type file_format output_dir
             expected_repo_name log_wandb;
  task_settings task_id dataset_type config.

(** Lines 136-178: the document before the tokenizer is consulted. *)
Definition config_before_tokenizer (task_id model dataset : string)
    (dataset_type : DatasetType) (file_format output_dir : string)
    (expected_repo_name : option string) (log_wandb : bool) : M (gmap string yaml) :=
  config ← config_before_localize task_id model dataset dataset_type file_format
             output_dir expected_repo_name log_wandb;
  localize_datasets dataset file_format config.

(** Lines 136-186: the document as it is handed to [save_config]. *)
Definition build_config (task_id model dataset : string) (dataset_type : DatasetType)
    (file_format output_dir : string) (expected_repo_name : option string)
    (log_wandb : bool) : M (gmap string yaml) :=
  config ← config_before_tokenizer task_id model dataset dataset_type file_format
             output_dir expected_repo_name log_wandb;
  let model_path := get_text_base_model_path X model in
  tokenizer ← of_result (AutoTokenizer_from_pretrained X model_path);
  let config := pad_token_setting tokenizer config in
  config ← of_result (customize_config X config (task_family dataset_type) model_path model);
  mret (<["val_set_size" := YInt 0]> config).

(** [create_config], lines 134-189. *)
Definition create_config (task_id model dataset : string) (dataset_type : DatasetType)
    (file_format output_dir : string) (expected_repo_name : option string)
    (log_wandb : bool) : M string :=
  config ← build_config task_id model dataset dataset_type file_format output_dir
             expected_repo_name log_wandb;
  configs ← const_getitem (AXOLOTL_DIRECTORIES X) "configs";
  let config_path := path_join configs (task_id ++ ".yml") in
  save_config config config_path;;
  mret config_path.

(** [copy_dataset_to_axolotl_directories], lines 125-131. *)
Definition copy_dataset_to_axolotl_directories (dataset_path : string) : M string :=
  let dataset_filename := basename dataset_path in
  let '(data_path, root_path) := get_axolotl_dataset_paths X dataset_filename in
  shutil_copy dataset_path data_path;;
  shutil_copy dataset_path root_path;;
  mret data_path.

(** ** The metadata patcher, lines 83-122 *)

Definition patch_readme_line (base_model_id line : string) : string :=
  if startswith (strip line) "base_model:"
  then "base_model: " ++ base_model_id ++ String newline EmptyString
  else line.

(** The body of the [try], lines 85-118.  [sink] is the standard output of
    the process that calls the patcher. *)
Definition patch_model_metadata_body (sink : nat -> option string)
    (output_dir base_model_id : string) : M unit :=
  let adapter_config_path := path_join output_dir "adapter_config.json" in
  found ← os_path_exists adapter_config_path;
  (if found : bool then
     text ← read_file adapter_config_path;
     config ← of_result (json_loads X text);
     config ← of_result (setitem config "base_model_name_or_path" (YStr base_model_id));
     write_file adapter_config_path (json_dumps X config);;
     print_on sink ("Updated adapter_config.json with base_model: " ++ base_model_id)
   else print_on sink " adapter_config.json not found");;
  let readme_path := path_join output_dir "README.md" in
  found ← os_path_exists readme_path;
  if found : bool then
    text ← read_file readme_path;
    let new_lines := patch_readme_line base_model_id <$> readlines text in
    write_file readme_path (writelines new_lines);;
    print_on sink ("Updated README.md with base_model: " ++ base_model_id)
  else print_on sink "README.md not found".

(** The handler of line 120 prints as well, outside any [try]. *)
Definition patch_model_metadata (sink : nat -> option string)
    (output_dir base_model_id : string) : M unit :=
  try_except (patch_model_metadata_body sink output_dir base_model_id)
             (fun e => print_on sink ("Error updating metadata: " ++ e)).

(** ** Interception of the trainer's construction, lines 260-272 *)

(** [patched_init]: the [callbacks] keyword argument handed on to the
    original initialiser. *)
Definition patched_init (c : Closure) (callbacks : option (list Callback))
  : list Callback :=
  let callbacks := default [] callbacks in
  if String.eqb (original_task_type c) TaskType_GRPOTASK then
    let when_to_eval_handler := mkWhenToEvalHandler (end_time c) 5 in
    callbacks ++ [GRPOCustomEvalSaveCallback when_to_eval_handler
                    (cl_submission_dir c) (cl_output_dir c) (original_model_name c)]
  else
    let when_to_eval_handler := mkWhenToEvalHandler (end_time c) 5 in
    callbacks ++ [CustomEvalSaveCallback when_to_eval_handler
                    (cl_submission_dir c) (cl_output_dir c) (original_model_name c)].

(** Constructing a trainer runs the installed wrappers from the outermost
    one inwards; the library's initialiser keeps the callbacks it receives. *)
Fixpoint Trainer_new (inits : list Closure) (callbacks : option (list Callback))
  : list Callback :=
  match inits with
  | [] => default [] callbacks
  | c :: inner => Trainer_new inner (Some (patched_init c callbacks))
  end.

(** [Trainer.__init__ = patched_init] *)
Definition install_patched_init (c : Closure) : M unit :=
  fun w => (Ret tt,
            mkWorld (fs w) (stdout w) (clock w) (clock_reads w)
                    (dist_initialized w) (c :: Trainer_init w)).

(** ** [setup_distributed], lines 47-54 *)

Definition mark_initialized : M unit :=
  fun w => (Ret tt,
            mkWorld (fs w) (stdout w) (clock w) (clock_reads w) true (Trainer_init w)).

Definition setup_distributed : M unit :=
  if 1 <? get_available_gpu_count X then
    initialized ← (fun w => (Ret (dist_initialized w), w));
    if initialized : bool then mret tt
    else
      of_result (init_process_group X);;
      mark_initialized;;
      of_result (barrier X)
  else mret tt.

(** ** [main], lines 192-278 *)

Record Args : Type := mkArgs {
  arg_task_id : string;
  arg_model : string;
  arg_dataset : string;
  arg_dataset_type : string;
  arg_task_type : string;
  arg_file_format : string;
  arg_expected_repo_name : option string;
  arg_hours_to_complete : float
}.

Definition task_type_choices : list string :=
  ["InstructTextTask"; "DpoTask"; "GrpoTask"].

Definition file_format_choices : list string := ["csv"; "json"; "hf"; "s3"].

(** [parser.parse_args()] on a command line that gives every required option
    once, with a budget that [float] accepts, and no [-h]: [Args] holds the
    values given, the budget as the double it was read as.  What is left of
    the parser is the two [choices] tests: a value outside an option's choices
    ends the process with status 2.  The text of the message that [argparse]
    writes is not reproduced. *)
Definition parse_args (argv : Args) : M Args :=
  if negb (bool_decide (arg_task_type argv ∈ task_type_choices)) then
    fun w => (Exit 2 ("argument --task-type: invalid choice: " ++ arg_task_type argv), w)
  else if negb (bool_decide (arg_file_format argv ∈ file_format_choices)) then
    fun w => (Exit 2 ("argument --file-format: invalid choice: " ++ arg_file_format argv), w)
  else mret argv.

(** [if not os.path.exists(d): os.makedirs(d, exist_ok=True)] *)
Definition ensure_dir (d : string) : M unit :=
  found ← os_path_exists d;
  if found : bool then mret tt else os_makedirs d.

(** Lines 221-228: the record of the task type, built from the decoded
    payload. *)
Definition construct_dataset_type (task_type : string) (dataset_type_dict : yaml)
  : M DatasetType :=
  if String.eqb task_type TaskType_DPOTASK then
    fields ← of_result (validate_DpoDatasetType X dataset_type_dict);
    mret (DpoDatasetType fields)
  else if String.eqb task_type TaskType_INSTRUCTTEXTTASK then
    fields ← of_result (validate_InstructTextDatasetType X dataset_type_dict);
    mret (InstructTextDatasetType fields)
  else if String.eqb task_type TaskType_GRPOTASK then
    '(reward_functions, fields) ←
      of_result (validate_GrpoDatasetType X dataset_type_dict);
    mret (GrpoDatasetType reward_functions fields)
  else sys_exit ("Unsupported task type: " ++ task_type).

(** Lines 218-230. *)
Definition load_dataset_type (args : Args) : M DatasetType :=
  try_except
    (dataset_type_dict ← of_result (json_loads X (arg_dataset_type args));
     construct_dataset_type (arg_task_type args) dataset_type_dict)
    (fun e => sys_exit ("Error creating dataset type object: " ++ e)).

(** Lines 215-249, the work of the main process. *)
Definition prepare_run (args : Args) (output_dir : string) : M unit :=
  for_each (AXOLOTL_DIRECTORIES X).*2 os_makedirs;;
  dataset_type ← load_dataset_type args;
  let dataset_path := get_text_dataset_path X (arg_task_id args) in
  (if String.eqb (arg_task_type args) TaskType_DPOTASK then
     lift_fs (adapt_columns_for_dpo_dataset X dataset_path dataset_type true)
   else if String.eqb (arg_task_type args) TaskType_GRPOTASK then
     lift_fs (adapt_columns_for_grpo_dataset X dataset_path dataset_type)
   else mret tt);;
  dataset_path ← copy_dataset_to_axolotl_directories dataset_path;
  create_config (arg_task_id args) (arg_model args) dataset_path dataset_type
    (arg_file_format args) output_dir (arg_expected_repo_name args) true;;
  mret tt.

(** Lines 252-272: distributed bootstrap, the end of the budget and the
    wrapper around [Trainer.__init__]. *)
Definition install_supervisor (args : Args) (submission_dir output_dir : string)
  : M unit :=
  let original_model_name := arg_model args in
  let original_task_type := arg_task_type args in
  setup_distributed;;
  now ← datetime_now;
  budget ← of_result (timedelta_hours (arg_hours_to_complete args));
  end_time ← of_result (datetime_add now budget);
  let end_time := strftime (zero_padded_year X) end_time in
  print ("end_time:  " ++ end_time);;
  install_patched_init
    (mkClosure original_task_type end_time submission_dir output_dir original_model_name).

(** Lines 275-278: the training loop constructs its trainers through the
    initialiser installed at that moment. *)
Definition run_training (config_path : string) : M unit :=
  fun w => lift_fs (do_cli X (Trainer_new (Trainer_init w)) config_path) w.

(** Lines 193-272: everything [main] does before it calls the training
    loop; the value is the path of the configuration document. *)
Definition main_preamble (LOCAL_RANK : Z) (argv : Args) : M string :=
  print "---STARTING TEXT TRAINING SCRIPT---";;
  args ← parse_args argv;
  let submission_dir :=
    get_checkpoints_output_path X (arg_task_id args) (arg_expected_repo_name args) in
  ensure_dir submission_dir;;
  let output_dir :=
    get_checkpoints_output_path X (arg_task_id args)
      (Some (fstr_opt (arg_expected_repo_name args) ++ "_temp")) in
  ensure_dir output_dir;;
  configs ← const_getitem (AXOLOTL_DIRECTORIES X) "configs";
  let config_path := path_join configs (arg_task_id args ++ ".yml") in
  (if is_main_process LOCAL_RANK then prepare_run args output_dir else mret tt);;
  install_supervisor args submission_dir output_dir;;
  mret config_path.

Definition main (LOCAL_RANK : Z) (argv : Args) : M unit :=
  config_path ← main_preamble LOCAL_RANK argv;
  run_training config_path.

End Script.


(** The deadline a process's supervisor consults: the end time held by the
    wrapper installed last. *)
Definition deadline_of (w : World) : option string :=
  end_time <$> head (Trainer_init w).

Definition is_grpo_callback (cb : Callback) : bool :=
  match cb with
  | GRPOCustomEvalSaveCallback _ _ _ _ => true
  | _ => false
  end.

Definition is_standard_callback (cb : Callback) : bool :=
  match cb with
  | CustomEvalSaveCallback _ _ _ _ => true
  | _ => false
  end.


(** [config[k1][k2]] when both exist. *)
Definition lookup2 (config : gmap string yaml) (k1 k2 : string) : option yaml :=
  match config !! k1 with
  | Some (YMap m) => m !! k2
  | _ => None
  end.

(** The supervisor's state after a sequence of step boundaries. *)
Fixpoint state_after (t : DeadlineTracker) (st : SupervisorState)
    (calls : list (Z * bool)) : SupervisorState :=
  match calls with
  | [] => st
  | (now, evaluate_now) :: calls' =>
      state_after t (snd (onStepBoundary t st now evaluate_now)) calls'
  end.

(** ** A concrete installation

    One set of collaborators and one initial world on which the script can be
    run from end to end. *)
Module Demo.

Definition directories : list (string * string) :=
  [("root", "/workspace/axolotl"); ("data", "/workspace/axolotl/data");
   ("src", "/workspace/axolotl/src"); ("configs", "/workspace/axolotl/configs")].

(** A JSON string literal and a text of lines. *)
Definition quoted (s : string) : string :=
  String (ascii_of_nat 34) (s ++ String (ascii_of_nat 34) "").

Definition text_of (lines : list string) : string :=
  fold_right (fun line rest => line ++ String newline rest) "" lines.

Definition base_yml : string :=
  text_of ["sequence_len: 2048"; "wandb_project: runs"; "val_set_size: 0.25"].

Definition base_grpo_yml : string :=
  text_of ["rl: grpo"; "trl:"; "  num_generations: 4"; "val_set_size: 0.25"].

Definition base_tokens_yml : string :=
  text_of ["special_tokens:"; "  pad_token: <pad>"; "val_set_size: 0.25"].

Definition base_template : yaml :=
  YMap (<["sequence_len" := YInt 2048]>
          (<["wandb_project" := YStr "runs"]>
             (<["val_set_size" := YFloat (Qmake 1 4)]> ∅))).

Definition grpo_template : yaml :=
  YMap (<["rl" := YStr "grpo"]>
          (<["trl" := YMap (<["num_generations" := YInt 4]> ∅)]>
             (<["val_set_size" := YFloat (Qmake 1 4)]> ∅))).

Definition tokens_template : yaml :=
  YMap (<["special_tokens" := YMap (<["pad_token" := YStr "<pad>"]> ∅)]>
          (<["val_set_size" := YFloat (Qmake 1 4)]> ∅)).

Definition instruct_payload : string :=
  "{" ++ quoted "field_instruction" ++ ": " ++ quoted "q" ++ ", "
      ++ quoted "field_output" ++ ": " ++ quoted "a" ++ "}".

Definition length_reward : string := "def length_reward(completions, **kwargs): return [0.0]".
Definition format_reward : string := "def format_reward(completions, **kwargs): return [1.0]".

Definition reward_json (body weight : string) : string :=
  "{" ++ quoted "reward_func" ++ ": " ++ quoted body ++ ", "
      ++ quoted "reward_weight" ++ ": " ++ weight ++ "}".

Definition grpo_payload : string :=
  "{" ++ quoted "field_prompt" ++ ": " ++ quoted "p" ++ ", "
      ++ quoted "reward_functions" ++ ": ["
      ++ reward_json length_reward "0.75" ++ ", "
      ++ reward_json format_reward "0.25" ++ "]}".

Definition adapter_config_json : string :=
  "{" ++ quoted "base_model_name_or_path" ++ ": " ++ quoted "/cache/models/m" ++ "}".

Definition grpo_rewards : list RewardFunction :=
  [mkRewardFunction length_reward (Qmake 3 4);
   mkRewardFunction format_reward (Qmake 1 4)].

Definition reward_value (rf : RewardFunction) : yaml :=
  YMap (<["reward_func" := YStr (reward_func rf)]>
          (<["reward_weight" := YFloat (reward_weight rf)]> ∅)).

(** What the decoder says of the text "{". *)
Definition open_brace_error : string :=
  "Expecting property name enclosed in double quotes: line 1 column 2 (char 1)".

(** [json.loads] on the texts used here, with the decoder's messages; any
    other text is refused. *)
Definition loads (text : string) : py_result yaml :=
  if String.eqb text instruct_payload then
    Ok (YMap (<["field_instruction" := YStr "q"]> (<["field_output" := YStr "a"]> ∅)))
  else if String.eqb text grpo_payload then
    Ok (YMap (<["field_prompt" := YStr "p"]>
                (<["reward_functions" := YList (reward_value <$> grpo_rewards)]> ∅)))
  else if String.eqb text adapter_config_json then
    Ok (YMap (<["base_model_name_or_path" := YStr "/cache/models/m"]> ∅))
  else if String.eqb text "{" then Err open_brace_error
  else Err "Expecting value: line 1 column 1 (char 0)".

(** [yaml.safe_load] on the three templates; any other text is refused. *)
Definition safe_load (text : string) : py_result yaml :=
  if String.eqb text base_yml then Ok base_template
  else if String.eqb text base_grpo_yml then Ok grpo_template
  else if String.eqb text base_tokens_yml then Ok tokens_template
  else Err "could not determine a constructor".

Definition validate (d : yaml) : py_result yaml :=
  match d with
  | YMap _ => Ok d
  | _ => Err ("argument after ** must be a mapping, not " ++ type_name d)
  end.

Definition tokenizer_of (model_path : string) : py_result Tokenizer :=
  if String.eqb model_path "/cache/models/with-pad"
  then Ok (mkTokenizer (Some 0) (Some 2) (Some "</s>"))
  else Ok (mkTokenizer None (Some 2) (Some "</s>")).

(** The installation, given the dataset entry that
    [create_dataset_entry] builds.  [yaml.dump] and [json.dumps] are stood
    for by fixed texts. *)
Definition installation_with (template : DatasetType -> string)
    (entry : string -> DatasetType -> string -> py_result yaml)
  : Collaborators := {|
  zero_padded_year := false;
  WANDB_LOGS_DIR := "/cache/wandb_logs";
  AXOLOTL_DIRECTORIES := directories;
  get_axolotl_base_config_path := template;
  get_text_base_model_path := fun model => "/cache/models/" ++ model;
  get_checkpoints_output_path := fun task_id name =>
    "/app/checkpoints/" ++ task_id ++ "/" ++ fstr_opt name;
  get_text_dataset_path := fun task_id => "/cache/datasets/" ++ task_id ++ "_train_data.json";
  get_axolotl_dataset_paths := fun name =>
    ("/workspace/axolotl/data/" ++ name, "/workspace/axolotl/" ++ name);
  validate_InstructTextDatasetType := validate;
  validate_DpoDatasetType := validate;
  validate_GrpoDatasetType := fun d => fields ← validate d; mret (grpo_rewards, fields);
  yaml_safe_load := safe_load;
  yaml_dump := fun _ => "<document>";
  json_loads := loads;
  json_dumps := fun _ => "<json>";
  create_dataset_entry := entry;
  update_flash_attention := fun config _ => Ok (<["flash_attention" := YBool false]> config);
  reward_module_name := fun task_id => "rewards_" ++ task_id;
  reward_func_name := fun i _ => "reward_func_" ++ pretty i;
  reward_module_text := fold_right String.append "";
  adapt_columns_for_dpo_dataset := fun _ _ _ f => (Ok tt, f);
  adapt_columns_for_grpo_dataset := fun _ _ f => (Ok tt, f);
  customize_config := fun config _ _ _ => Ok (<["micro_batch_size" := YInt 4]> config);
  get_available_gpu_count := 2;
  AutoTokenizer_from_pretrained := tokenizer_of;
  init_process_group := Ok tt;
  barrier := Ok tt;
  do_cli := fun _ _ f => (Ok tt, f)
|}.

Definition installation (entry : string -> DatasetType -> string -> py_result yaml)
  : Collaborators :=
  installation_with
    (fun dataset_type =>
       match dataset_type with
       | GrpoDatasetType _ _ => "/workspace/configs/base_grpo.yml"
       | _ => "/workspace/configs/base.yml"
       end)
    entry.

(** The usual entry names the dataset by its path. *)
Definition collaborators : Collaborators :=
  installation (fun dataset _ format =>
    Ok (YMap (<["path" := YStr dataset]> (<["type" := YStr format]> ∅)))).

(** An installation whose base template carries a [special_tokens] entry. *)
Definition with_special_tokens : Collaborators :=
  installation_with (fun _ => "/workspace/configs/base_tokens.yml")
    (fun dataset _ format =>
       Ok (YMap (<["path" := YStr dataset]> (<["type" := YStr format]> ∅)))).

(** An installation whose entries carry no path. *)
Definition pathless : Collaborators :=
  installation (fun _ _ format => Ok (YMap (<["type" := YStr format]> ∅))).

Definition disk : FS :=
  mkFS ∅
       (<["/workspace/configs/base.yml" := base_yml]>
          (<["/workspace/configs/base_grpo.yml" := base_grpo_yml]>
             (<["/workspace/configs/base_tokens.yml" := base_tokens_yml]>
                (<["/cache/datasets/t1_train_data.json" := "[]"]> ∅))))
       ∅.

(** A fresh process whose clock reads [now] microseconds. *)
Definition world (now : Z) : World := mkWorld disk [] (fun _ => now) 0 false [].

Definition argv (task_type payload model file_format : string) : Args :=
  mkArgs "t1" model "dataset" payload task_type file_format (Some "repo") 2%float.

End Demo.

(** ** What the claims speak about *)

(** The dataset entries of a configuration document: what the loop of lines
    172-178 iterates over. *)
Definition dataset_entries (config : gmap string yaml) : list yaml :=
  match config !! "datasets" with
  | Some v => match py_iter v with
              | Ok l => l
              | Err _ => []
              end
  | None => []
  end.

(** How lines 173-178 relate an entry [e] to the entry [e'] it becomes. *)
Definition entry_localized (X : Collaborators) (dataset : string) (e e' : yaml) : Prop :=
  exists m m' : gmap string yaml,
    e = YMap m /\ e' = YMap m' /\
    m' !! "ds_type" = Some (YStr "json") /\
    m' !! "data_files" = Some (YList [YStr (basename dataset)]) /\
    match m !! "path" with
    | Some _ => exists data, assoc "data" (AXOLOTL_DIRECTORIES X) = Some data /\
                             m' !! "path" = Some (YStr data)
    | None => m' !! "path" = None
    end /\
    forall k, k <> "ds_type" -> k <> "path" -> k <> "data_files" -> m' !! k = m !! k.

(** What C7 asks of an entry: its file list is the base name of the dataset
    file, and the path it had is now the local data directory. *)
Definition entry_points_to_local_file (X : Collaborators) (dataset : string)
    (e e' : yaml) : Prop :=
  exists m m' : gmap string yaml,
    e = YMap m /\ e' = YMap m' /\
    m' !! "data_files" = Some (YList [YStr (basename dataset)]) /\
    (is_Some (m !! "path") ->
     exists data, assoc "data" (AXOLOTL_DIRECTORIES X) = Some data /\
                  m' !! "path" = Some (YStr data)).

(** A computation that never raises [SystemExit]. *)
Definition no_exit {A : Type} (m : M A) : Prop :=
  forall w status msg w', m w <> (Exit status msg, w').

(** [customize_config] leaves the top-level key [k] as it finds it. *)
Definition customize_keeps (X : Collaborators) (k : string) : Prop :=
  forall config family model_path model config',
    customize_config X config family model_path model = Ok config' ->
    config' !! k = config !! k.

(** [customize_config] leaves [config["trl"][k]] as it finds it. *)
Definition customize_keeps_trl (X : Collaborators) (k : string) : Prop :=
  forall config family model_path model config',
    customize_config X config family model_path model = Ok config' ->
    lookup2 config' "trl" k = lookup2 config "trl" k.

(** The payload of an invocation is malformed, with error [e]: decoding it
    raises, or building the task type's record from it does. *)
Definition payload_malformed (X : Collaborators) (argv : Args) (e : string) : Prop :=
  json_loads X (arg_dataset_type argv) = Err e \/
  exists d, json_loads X (arg_dataset_type argv) = Ok d /\
            forall w, construct_dataset_type X (arg_task_type argv) d w = (Raise e, w).

(** The world after the banner of line 193 is printed. *)
Definition after_banner (w : World) : World :=
  snd (print "---STARTING TEXT TRAINING SCRIPT---" w).

(** The value a computation returns from a world, when it returns. *)
Definition returned {A : Type} (m : M A) (w : World) : option A :=
  match fst (m w) with
  | Ret a => Some a
  | _ => None
  end.

(** The part of a process that only the script itself changes: its clock,
    the number of clock readings made, the wrappers on [Trainer.__init__]. *)
Definition same_process (w w' : World) : Prop :=
  clock w' = clock w /\ clock_reads w' = clock_reads w /\
  Trainer_init w' = Trainer_init w.

(** Nothing happened but directories being made and lines being printed. *)
Definition only_directories (w w' : World) : Prop :=
  files (fs w') = files (fs w) /\ faults (fs w') = faults (fs w) /\
  dirs (fs w) ⊆ dirs (fs w') /\ same_process w w'.

(** Whatever its outcome, the computation relates the world it starts in to
    the world it leaves. *)
Definition preserves {A : Type} (R : World -> World -> Prop) (m : M A) : Prop :=
  forall w, R w (snd (m w)).


(** C6 as the specification words it: in the document that [create_config]
    builds, the pad token is overridden, with the tokenizer's end-of-sequence
    token, when the tokenizer has no pad token and has an end-of-sequence
    token; when it has both there is no pad-token override.
    [customize_config] is taken to leave [special_tokens] alone. *)
Definition pad_token_override_from_tokenizer_alone : Prop :=
  forall (X : Collaborators) (task_id model dataset : string) (dataset_type : DatasetType)
         (file_format output_dir : string) (expected_repo_name : option string)
         (log_wandb : bool) (w w1 : World) (doc : gmap string yaml)
         (tokenizer : Tokenizer),
    customize_keeps X "special_tokens" ->
    build_config X task_id model dataset dataset_type file_format output_dir
      expected_repo_name log_wandb w = (Ret doc, w1) ->
    AutoTokenizer_from_pretrained X (get_text_base_model_path X model) = Ok tokenizer ->
    (pad_token_id tokenizer = None -> is_Some (eos_token_id tokenizer) ->
     lookup2 doc "special_tokens" "pad_token"
     = Some (match eos_token tokenizer with Some s => YStr s | None => YNull end)) /\
    (is_Some (pad_token_id tokenizer) -> is_Some (eos_token_id tokenizer) ->
     lookup2 doc "special_tokens" "pad_token" = None).

(** A standard output that takes every line. *)
Definition accepts_writes (sink : nat -> option string) : Prop :=
  forall n, sink n = None.

(** C9 as the specification words it: whatever fails, the patcher returns
    normally. *)
Definition metadata_patch_never_propagates : Prop :=
  forall (X : Collaborators) (sink : nat -> option string)
         (output_dir base_model_id : string) (w : World),
    exists w', patch_model_metadata X sink output_dir base_model_id w = (Ret tt, w').


(** ** Further notions *)

(** What the patcher may change: the text of files that exist already, and
    the standard output. *)
Definition patched_only (paths : list string) (w w' : World) : Prop :=
  dirs (fs w') = dirs (fs w) /\ faults (fs w') = faults (fs w) /\
  dom (files (fs w')) = dom (files (fs w)) /\
  (forall p, p ∉ paths -> files (fs w') !! p = files (fs w) !! p) /\
  same_process w w'.

(** Lines 88-96 of the patcher: the sidecar at [path] gets its
    [base_model_name_or_path] replaced. *)
Definition update_adapter_config (X : Collaborators) (sink : nat -> option string)
    (path base_model_id : string) : M unit :=
  text ← read_file path;
  config ← of_result (json_loads X text);
  config ← of_result (setitem config "base_model_name_or_path" (YStr base_model_id));
  write_file path (json_dumps X config);;
  print_on sink ("Updated adapter_config.json with base_model: " ++ base_model_id).

(** Lines 103-116 of the patcher: the [base_model:] lines of the text at
    [path] are replaced. *)
Definition update_readme (sink : nat -> option string) (path base_model_id : string)
  : M unit :=
  text ← read_file path;
  let new_lines := patch_readme_line base_model_id <$> readlines text in
  write_file path (writelines new_lines);;
  print_on sink ("Updated README.md with base_model: " ++ base_model_id).

(** The text that lines 104-114 of the patcher write back for the text they
    read. *)
Definition patched_readme (base_model_id text : string) : string :=
  writelines (patch_readme_line base_model_id <$> readlines text).

(** The string holds no line feed. *)
Definition single_line (s : string) : Prop :=
  Forall (fun c => c <> newline) (list_ascii_of_string s).

(** A text of ASCII characters without carriage return: the texts that
    Python reads as they are stored, whatever the encoding of the locale, and
    on which [str.strip] removes the characters of [is_space] and no other. *)
Definition plain_text (s : string) : Prop :=
  Forall (fun c => (nat_of_ascii c < 128)%nat /\ c <> ascii_of_nat 13)
         (list_ascii_of_string s).

(** A terminated line: its only line feed is its last character. *)
Definition terminated (s : string) : Prop :=
  exists u, Forall (fun c => c <> newline) u /\
            list_ascii_of_string s = (u ++ [newline])%list.

(** An open line: not empty and without a line feed. *)
Definition open_line (s : string) : Prop :=
  s <> "" /\ single_line s.

(** The command line with another [--dataset]. *)
Definition with_dataset (argv : Args) (dataset : string) : Args :=
  mkArgs (arg_task_id argv) (arg_model argv) dataset (arg_dataset_type argv)
    (arg_task_type argv) (arg_file_format argv) (arg_expected_repo_name argv)
    (arg_hours_to_complete argv).

(** The command line with another [--dataset-type] payload. *)
Definition with_dataset_type (argv : Args) (payload : string) : Args :=
  mkArgs (arg_task_id argv) (arg_model argv) (arg_dataset argv) payload
    (arg_task_type argv) (arg_file_format argv) (arg_expected_repo_name argv)
    (arg_hours_to_complete argv).

(** * Properties *)

(** ** The Python layer on samples *)

Example strftime_sample :
  strftime false 1700000000999999 = "2023-11-14 22:13:20" /\
  strftime false (-30610310400000000) = "999-12-31 00:00:00" /\
  strftime true (-30610310400000000) = "0999-12-31 00:00:00".
Proof. repeat split; vm_compute; reflexivity. Qed.

Example basename_sample : basename "/workspace/axolotl/data/t1_train_data.json" = "t1_train_data.json".
Proof. vm_compute. reflexivity. Qed.

Example readlines_sample :
  readlines (String "a" (String newline (String "b" EmptyString)))
  = [String "a" (String newline EmptyString); "b"].
Proof. vm_compute. reflexivity. Qed.

(** [timedelta(hours=h)] for 2.5, for 16.47754111263889 (the double
    0x1.07a402265478cp+4, whose fraction of an hour is a whole number of
    microseconds and a half in double arithmetic), for -0.1, for one
    billionth of an hour, for a NaN and for a budget beyond the range. *)
Example timedelta_sample :
  timedelta_hours 0x1.4p+1 = Ok 9000000000 /\
  timedelta_hours 0x1.07a402265478cp+4 = Ok 59319148006 /\
  timedelta_hours (-0x1.999999999999ap-4) = Ok (-360000000) /\
  timedelta_hours 0x1.12e0be826d695p-30 = Ok 4 /\
  timedelta_hours PrimFloat.nan = Err "cannot convert float NaN to integer" /\
  timedelta_hours 0x1p+60 = Err "Python int too large to convert to C int" /\
  timedelta_hours 0x1.0c388dp+35
  = Err "days=1500000000; must have magnitude <= 999999999".
Proof. repeat split; vm_compute; reflexivity. Qed.

(** ** The supervisor *)

Section Supervisor.

Context (t : DeadlineTracker).

Lemma run_finalized (calls : list (Z * bool)) :
  run_boundaries t finalized calls = replicate (length calls) continueNormally.
Proof.
  induction calls as [|[now ev] calls IH]; simpl; [done|]. by rewrite IH.
Qed.

Lemma state_after_finalized (calls : list (Z * bool)) :
  state_after t finalized calls = finalized.
Proof. induction calls as [|[now ev] calls IH]; simpl; done. Qed.

(** Before the trigger a pending supervisor stays pending and never answers
    with the final decision. *)
Lemma step_before_trigger (now : Z) (ev : bool) :
  isPastTrigger t now = false ->
  snd (onStepBoundary t pending now ev) = pending /\
  is_final (fst (onStepBoundary t pending now ev)) = false.
Proof. intros H. simpl. rewrite H. by destruct ev. Qed.

Lemma step_at_trigger (now : Z) (ev : bool) :
  isPastTrigger t now = true ->
  onStepBoundary t pending now ev = (forceFinalEvalAndSave, finalized).
Proof. intros H. simpl. by rewrite H. Qed.

(** A run either never reaches the trigger, or splits at the first boundary
    that does. *)
Lemma run_pending_split (calls : list (Z * bool)) :
  (Forall (fun c => isPastTrigger t c.1 = false) calls /\
   Forall (fun d => is_final d = false) (run_boundaries t pending calls) /\
   state_after t pending calls = pending)
  \/
  (exists pre now ev post,
     calls = (pre ++ (now, ev) :: post)%list /\
     Forall (fun c => isPastTrigger t c.1 = false) pre /\
     isPastTrigger t now = true /\
     Forall (fun d => is_final d = false) (run_boundaries t pending pre) /\
     run_boundaries t pending calls =
       (run_boundaries t pending pre ++
        forceFinalEvalAndSave :: replicate (length post) continueNormally)%list /\
     state_after t pending calls = finalized).
Proof.
  induction calls as [|[now ev] calls IH].
  - left. by repeat split; constructor.
  - destruct (isPastTrigger t now) eqn:Hnow.
    + right. exists [], now, ev, calls.
      cbn [run_boundaries state_after app].
      rewrite (step_at_trigger _ _ Hnow). cbn [snd].
      rewrite run_finalized, state_after_finalized.
      by repeat split; try constructor.
    + destruct (step_before_trigger now ev Hnow) as [Hst Hd].
      cbn [run_boundaries state_after].
      destruct (onStepBoundary t pending now ev) as [d st] eqn:Hstep.
      cbn [fst snd] in *. subst st.
      destruct IH as [(Hall & Hds & Hfin) | (pre & now' & ev' & post & -> & Hpre & Hnow' & Hdpre & Hrun & Hfin)].
      * left. repeat split; [by constructor | by constructor | done].
      * right. exists ((now, ev) :: pre), now', ev', post.
        cbn [app run_boundaries]. rewrite Hstep.
        repeat split; [by constructor | done | by constructor | by rewrite Hrun | done].
Qed.

Lemma run_length (st : SupervisorState) (calls : list (Z * bool)) :
  length (run_boundaries t st calls) = length calls.
Proof.
  revert st. induction calls as [|[now ev] calls IH]; intros st; simpl; [done|].
  destruct (onStepBoundary t st now ev). simpl. by rewrite IH.
Qed.

Lemma filter_final_none (ds : list SaveDecision) :
  Forall (fun d => is_final d = false) ds ->
  filter (fun d => is_final d = true) ds = [].
Proof.
  induction 1 as [|d ds Hd _ IH]; [done|].
  rewrite filter_cons. destruct (decide (is_final d = true)); [congruence | done].
Qed.

Lemma filter_final_replicate (n : nat) :
  filter (fun d => is_final d = true) (replicate n continueNormally) = [].
Proof.
  apply filter_final_none. apply Forall_forall. intros d Hd.
  apply elem_of_replicate in Hd as [-> _]. done.
Qed.

End Supervisor.

(** C2. Over any sequence of step boundaries reached at non-decreasing times,
    a supervisor that starts pending answers forceFinalEvalAndSave at most
    once; after that answer every later boundary of the sequence, and every
    further call whatever its time, gets continueNormally; and the first
    boundary at or after Deadline - SafetyMargin gets forceFinalEvalAndSave. *)
Theorem supervisor_final_exactly_at_first_trigger
    (t : DeadlineTracker) (calls : list (Z * bool)) :
  nondecreasing calls.*1 ->
  let ds := run_boundaries t pending calls in
  (length (filter (fun d => is_final d = true) ds) <= 1)%nat /\
  (forall i j d, (i < j)%nat -> ds !! i = Some forceFinalEvalAndSave ->
                 ds !! j = Some d -> d = continueNormally) /\
  (forceFinalEvalAndSave ∈ ds ->
   forall now ev, onStepBoundary t (state_after t pending calls) now ev
                  = (continueNormally, finalized)) /\
  (forall i now ev,
     calls !! i = Some (now, ev) ->
     Deadline t - SafetyMargin t <= now ->
     (forall j now' ev', (j < i)%nat -> calls !! j = Some (now', ev') ->
                         now' < Deadline t - SafetyMargin t) ->
     ds !! i = Some forceFinalEvalAndSave).
Proof.
  intros _ ds. subst ds.
  destruct (run_pending_split t calls)
    as [(Hall & Hds & Hfin) | (pre & now0 & ev0 & post & -> & Hpre & Hnow0 & Hdpre & Hrun & Hfin)].
  - (* the trigger is never reached *)
    repeat split.
    + rewrite filter_final_none by done. simpl. lia.
    + intros i j d _ Hi _. rewrite Forall_forall in Hds.
      apply list_elem_of_lookup_2 in Hi. by apply Hds in Hi.
    + intros Hin. rewrite Forall_forall in Hds. by apply Hds in Hin.
    + intros i now ev Hi Hnow _. rewrite Forall_forall in Hall.
      apply list_elem_of_lookup_2 in Hi. apply Hall in Hi.
      unfold isPastTrigger in Hi. simpl in Hi. lia.
  - (* it is reached first at position [length pre] *)
    assert (Hlen : length (run_boundaries t pending pre) = length pre)
      by apply run_length.
    rewrite Hrun. repeat split.
    + rewrite filter_app, filter_cons, filter_final_replicate.
      rewrite filter_final_none by done. simpl. lia.
    + intros i j d Hij Hi Hj.
      destruct (decide (i < length pre)%nat) as [Hlt|Hge].
      * rewrite lookup_app_l in Hi by lia.
        rewrite Forall_forall in Hdpre.
        apply list_elem_of_lookup_2 in Hi. by apply Hdpre in Hi.
      * rewrite lookup_app_r in Hj by lia.
        destruct (j - length (run_boundaries t pending pre))%nat as [|k] eqn:Hk; [lia|].
        simpl in Hj. apply lookup_replicate in Hj as [-> _]. done.
    + intros _ now ev. rewrite Hfin. done.
    + intros i now ev Hi Hnow Hfirst.
      destruct (decide (i < length pre)%nat) as [Hlt|Hge].
      * rewrite lookup_app_l in Hi by lia.
        rewrite Forall_forall in Hpre.
        apply list_elem_of_lookup_2 in Hi. apply Hpre in Hi.
        unfold isPastTrigger in Hi. simpl in Hi. lia.
      * destruct (decide (i = length pre)) as [->|Hne].
        -- rewrite lookup_app_r by lia. rewrite Hlen, Nat.sub_diag. done.
        -- exfalso.
           specialize (Hfirst (length pre) now0 ev0).
           unfold isPastTrigger in Hnow0.
           assert (now0 < Deadline t - SafetyMargin t); [|lia].
           apply Hfirst; [lia|].
           rewrite lookup_app_r by lia. by rewrite Nat.sub_diag.
Qed.

(** A two-hour budget with a five-minute margin and a boundary every ten
    minutes (times in minutes): the twelfth boundary, and no other, is the
    final one. *)
Lemma supervisor_final_exactly_at_first_trigger_witness :
  nondecreasing [10; 20; 30; 40; 50; 60; 70; 80; 90; 100; 110; 120; 130] /\
  run_boundaries (mkDeadlineTracker 120 5) pending
    ((fun now => (now, false)) <$> [10; 20; 30; 40; 50; 60; 70; 80; 90; 100; 110; 120; 130])
    !! 11%nat = Some forceFinalEvalAndSave.
Proof.
  split; [simpl; lia|].
  apply (supervisor_final_exactly_at_first_trigger (mkDeadlineTracker 120 5)
           ((fun now => (now, false)) <$> [10; 20; 30; 40; 50; 60; 70; 80; 90; 100; 110; 120; 130]))
    with (now := 120) (ev := false).
  - simpl; lia.
  - reflexivity.
  - simpl; lia.
  - intros j now' ev' Hj Hlk.
    do 11 (destruct j as [|j]; [inversion Hlk; simpl; lia|]). lia.
Defined.

(** ** Reasoning about the monad *)

Lemma pair_of_fst {A B : Type} (x : A * B) (a : A) : fst x = a -> x = (a, snd x).
Proof. destruct x. simpl. by intros ->. Qed.

Lemma bind_run {A B : Type} (m : M A) (f : A -> M B) (w : World) :
  (m ≫= f) w = match m w with
               | (Ret a, w') => f a w'
               | (Raise e, w') => (Raise e, w')
               | (Exit s msg, w') => (Exit s msg, w')
               end.
Proof. reflexivity. Qed.

Lemma bind_ret_inv {A B : Type} (m : M A) (f : A -> M B) (w w' : World) (b : B) :
  (m ≫= f) w = (Ret b, w') ->
  exists a w1, m w = (Ret a, w1) /\ f a w1 = (Ret b, w').
Proof.
  rewrite bind_run. destruct (m w) as [[a|e|s msg] w1]; [eauto | done | done].
Qed.

Lemma bind_assoc_run {A B C : Type} (m : M A) (f : A -> M B) (g : B -> M C) (w : World) :
  ((m ≫= f) ≫= g) w = (m ≫= (fun a => f a ≫= g)) w.
Proof.
  rewrite !bind_run. destruct (m w) as [[a|e|s msg] w1]; by rewrite ?bind_run.
Qed.

Lemma of_result_ret_inv {A : Type} (r : py_result A) (w w' : World) (a : A) :
  of_result r w = (Ret a, w') -> r = Ok a /\ w' = w.
Proof. destruct r; unfold of_result; intros [= <- <-] || intros [=]; done. Qed.

Lemma lift_fs_ret_inv {A : Type} (f : FS -> py_result A * FS) (w w' : World) (a : A) :
  lift_fs f w = (Ret a, w') -> exists f', f (fs w) = (Ok a, f') /\ w' = set_fs f' w.
Proof.
  unfold lift_fs. destruct (f (fs w)) as [[x|e] f']; intros [= <- <-] || intros [=]; eauto.
Qed.

Lemma no_exit_bind {A B : Type} (m : M A) (f : A -> M B) :
  no_exit m -> (forall a, no_exit (f a)) -> no_exit (m ≫= f).
Proof.
  intros Hm Hf w s msg w'. rewrite bind_run.
  destruct (m w) as [[a|e|s0 msg0] w1] eqn:Hmw.
  - apply Hf.
  - done.
  - exfalso. by eapply Hm.
Qed.

Lemma no_exit_ret {A : Type} (a : A) : no_exit (mret a : M A).
Proof. by intros w s msg w'. Qed.

Lemma no_exit_of_result {A : Type} (r : py_result A) : no_exit (of_result r).
Proof. intros w s msg w'. by destruct r. Qed.

Lemma no_exit_lift_fs {A : Type} (f : FS -> py_result A * FS) : no_exit (lift_fs f).
Proof. intros w s msg w'. unfold lift_fs. by destruct (f (fs w)) as [[a|e] f']. Qed.

Lemma no_exit_print (line : string) : no_exit (print line).
Proof. by intros w s msg w'. Qed.

Lemma no_exit_exists (p : string) : no_exit (os_path_exists p).
Proof. by intros w s msg w'. Qed.

Lemma no_exit_print_on (sink : nat -> option string) (line : string) :
  no_exit (print_on sink line).
Proof. intros w s msg w'. unfold print_on. by destruct (sink _). Qed.

Lemma no_exit_body (X : Collaborators) (sink : nat -> option string)
    (output_dir base_model_id : string) :
  no_exit (patch_model_metadata_body X sink output_dir base_model_id).
Proof.
  unfold patch_model_metadata_body, read_file, write_file.
  repeat first
    [ apply no_exit_bind; [|intros ?]
    | apply no_exit_of_result | apply no_exit_lift_fs | apply no_exit_print_on
    | apply no_exit_exists | apply no_exit_ret
    | match goal with |- no_exit (if ?b then _ else _) => destruct b end ].
Qed.

Lemma print_on_accepted (sink : nat -> option string) (line : string) (w : World) :
  sink (length (stdout w)) = None -> print_on sink line w = print line w.
Proof. unfold print_on. by intros ->. Qed.

(** C9, amended. Whatever the output directory, the model identifier and the
    state of the file system (files missing, unreadable, unwritable, not
    JSON, not a JSON object): the patcher never ends the process; when the
    standard output takes every line it returns normally, and when its body
    raised, the error was printed and nothing else happened; the only
    exception that ever leaves it is the one raised by the handler's own
    [print] on a standard output that refuses the line. *)
Theorem patch_model_metadata_raises_only_from_stdout
    (X : Collaborators) (sink : nat -> option string)
    (output_dir base_model_id : string) (w : World) :
  (accepts_writes sink ->
   exists w',
     patch_model_metadata X sink output_dir base_model_id w = (Ret tt, w') /\
     forall e w1,
       patch_model_metadata_body X sink output_dir base_model_id w = (Raise e, w1) ->
       w' = snd (print ("Error updating metadata: " ++ e) w1)) /\
  (forall status msg w',
     patch_model_metadata X sink output_dir base_model_id w <> (Exit status msg, w')) /\
  (forall e w',
     patch_model_metadata X sink output_dir base_model_id w = (Raise e, w') ->
     sink (length (stdout w')) = Some e /\
     exists e0, patch_model_metadata_body X sink output_dir base_model_id w
                = (Raise e0, w')).
Proof.
  unfold patch_model_metadata, try_except.
  destruct (patch_model_metadata_body X sink output_dir base_model_id w)
    as [[[]|e|s msg] w1] eqn:Hbody.
  - split; [|split]; [|done|done].
    intros _. exists w1. split; [done|]. intros e w2 [=].
  - split; [|split].
    + intros Hsink. eexists. split; [by rewrite print_on_accepted|].
      by intros e' w2 [= <- <-].
    + intros status msg w'. unfold print_on. by destruct (sink _).
    + intros e' w'. unfold print_on.
      destruct (sink (length (stdout w1))) as [e1|] eqn:Hsink; [|done].
      intros [= <- <-]. split; [done | by exists e].
  - exfalso. by eapply no_exit_body.
Qed.

(** A standard output that takes every line, an output directory with
    nothing in it. *)
Lemma patch_model_metadata_raises_only_from_stdout_witness :
  exists w',
    patch_model_metadata Demo.collaborators (fun _ => None) "/out" "org/model"
      (Demo.world 0) = (Ret tt, w').
Proof.
  destruct (proj1 (patch_model_metadata_raises_only_from_stdout Demo.collaborators
                     (fun _ => None) "/out" "org/model" (Demo.world 0))
              (fun _ => eq_refl)) as (w' & Hrun & _).
  by exists w'.
Defined.

(** C9 fails as stated: with a standard output whose reader has gone, the
    first [print] of the body raises, and so does the [print] of the handler,
    outside any [try]. *)
Lemma metadata_patch_propagates_stdout_error : ~ metadata_patch_never_propagates.
Proof.
  intros Hclaim.
  destruct (Hclaim Demo.collaborators (fun _ => Some "[Errno 32] Broken pipe")
              "/out" "org/model" (Demo.world 0)) as (w' & Hrun).
  vm_compute in Hrun. discriminate Hrun.
Qed.

(** The patcher on three output directories of the concrete installation:
    both files present, the sidecar not JSON, nothing there. *)
Example patch_model_metadata_samples :
  let readme := "tags: x" ++ String newline ("  base_model: /cache/models/m" ++ String newline "") in
  let good := mkFS ∅ (<["/out/adapter_config.json" := Demo.adapter_config_json]>
                        (<["/out/README.md" := readme]> ∅)) ∅ in
  let bad := mkFS ∅ (<["/out/adapter_config.json" := "not json"]>
                       (<["/out/README.md" := readme]> ∅)) ∅ in
  let run f := patch_model_metadata Demo.collaborators (fun _ => None) "/out" "org/model"
                 (mkWorld f [] (fun _ => 0) 0 false []) in
  (fst (run good) = Ret tt /\
   files (fs (snd (run good))) !! "/out/README.md"
     = Some ("tags: x" ++ String newline ("base_model: org/model" ++ String newline "")) /\
   stdout (snd (run good))
     = ["Updated adapter_config.json with base_model: org/model";
        "Updated README.md with base_model: org/model"]) /\
  (fst (run bad) = Ret tt /\
   files (fs (snd (run bad))) = files bad /\
   stdout (snd (run bad))
   = ["Error updating metadata: Expecting value: line 1 column 1 (char 0)"]) /\
  (fst (run Demo.disk) = Ret tt /\
   stdout (snd (run Demo.disk)) = [" adapter_config.json not found"; "README.md not found"]).
Proof. repeat split; vm_compute; reflexivity. Qed.

(** ** The configuration builder *)

Lemma write_fs_ok (p text : string) (f f' : FS) :
  write_fs p text f = (Ok tt, f') ->
  files f' = <[p := text]> (files f) /\ dirs f' = dirs f /\ faults f' = faults f.
Proof.
  unfold write_fs, fs_fault. destruct (faults f !! p); [done|].
  case_bool_decide; [done|]. by intros [= <-].
Qed.

Lemma const_getitem_ret_inv (d : list (string * string)) (k v : string) (w w' : World) :
  const_getitem d k w = (Ret v, w') -> assoc k d = Some v /\ w' = w.
Proof.
  unfold const_getitem. destruct (assoc k d); [by intros [= <- <-] | done].
Qed.

Lemma traverse_Forall2 {A B : Type} (f : A -> py_result B) (xs : list A) (ys : list B) :
  traverse f xs = Ok ys -> Forall2 (fun x y => f x = Ok y) xs ys.
Proof.
  revert ys. induction xs as [|x xs IH]; intros ys; simpl.
  - intros [= <-]. constructor.
  - destruct (f x) as [y|e] eqn:Hfx; simpl; [|done].
    destruct (traverse f xs) as [ys'|e] eqn:Hxs; simpl; [|done].
    intros [= <-]. constructor; [done | by apply IH].
Qed.

Section ConfigBuilder.

Context (X : Collaborators).
Context (task_id model dataset : string) (dataset_type : DatasetType).
Context (file_format output_dir : string) (expected_repo_name : option string).
Context (log_wandb : bool).

Abbreviation build := (build_config X task_id model dataset dataset_type file_format
                     output_dir expected_repo_name log_wandb).
Abbreviation create := (create_config X task_id model dataset dataset_type file_format
                      output_dir expected_repo_name log_wandb).
Abbreviation before_tokenizer :=
  (config_before_tokenizer X task_id model dataset dataset_type file_format
     output_dir expected_repo_name log_wandb).
Abbreviation before_localize :=
  (config_before_localize X task_id model dataset dataset_type file_format
     output_dir expected_repo_name log_wandb).

(** A successful [create_config] has built a document and written its dump
    under the path it returns. *)
Lemma create_config_inv (w w' : World) (p : string) :
  create w = (Ret p, w') ->
  exists doc w1,
    build w = (Ret doc, w1) /\ files (fs w') !! p = Some (yaml_dump X doc).
Proof.
  unfold create_config. intros H.
  apply bind_ret_inv in H as (doc & w1 & Hbuild & H).
  apply bind_ret_inv in H as (configs & w2 & Hcfg & H).
  apply const_getitem_ret_inv in Hcfg as [_ ->].
  apply bind_ret_inv in H as ([] & w3 & Hsave & H).
  injection H as <- <-.
  unfold save_config, write_file in Hsave.
  apply lift_fs_ret_inv in Hsave as (f' & Hw & ->).
  apply write_fs_ok in Hw as (Hfiles & _ & _).
  exists doc, w1. split; [done|]. simpl. rewrite Hfiles. apply lookup_insert_eq.
Qed.

(** The last steps of [build_config]: tokenizer, overrides, validation
    split. *)
Lemma build_config_inv (w w1 : World) (doc : gmap string yaml) :
  build w = (Ret doc, w1) ->
  exists pre tokenizer customized,
    before_tokenizer w = (Ret pre, w1) /\
    AutoTokenizer_from_pretrained X (get_text_base_model_path X model) = Ok tokenizer /\
    customize_config X (pad_token_setting tokenizer pre) (task_family dataset_type)
      (get_text_base_model_path X model) model = Ok customized /\
    doc = <["val_set_size" := YInt 0]> customized.
Proof.
  unfold build_config. intros H.
  apply bind_ret_inv in H as (pre & w2 & Hpre & H).
  apply bind_ret_inv in H as (tok & w3 & Htok & H).
  apply of_result_ret_inv in Htok as [Htok ->].
  apply bind_ret_inv in H as (c & w4 & Hc & H).
  apply of_result_ret_inv in Hc as [Hc ->].
  injection H as <- <-. by exists pre, tok, c.
Qed.

Lemma before_tokenizer_inv (w w1 : World) (pre : gmap string yaml) :
  before_tokenizer w = (Ret pre, w1) ->
  exists c0 w0,
    before_localize w = (Ret c0, w0) /\
    localize_datasets X dataset file_format c0 w0 = (Ret pre, w1).
Proof.
  unfold config_before_tokenizer. intros H.
  apply bind_ret_inv in H as (c0 & w0 & H0 & H). eauto.
Qed.

End ConfigBuilder.

(** C8. Whatever the task type and the other inputs, the document that a
    successful [create_config] hands to [save_config], and whose dump is the
    content of the file it returns the path of, has [val_set_size] equal
    to 0. *)
Theorem create_config_val_set_size_zero
    (X : Collaborators) (task_id model dataset : string) (dataset_type : DatasetType)
    (file_format output_dir : string) (expected_repo_name : option string)
    (log_wandb : bool) (w w' : World) (p : string) :
  create_config X task_id model dataset dataset_type file_format output_dir
    expected_repo_name log_wandb w = (Ret p, w') ->
  exists doc w1,
    build_config X task_id model dataset dataset_type file_format output_dir
      expected_repo_name log_wandb w = (Ret doc, w1) /\
    files (fs w') !! p = Some (yaml_dump X doc) /\
    doc !! "val_set_size" = Some (YInt 0).
Proof.
  intros H. apply create_config_inv in H as (doc & w1 & Hbuild & Hfile).
  exists doc, w1. repeat split; [done | done |].
  apply build_config_inv in Hbuild as (pre & tok & c & _ & _ & _ & ->).
  apply lookup_insert_eq.
Qed.

(** An instruction-tuning run on the concrete installation: the template
    asks for a 5% validation split, the persisted document for none. *)
Lemma create_config_val_set_size_zero_witness :
  exists doc w1,
    build_config Demo.collaborators "t1" "m" "/workspace/axolotl/data/t1_train_data.json"
      (InstructTextDatasetType YNull) "json" "/out" (Some "repo") true
      (Demo.world 0) = (Ret doc, w1) /\
    files (fs (snd (create_config Demo.collaborators "t1" "m"
                      "/workspace/axolotl/data/t1_train_data.json"
                      (InstructTextDatasetType YNull) "json" "/out" (Some "repo") true
                      (Demo.world 0)))) !! "/workspace/axolotl/configs/t1.yml"
      = Some (yaml_dump Demo.collaborators doc) /\
    doc !! "val_set_size" = Some (YInt 0).
Proof.
  apply (create_config_val_set_size_zero Demo.collaborators "t1" "m"
           "/workspace/axolotl/data/t1_train_data.json" (InstructTextDatasetType YNull)
           "json" "/out" (Some "repo") true (Demo.world 0)).
  vm_compute. reflexivity.
Defined.

Lemma localize_datasets_keeps (X : Collaborators) (dataset file_format k : string)
    (config config' : gmap string yaml) (w w' : World) :
  localize_datasets X dataset file_format config w = (Ret config', w') ->
  k <> "datasets" -> config' !! k = config !! k.
Proof.
  unfold localize_datasets. intros H Hk.
  destruct (negb (file_format =? FileFormat_HF)%string); [|by injection H as <- <-].
  apply bind_ret_inv in H as (ds & w1 & _ & H).
  apply bind_ret_inv in H as (es & w2 & _ & H).
  apply bind_ret_inv in H as (es' & w3 & _ & H).
  destruct ds; injection H as <- <-; try done.
  by rewrite lookup_insert_ne.
Qed.

Lemma pad_token_setting_keeps (tokenizer : Tokenizer) (config : gmap string yaml)
    (k : string) :
  k <> "special_tokens" -> pad_token_setting tokenizer config !! k = config !! k.
Proof.
  intros Hk. unfold pad_token_setting.
  destruct (pad_token_id tokenizer), (eos_token_id tokenizer); try done.
  by rewrite lookup_insert_ne.
Qed.

Lemma lookup2_congr (c c' : gmap string yaml) (k1 k2 : string) :
  c' !! k1 = c !! k1 -> lookup2 c' k1 k2 = lookup2 c k1 k2.
Proof. unfold lookup2. by intros ->. Qed.

(** The two lists that lines 163-169 leave under [config["trl"]]. *)
Lemma task_settings_grpo (X : Collaborators) (task_id : string)
    (reward_functions : list RewardFunction) (fields : yaml)
    (config config' : gmap string yaml) (w w' : World) :
  task_settings X task_id (GrpoDatasetType reward_functions fields) config w
    = (Ret config', w') ->
  lookup2 config' "trl" "reward_funcs"
    = Some (YList ((fun func_name => YStr (reward_module_name X task_id ++ "." ++ func_name))
                     <$> imap (reward_func_name X) (reward_func <$> reward_functions))) /\
  lookup2 config' "trl" "reward_weights"
    = Some (YList ((fun rf => YFloat (reward_weight rf)) <$> reward_functions)).
Proof.
  unfold task_settings. intros H.
  apply bind_ret_inv in H as (src & w1 & _ & H).
  apply bind_ret_inv in H as ([filename names] & w2 & Hfile & H).
  unfold create_reward_funcs_file in Hfile.
  apply bind_ret_inv in Hfile as ([] & w3 & _ & Hfile).
  injection Hfile as <- <- <-.
  apply bind_ret_inv in H as (trl & w4 & Htrl & H).
  apply of_result_ret_inv in Htrl as [Htrl ->].
  apply bind_ret_inv in H as (trl1 & w5 & Htrl1 & H).
  apply of_result_ret_inv in Htrl1 as [Htrl1 ->].
  destruct trl as [| | | | | |t]; try done. injection Htrl1 as <-.
  apply bind_ret_inv in H as (trl2 & w6 & Htrl2 & H).
  apply of_result_ret_inv in Htrl2 as [Htrl2 ->].
  simpl in Htrl2. rewrite lookup_insert_eq in Htrl2. injection Htrl2 as <-.
  apply bind_ret_inv in H as (trl3 & w7 & Htrl3 & H).
  apply of_result_ret_inv in Htrl3 as [Htrl3 ->].
  injection Htrl3 as <-. injection H as <- <-.
  unfold lookup2. rewrite lookup_insert_eq. split.
  - rewrite lookup_insert_ne by done. by rewrite lookup_insert_eq.
  - by rewrite lookup_insert_eq.
Qed.

(** C5. For a GRPO dataset type with N reward functions, the document that a
    successful [create_config] persists has, under [trl], a [reward_funcs]
    list and a [reward_weights] list of length N each; the i-th reference is
    the generated module's name, a dot and the name generated for the i-th
    source, and the i-th weight is the i-th pair's weight.  [customize_config]
    is assumed to leave the two lists alone. *)
Theorem grpo_reward_lists_aligned
    (X : Collaborators) (task_id model dataset : string)
    (reward_functions : list RewardFunction) (fields : yaml)
    (file_format output_dir : string) (expected_repo_name : option string)
    (log_wandb : bool) (w w' : World) (p : string) :
  customize_keeps_trl X "reward_funcs" ->
  customize_keeps_trl X "reward_weights" ->
  create_config X task_id model dataset (GrpoDatasetType reward_functions fields)
    file_format output_dir expected_repo_name log_wandb w = (Ret p, w') ->
  exists doc w1 refs weights,
    build_config X task_id model dataset (GrpoDatasetType reward_functions fields)
      file_format output_dir expected_repo_name log_wandb w = (Ret doc, w1) /\
    files (fs w') !! p = Some (yaml_dump X doc) /\
    lookup2 doc "trl" "reward_funcs" = Some (YList refs) /\
    lookup2 doc "trl" "reward_weights" = Some (YList weights) /\
    length refs = length reward_functions /\
    length weights = length reward_functions /\
    forall i rf,
      reward_functions !! i = Some rf ->
      refs !! i = Some (YStr (reward_module_name X task_id ++ "." ++
                              reward_func_name X i (reward_func rf))) /\
      weights !! i = Some (YFloat (reward_weight rf)).
Proof.
  intros Hfuncs Hweights H.
  apply create_config_inv in H as (doc & w1 & Hbuild & Hfile).
  pose proof Hbuild as Hdoc.
  apply build_config_inv in Hdoc as (pre & tok & c & Hpre & _ & Hc & ->).
  apply before_tokenizer_inv in Hpre as (c0 & w0 & Hc0 & Hloc).
  unfold config_before_localize in Hc0.
  apply bind_ret_inv in Hc0 as (c1 & w2 & _ & Hts).
  apply task_settings_grpo in Hts as [Hrefs Hws].
  assert (Hpre_trl : forall k, lookup2 (pad_token_setting tok pre) "trl" k
                               = lookup2 c0 "trl" k).
  { intros k. apply lookup2_congr.
    rewrite pad_token_setting_keeps by done.
    by eapply localize_datasets_keeps. }
  eexists _, w1, _, _. split; [exact Hbuild|]. split; [exact Hfile|].
  split; [|split].
  - rewrite (lookup2_congr c) by (by rewrite lookup_insert_ne).
    rewrite (Hfuncs _ _ _ _ _ Hc), Hpre_trl. exact Hrefs.
  - rewrite (lookup2_congr c) by (by rewrite lookup_insert_ne).
    rewrite (Hweights _ _ _ _ _ Hc), Hpre_trl. exact Hws.
  - split; [|split].
    + by rewrite length_fmap, length_imap, length_fmap.
    + by rewrite length_fmap.
    + intros i rf Hi. split.
      * rewrite list_lookup_fmap, list_lookup_imap, list_lookup_fmap, Hi. done.
      * by rewrite list_lookup_fmap, Hi.
Qed.

Lemma demo_customize_keeps_trl (k : string) : customize_keeps_trl Demo.collaborators k.
Proof.
  intros config family model_path model config' [= <-].
  apply lookup2_congr. by rewrite lookup_insert_ne.
Qed.

(** A GRPO run with two reward functions on the concrete installation. *)
Lemma grpo_reward_lists_aligned_witness :
  exists doc w1 refs weights,
    build_config Demo.collaborators "t1" "m" "/workspace/axolotl/data/t1_train_data.json"
      (GrpoDatasetType Demo.grpo_rewards YNull) "json" "/out" (Some "repo") true
      (Demo.world 0) = (Ret doc, w1) /\
    files (fs (snd (create_config Demo.collaborators "t1" "m"
                      "/workspace/axolotl/data/t1_train_data.json"
                      (GrpoDatasetType Demo.grpo_rewards YNull) "json" "/out"
                      (Some "repo") true (Demo.world 0))))
      !! "/workspace/axolotl/configs/t1.yml" = Some (yaml_dump Demo.collaborators doc) /\
    lookup2 doc "trl" "reward_funcs" = Some (YList refs) /\
    lookup2 doc "trl" "reward_weights" = Some (YList weights) /\
    length refs = length Demo.grpo_rewards /\
    length weights = length Demo.grpo_rewards /\
    forall i rf,
      Demo.grpo_rewards !! i = Some rf ->
      refs !! i = Some (YStr (reward_module_name Demo.collaborators "t1" ++ "." ++
                              reward_func_name Demo.collaborators i (reward_func rf))) /\
      weights !! i = Some (YFloat (reward_weight rf)).
Proof.
  apply (grpo_reward_lists_aligned Demo.collaborators "t1" "m"
           "/workspace/axolotl/data/t1_train_data.json" Demo.grpo_rewards YNull
           "json" "/out" (Some "repo") true (Demo.world 0)).
  - apply demo_customize_keeps_trl.
  - apply demo_customize_keeps_trl.
  - vm_compute. reflexivity.
Defined.

Lemma task_settings_keeps (X : Collaborators) (task_id k : string)
    (dataset_type : DatasetType) (config config' : gmap string yaml) (w w' : World) :
  task_settings X task_id dataset_type config w = (Ret config', w') ->
  k <> "rl" -> k <> "trl" -> config' !! k = config !! k.
Proof.
  intros H Hrl Htrl.
  destruct dataset_type as [fields | fields | rfs fields]; cbn [task_settings] in H.
  - by injection H as <- _.
  - injection H as <- _. by rewrite lookup_insert_ne.
  - apply bind_ret_inv in H as (src & w1 & _ & H).
    apply bind_ret_inv in H as ([filename names] & w2 & _ & H).
    apply bind_ret_inv in H as (trl & w3 & _ & H).
    apply bind_ret_inv in H as (trl1 & w4 & _ & H).
    apply bind_ret_inv in H as (trl2 & w5 & _ & H).
    apply bind_ret_inv in H as (trl3 & w6 & _ & H).
    injection H as <- _. by rewrite !lookup_insert_ne.
Qed.

(** C6, amended. In the document that a successful [create_config] persists:
    when the tokenizer has no pad token id but has an end-of-sequence token
    id, [special_tokens] is exactly the pad token set to the tokenizer's
    end-of-sequence token (the string, or [None] when the tokenizer has the id
    without the token); when it has a pad token id (in particular when it has
    both) or no end-of-sequence id, nothing is written and [special_tokens]
    is what the template had after [update_flash_attention], so the document
    is without an override only when the template was; the script writes no
    other value.  [customize_config] is assumed to leave [special_tokens]
    alone. *)
Theorem pad_token_is_eos_or_as_in_template
    (X : Collaborators) (task_id model dataset : string) (dataset_type : DatasetType)
    (file_format output_dir : string) (expected_repo_name : option string)
    (log_wandb : bool) (w w' : World) (p : string) :
  customize_keeps X "special_tokens" ->
  create_config X task_id model dataset dataset_type file_format output_dir
    expected_repo_name log_wandb w = (Ret p, w') ->
  exists doc w1 base wb tokenizer,
    build_config X task_id model dataset dataset_type file_format output_dir
      expected_repo_name log_wandb w = (Ret doc, w1) /\
    files (fs w') !! p = Some (yaml_dump X doc) /\
    base_config X task_id model dataset dataset_type file_format output_dir
      expected_repo_name log_wandb w = (Ret base, wb) /\
    AutoTokenizer_from_pretrained X (get_text_base_model_path X model) = Ok tokenizer /\
    (pad_token_id tokenizer = None -> is_Some (eos_token_id tokenizer) ->
     (forall s, eos_token tokenizer = Some s ->
        doc !! "special_tokens" = Some (YMap {["pad_token" := YStr s]})) /\
     (eos_token tokenizer = None ->
        doc !! "special_tokens" = Some (YMap {["pad_token" := YNull]}))) /\
    (is_Some (pad_token_id tokenizer) \/ eos_token_id tokenizer = None ->
     doc !! "special_tokens" = base !! "special_tokens") /\
    (doc !! "special_tokens" = base !! "special_tokens" \/
     (exists s, eos_token tokenizer = Some s /\
                doc !! "special_tokens" = Some (YMap {["pad_token" := YStr s]})) \/
     (eos_token tokenizer = None /\
      doc !! "special_tokens" = Some (YMap {["pad_token" := YNull]}))).
Proof.
  intros Hkeep H.
  apply create_config_inv in H as (doc & w1 & Hbuild & Hfile).
  pose proof Hbuild as Hdoc.
  apply build_config_inv in Hdoc as (pre & tok & c & Hpre & Htok & Hc & ->).
  apply before_tokenizer_inv in Hpre as (c0 & w0 & Hc0 & Hloc).
  unfold config_before_localize in Hc0.
  apply bind_ret_inv in Hc0 as (base & wb & Hbase & Hts).
  assert (Hsame : pre !! "special_tokens" = base !! "special_tokens").
  { rewrite (localize_datasets_keeps _ _ _ "special_tokens" _ _ _ _ Hloc) by done.
    by apply (task_settings_keeps _ _ "special_tokens" _ _ _ _ _ Hts). }
  exists (<["val_set_size" := YInt 0]> c), w1, base, wb, tok.
  do 4 (split; [done|]).
  rewrite lookup_insert_ne by done. rewrite (Hkeep _ _ _ _ _ Hc), <- Hsame.
  unfold pad_token_setting.
  destruct (pad_token_id tok) as [pad|], (eos_token_id tok) as [eos|];
    destruct (eos_token tok) as [s|];
    rewrite ?lookup_insert_eq; repeat split; intros;
    repeat match goal with
           | H : is_Some None |- _ => by destruct H
           | H : _ \/ _ |- _ => destruct H
           end;
    try done; try congruence; try (by left);
    try (right; left; by eexists); try (right; right; done).
Qed.

Lemma demo_customize_keeps (k : string) :
  k <> "micro_batch_size" -> customize_keeps Demo.collaborators k.
Proof.
  intros Hk config family model_path model config' [= <-].
  by rewrite lookup_insert_ne.
Qed.

(** A model whose tokenizer has an end-of-sequence token, "</s>", and no pad
    token. *)
Lemma pad_token_is_eos_or_as_in_template_witness :
  exists doc,
    files (fs (snd (create_config Demo.collaborators "t1" "m"
                      "/workspace/axolotl/data/t1_train_data.json"
                      (InstructTextDatasetType YNull) "json" "/out" (Some "repo") true
                      (Demo.world 0)))) !! "/workspace/axolotl/configs/t1.yml"
      = Some (yaml_dump Demo.collaborators doc) /\
    doc !! "special_tokens" = Some (YMap {["pad_token" := YStr "</s>"]}).
Proof.
  assert (Hrun : fst (create_config Demo.collaborators "t1" "m"
                        "/workspace/axolotl/data/t1_train_data.json"
                        (InstructTextDatasetType YNull) "json" "/out" (Some "repo") true
                        (Demo.world 0))
                 = Ret "/workspace/axolotl/configs/t1.yml")
    by (vm_compute; reflexivity).
  destruct (pad_token_is_eos_or_as_in_template Demo.collaborators "t1" "m"
              "/workspace/axolotl/data/t1_train_data.json" (InstructTextDatasetType YNull)
              "json" "/out" (Some "repo") true (Demo.world 0) _ _
              (demo_customize_keeps "special_tokens" ltac:(discriminate))
              (pair_of_fst _ _ Hrun))
    as (doc & w1 & base & wb & tok & _ & Hfile & _ & Htok & Hset & _).
  exists doc. split; [exact Hfile|].
  injection Htok as <-.
  exact (proj1 (Hset eq_refl (ex_intro _ 2 eq_refl)) "</s>" eq_refl).
Defined.

Lemma demo_installation_with_keeps (template : DatasetType -> string)
    (entry : string -> DatasetType -> string -> py_result yaml) (k : string) :
  k <> "micro_batch_size" -> customize_keeps (Demo.installation_with template entry) k.
Proof.
  intros Hk config family model_path model config' [= <-].
  by rewrite lookup_insert_ne.
Qed.

(** C6 fails as stated: a tokenizer with both tokens, a base template that
    carries [special_tokens] with a pad token of its own; the persisted
    document has the template's override. *)
Lemma pad_token_override_from_template : ~ pad_token_override_from_tokenizer_alone.
Proof.
  intros Hclaim.
  pose (run := build_config Demo.with_special_tokens "t1" "with-pad" "d.json"
                 (InstructTextDatasetType YNull) "hf" "/out" None true (Demo.world 0)).
  assert (Hpad : match fst run with
                 | Ret doc => lookup2 doc "special_tokens" "pad_token"
                 | _ => None
                 end = Some (YStr "<pad>"))
    by (vm_compute; reflexivity).
  destruct run as [[doc|e|s msg] w1] eqn:Hrun; cbn [fst] in Hpad; try discriminate Hpad.
  destruct (Hclaim Demo.with_special_tokens "t1" "with-pad" "d.json"
              (InstructTextDatasetType YNull) "hf" "/out" None true (Demo.world 0) w1 doc
              (mkTokenizer (Some 0) (Some 2) (Some "</s>"))
              (demo_installation_with_keeps _ _ "special_tokens" ltac:(discriminate))
              Hrun eq_refl) as [_ Hnone].
  rewrite (Hnone (ex_intro _ 0 eq_refl) (ex_intro _ 2 eq_refl)) in Hpad.
  discriminate Hpad.
Qed.

(** The two scenarios of the specification on the concrete installation. *)
Example pad_token_scenarios :
  (.!! "special_tokens") <$>
    returned (build_config Demo.collaborators "t1" "m" "d.json"
                (InstructTextDatasetType YNull) "hf" "/out" None true) (Demo.world 0)
  = Some (Some (YMap {["pad_token" := YStr "</s>"]})) /\
  (.!! "special_tokens") <$>
    returned (build_config Demo.collaborators "t1" "with-pad" "d.json"
                (InstructTextDatasetType YNull) "hf" "/out" None true) (Demo.world 0)
  = Some None.
Proof. split; vm_compute; reflexivity. Qed.

(** *** The dataset entries *)

Lemma localize_entry_spec (X : Collaborators) (dataset : string) (e e' : yaml) :
  localize_entry X dataset e = Ok e' -> entry_localized X dataset e e'.
Proof.
  destruct e as [| | | | | |m]; try done. unfold localize_entry.
  assert (Hpath : (<["ds_type" := YStr "json"]> m) !! "path" = m !! "path")
    by by rewrite lookup_insert_ne.
  unfold contains. rewrite Hpath.
  destruct (m !! "path") as [old|] eqn:Hold.
  - rewrite bool_decide_eq_true_2 by eauto.
    destruct (assoc "data" (AXOLOTL_DIRECTORIES X)) as [data|] eqn:Hdata; [|done].
    intros [= <-]. eexists m, _. repeat split.
    + rewrite lookup_insert_ne by done. rewrite lookup_insert_ne by done.
      by rewrite lookup_insert_eq.
    + by rewrite lookup_insert_eq.
    + rewrite Hold. exists data. split; [done|].
      rewrite lookup_insert_ne by done. by rewrite lookup_insert_eq.
    + intros k H1 H2 H3. by rewrite !lookup_insert_ne.
  - rewrite bool_decide_eq_false_2 by (by intros [? ?]).
    intros [= <-]. eexists m, _. repeat split.
    + rewrite lookup_insert_ne by done. by rewrite lookup_insert_eq.
    + by rewrite lookup_insert_eq.
    + rewrite Hold. rewrite lookup_insert_ne by done. by rewrite lookup_insert_ne.
    + intros k H1 H2 H3. by rewrite !lookup_insert_ne.
Qed.

Lemma localize_entry_not_string (X : Collaborators) (dataset s : string) (e' : yaml) :
  localize_entry X dataset (YStr s) <> Ok e'.
Proof. done. Qed.

(** Lines 171-178 on the entries of the document, for any format but the
    registry's. *)
Lemma localize_datasets_entries (X : Collaborators) (dataset file_format : string)
    (config config' : gmap string yaml) (w w' : World) :
  file_format <> FileFormat_HF ->
  localize_datasets X dataset file_format config w = (Ret config', w') ->
  Forall2 (entry_localized X dataset) (dataset_entries config) (dataset_entries config').
Proof.
  intros Hff H. unfold localize_datasets in H.
  apply String.eqb_neq in Hff. rewrite Hff in H. cbn [negb] in H.
  apply bind_ret_inv in H as (ds & w1 & Hds & H).
  apply of_result_ret_inv in Hds as [Hds ->].
  apply bind_ret_inv in H as (es & w2 & Hes & H).
  apply of_result_ret_inv in Hes as [Hes ->].
  apply bind_ret_inv in H as (es' & w3 & Hes' & H).
  apply of_result_ret_inv in Hes' as [Hes' ->].
  apply traverse_Forall2 in Hes'.
  simpl in Hds. destruct (config !! "datasets") as [v|] eqn:Hv; [|done].
  injection Hds as ->.
  assert (Hentries : dataset_entries config = es)
    by (unfold dataset_entries; by rewrite Hv, Hes).
  assert (Hnil : (forall e, e ∈ es -> exists s, e = YStr s) -> es = [] /\ es' = []).
  { intros Hall. destruct Hes' as [|e e' es0 es0' He _]; [done|].
    destruct (Hall e) as [s ->]; [left|]. by apply localize_entry_not_string in He. }
  destruct ds as [| | | |s|l|m]; try done; injection H as <- <-.
  - (* a string: no character survives the loop body *)
    destruct Hnil as [-> ->].
    { intros e He. injection Hes as <-. apply list_elem_of_fmap in He as (c & -> & _). eauto. }
    rewrite Hentries. constructor.
  - (* a list: the entries are the rewritten ones *)
    rewrite Hentries. unfold dataset_entries. rewrite lookup_insert_eq. simpl.
    eapply Forall2_impl; [exact Hes'|]. intros e e'. apply localize_entry_spec.
  - (* a dictionary: no key survives the loop body *)
    destruct Hnil as [-> ->].
    { intros e He. injection Hes as <-. apply list_elem_of_fmap in He as (c & -> & _). eauto. }
    rewrite Hentries. constructor.
Qed.

Lemma dataset_entries_congr (c c' : gmap string yaml) :
  c' !! "datasets" = c !! "datasets" -> dataset_entries c' = dataset_entries c.
Proof. unfold dataset_entries. by intros ->. Qed.

(** The entries of the persisted document against the entries before the
    loop, for any format but the registry's. *)
Lemma create_config_entries
    (X : Collaborators) (task_id model dataset : string) (dataset_type : DatasetType)
    (file_format output_dir : string) (expected_repo_name : option string)
    (log_wandb : bool) (w w' : World) (p : string) :
  file_format <> FileFormat_HF ->
  customize_keeps X "datasets" ->
  create_config X task_id model dataset dataset_type file_format output_dir
    expected_repo_name log_wandb w = (Ret p, w') ->
  exists doc w1 before w0,
    build_config X task_id model dataset dataset_type file_format output_dir
      expected_repo_name log_wandb w = (Ret doc, w1) /\
    files (fs w') !! p = Some (yaml_dump X doc) /\
    config_before_localize X task_id model dataset dataset_type file_format output_dir
      expected_repo_name log_wandb w = (Ret before, w0) /\
    Forall2 (entry_localized X dataset) (dataset_entries before) (dataset_entries doc).
Proof.
  intros Hff Hkeep H.
  apply create_config_inv in H as (doc & w1 & Hbuild & Hfile).
  pose proof Hbuild as Hdoc.
  apply build_config_inv in Hdoc as (pre & tok & c & Hpre & _ & Hc & ->).
  apply before_tokenizer_inv in Hpre as (c0 & w0 & Hc0 & Hloc).
  eexists _, w1, c0, w0. do 3 (split; [done|]).
  rewrite (dataset_entries_congr pre (<["val_set_size" := YInt 0]> c)).
  - by eapply localize_datasets_entries.
  - rewrite lookup_insert_ne by done. rewrite (Hkeep _ _ _ _ _ Hc).
    by apply pad_token_setting_keeps.
Qed.

(** C10. For every file format other than "hf" ("csv", "json" and "s3"
    alike), each dataset entry of the document that a successful
    [create_config] persists comes from the entry at the same position before
    lines 171-178 with [ds_type] set to "json", [data_files] set to the
    one-element list of the dataset file's base name, [path] set to the local
    data directory if the entry had a [path] and absent if it had none, and
    every other key unchanged.  [customize_config] is assumed to leave
    [datasets] alone. *)
Theorem every_local_format_rewrites_entries
    (X : Collaborators) (task_id model dataset : string) (dataset_type : DatasetType)
    (file_format output_dir : string) (expected_repo_name : option string)
    (log_wandb : bool) (w w' : World) (p : string) :
  file_format <> "hf" ->
  customize_keeps X "datasets" ->
  create_config X task_id model dataset dataset_type file_format output_dir
    expected_repo_name log_wandb w = (Ret p, w') ->
  exists doc w1 before w0,
    build_config X task_id model dataset dataset_type file_format output_dir
      expected_repo_name log_wandb w = (Ret doc, w1) /\
    files (fs w') !! p = Some (yaml_dump X doc) /\
    config_before_localize X task_id model dataset dataset_type file_format output_dir
      expected_repo_name log_wandb w = (Ret before, w0) /\
    Forall2 (entry_localized X dataset) (dataset_entries before) (dataset_entries doc).
Proof. apply create_config_entries. Qed.

(** C7. For the file formats "csv" and "json", each dataset entry of the
    document that a successful [create_config] persists has [data_files] equal
    to the one-element list of the dataset file's base name, and the [path] of
    the entry it comes from replaced by the local data directory.
    [customize_config] is assumed to leave [datasets] alone. *)
Theorem csv_json_entries_point_to_local_file
    (X : Collaborators) (task_id model dataset : string) (dataset_type : DatasetType)
    (file_format output_dir : string) (expected_repo_name : option string)
    (log_wandb : bool) (w w' : World) (p : string) :
  file_format = "csv" \/ file_format = "json" ->
  customize_keeps X "datasets" ->
  create_config X task_id model dataset dataset_type file_format output_dir
    expected_repo_name log_wandb w = (Ret p, w') ->
  exists doc w1 before w0,
    build_config X task_id model dataset dataset_type file_format output_dir
      expected_repo_name log_wandb w = (Ret doc, w1) /\
    files (fs w') !! p = Some (yaml_dump X doc) /\
    config_before_localize X task_id model dataset dataset_type file_format output_dir
      expected_repo_name log_wandb w = (Ret before, w0) /\
    Forall2 (entry_points_to_local_file X dataset)
      (dataset_entries before) (dataset_entries doc).
Proof.
  intros Hff Hkeep H.
  apply create_config_entries in H as (doc & w1 & c0 & w0 & Hb & Hf & Hc0 & Hall);
    [|by destruct Hff as [-> | ->] | done].
  exists doc, w1, c0, w0. do 3 (split; [done|]).
  eapply Forall2_impl; [exact Hall|].
  intros e e' (m & m' & -> & -> & _ & Hfiles & Hpath & _).
  exists m, m'. do 3 (split; [done|]).
  intros [old Hold]. by rewrite Hold in Hpath.
Qed.

Lemma demo_installation_keeps (entry : string -> DatasetType -> string -> py_result yaml)
    (k : string) :
  k <> "micro_batch_size" -> customize_keeps (Demo.installation entry) k.
Proof.
  intros Hk config family model_path model config' [= <-].
  by rewrite lookup_insert_ne.
Qed.

(** An "s3" run on the concrete installation. *)
Lemma every_local_format_rewrites_entries_witness :
  "s3" <> "hf" /\
  exists doc w1 before w0,
    build_config Demo.collaborators "t1" "m" "/workspace/axolotl/data/t1_train_data.json"
      (InstructTextDatasetType YNull) "s3" "/out" (Some "repo") true
      (Demo.world 0) = (Ret doc, w1) /\
    files (fs (snd (create_config Demo.collaborators "t1" "m"
                      "/workspace/axolotl/data/t1_train_data.json"
                      (InstructTextDatasetType YNull) "s3" "/out" (Some "repo") true
                      (Demo.world 0)))) !! "/workspace/axolotl/configs/t1.yml"
      = Some (yaml_dump Demo.collaborators doc) /\
    config_before_localize Demo.collaborators "t1" "m"
      "/workspace/axolotl/data/t1_train_data.json" (InstructTextDatasetType YNull)
      "s3" "/out" (Some "repo") true (Demo.world 0) = (Ret before, w0) /\
    Forall2 (entry_localized Demo.collaborators "/workspace/axolotl/data/t1_train_data.json")
      (dataset_entries before) (dataset_entries doc).
Proof.
  split; [done|].
  apply (every_local_format_rewrites_entries Demo.collaborators "t1" "m"
           "/workspace/axolotl/data/t1_train_data.json" (InstructTextDatasetType YNull)
           "s3" "/out" (Some "repo") true (Demo.world 0)).
  - done.
  - by apply demo_installation_keeps.
  - vm_compute. reflexivity.
Defined.

(** A "csv" run on the concrete installation. *)
Lemma csv_json_entries_point_to_local_file_witness :
  exists doc w1 before w0,
    build_config Demo.collaborators "t1" "m" "/workspace/axolotl/data/t1_train_data.json"
      (DpoDatasetType YNull) "csv" "/out" (Some "repo") true
      (Demo.world 0) = (Ret doc, w1) /\
    files (fs (snd (create_config Demo.collaborators "t1" "m"
                      "/workspace/axolotl/data/t1_train_data.json"
                      (DpoDatasetType YNull) "csv" "/out" (Some "repo") true
                      (Demo.world 0)))) !! "/workspace/axolotl/configs/t1.yml"
      = Some (yaml_dump Demo.collaborators doc) /\
    config_before_localize Demo.collaborators "t1" "m"
      "/workspace/axolotl/data/t1_train_data.json" (DpoDatasetType YNull)
      "csv" "/out" (Some "repo") true (Demo.world 0) = (Ret before, w0) /\
    Forall2 (entry_points_to_local_file Demo.collaborators
               "/workspace/axolotl/data/t1_train_data.json")
      (dataset_entries before) (dataset_entries doc).
Proof.
  apply (csv_json_entries_point_to_local_file Demo.collaborators "t1" "m"
           "/workspace/axolotl/data/t1_train_data.json" (DpoDatasetType YNull)
           "csv" "/out" (Some "repo") true (Demo.world 0)).
  - by left.
  - by apply demo_installation_keeps.
  - vm_compute. reflexivity.
Defined.

(** The entries themselves, with and without a path, and the registry format
    left as it is. *)
Example dataset_entry_samples :
  dataset_entries <$>
    returned (build_config Demo.collaborators "t1" "m"
                "/workspace/axolotl/data/t1_train_data.json"
                (InstructTextDatasetType YNull) "s3" "/out" None true) (Demo.world 0)
  = Some [YMap (<["ds_type" := YStr "json"]>
                  (<["path" := YStr "/workspace/axolotl/data"]>
                     (<["data_files" := YList [YStr "t1_train_data.json"]]>
                        (<["type" := YStr "s3"]> ∅))))] /\
  dataset_entries <$>
    returned (build_config Demo.pathless "t1" "m"
                "/workspace/axolotl/data/t1_train_data.json"
                (InstructTextDatasetType YNull) "csv" "/out" None true) (Demo.world 0)
  = Some [YMap (<["ds_type" := YStr "json"]>
                  (<["data_files" := YList [YStr "t1_train_data.json"]]>
                     (<["type" := YStr "csv"]> ∅)))] /\
  dataset_entries <$>
    returned (build_config Demo.collaborators "t1" "m" "org/dataset"
                (InstructTextDatasetType YNull) "hf" "/out" None true) (Demo.world 0)
  = Some [YMap (<["path" := YStr "org/dataset"]> (<["type" := YStr "hf"]> ∅))].
Proof. repeat split; vm_compute; reflexivity. Qed.

(** ** What a computation leaves alone *)

#[local] Instance same_process_preorder : PreOrder same_process.
Proof.
  split.
  - by intros w.
  - intros w1 w2 w3 (H1 & H2 & H3) (H4 & H5 & H6). unfold same_process. by rewrite H4, H5, H6.
Qed.

#[local] Instance only_directories_preorder : PreOrder only_directories.
Proof.
  split.
  - intros w. by repeat split.
  - intros w1 w2 w3 (H1 & H2 & H3 & H4) (H5 & H6 & H7 & H8). split; [|split; [|split]].
    + by rewrite H5.
    + by rewrite H6.
    + set_solver.
    + by etrans.
Qed.

Section Preserves.

Context (R : World -> World -> Prop) `{!PreOrder R}.

Lemma preserves_bind {A B : Type} (m : M A) (f : A -> M B) :
  preserves R m -> (forall a, preserves R (f a)) -> preserves R (m ≫= f).
Proof.
  intros Hm Hf w. rewrite bind_run. specialize (Hm w).
  destruct (m w) as [[a|e|s msg] w1]; simpl in *; [|done|done].
  etrans; [exact Hm | apply Hf].
Qed.

Lemma preserves_ret {A : Type} (a : A) : preserves R (mret a : M A).
Proof. intros w. simpl. reflexivity. Qed.

Lemma preserves_raise {A : Type} (e : string) : preserves R (raise e : M A).
Proof. intros w. simpl. reflexivity. Qed.

Lemma preserves_sys_exit {A : Type} (msg : string) : preserves R (sys_exit msg : M A).
Proof. intros w. simpl. reflexivity. Qed.

Lemma preserves_of_result {A : Type} (r : py_result A) : preserves R (of_result r).
Proof. intros w. destruct r; simpl; reflexivity. Qed.

Lemma preserves_const_getitem (d : list (string * string)) (k : string) :
  preserves R (const_getitem d k).
Proof.
  unfold const_getitem. destruct (assoc k d); [apply preserves_ret | apply preserves_raise].
Qed.

Lemma preserves_exists (p : string) : preserves R (os_path_exists p).
Proof. intros w. simpl. reflexivity. Qed.

Lemma preserves_try_except {A : Type} (body : M A) (handler : string -> M A) :
  preserves R body -> (forall e, preserves R (handler e)) ->
  preserves R (try_except body handler).
Proof.
  intros Hb Hh w. unfold try_except. specialize (Hb w).
  destruct (body w) as [[a|e|s msg] w1]; simpl in *; [done| |done].
  etrans; [exact Hb | apply Hh].
Qed.

Lemma preserves_for_each {A : Type} (xs : list A) (body : A -> M unit) :
  (forall x, preserves R (body x)) -> preserves R (for_each xs body).
Proof.
  intros Hbody. induction xs as [|x xs IH]; simpl.
  - apply preserves_ret.
  - apply preserves_bind; [apply Hbody | by intros _].
Qed.

End Preserves.

Lemma same_process_lift_fs {A : Type} (f : FS -> py_result A * FS) :
  preserves same_process (lift_fs f).
Proof. intros w. unfold lift_fs. by destruct (f (fs w)) as [[a|e] f']. Qed.

Lemma same_process_print (line : string) : preserves same_process (print line).
Proof. by intros w. Qed.





(** Solves [preserves same_process m] for the computations of the script. *)
Ltac frame_same_process :=
  repeat first
    [ apply same_process_lift_fs
    | apply same_process_print
    | apply preserves_ret; tc_solve
    | apply preserves_raise; tc_solve
    | apply preserves_sys_exit; tc_solve
    | apply preserves_of_result; tc_solve
    | apply preserves_const_getitem; tc_solve
    | apply preserves_exists; tc_solve
    | apply preserves_bind; [tc_solve | | intros ?]
    | apply preserves_try_except; [tc_solve | | intros ?]
    | apply preserves_for_each; [tc_solve | intros ?]
    | match goal with
      | |- preserves _ (if ?b then _ else _) => destruct b
      | |- preserves _ (match ?x with _ => _ end) => destruct x
      end ].

Lemma same_process_create_config
    (X : Collaborators) (task_id model dataset : string) (dataset_type : DatasetType)
    (file_format output_dir : string) (expected_repo_name : option string)
    (log_wandb : bool) :
  preserves same_process
    (create_config X task_id model dataset dataset_type file_format output_dir
       expected_repo_name log_wandb).
Proof.
  unfold create_config, save_config, build_config, config_before_tokenizer,
    config_before_localize, base_config, task_settings, localize_datasets,
    create_reward_funcs_file, FileFormat_of, read_file, write_file, os_makedirs.
  frame_same_process.
Qed.

Lemma same_process_prepare_run (X : Collaborators) (args : Args) (output_dir : string) :
  preserves same_process (prepare_run X args output_dir).
Proof.
  unfold prepare_run. apply preserves_bind; [tc_solve | |intros _].
  { unfold os_makedirs. frame_same_process. }
  apply preserves_bind; [tc_solve | |intros dataset_type].
  { unfold load_dataset_type, construct_dataset_type. frame_same_process. }
  apply preserves_bind; [tc_solve | frame_same_process |intros _].
  apply preserves_bind; [tc_solve | |intros dataset_path].
  { unfold copy_dataset_to_axolotl_directories, shutil_copy, read_file, write_file.
    destruct (get_axolotl_dataset_paths X _). frame_same_process; by intros w. }
  apply preserves_bind; [tc_solve | apply same_process_create_config | intros _].
  frame_same_process.
Qed.

Lemma same_process_setup_distributed (X : Collaborators) :
  preserves same_process (setup_distributed X).
Proof.
  unfold setup_distributed. destruct (1 <? get_available_gpu_count X); [|frame_same_process].
  apply preserves_bind; [tc_solve | by intros w | intros initialized].
  destruct initialized; [frame_same_process|].
  apply preserves_bind; [tc_solve | frame_same_process | intros _].
  apply preserves_bind; [tc_solve | by intros w | intros _]. frame_same_process.
Qed.


Lemma preserves_ret_inv {A : Type} (R : World -> World -> Prop) (m : M A)
    (w w' : World) (o : outcome A) :
  preserves R m -> m w = (o, w') -> R w w'.
Proof. intros Hm Hw. specialize (Hm w). by rewrite Hw in Hm. Qed.

Lemma parse_args_ret_inv (argv args : Args) (w w' : World) :
  parse_args argv w = (Ret args, w') ->
  args = argv /\ w' = w /\
  arg_task_type argv ∈ task_type_choices /\ arg_file_format argv ∈ file_format_choices.
Proof.
  unfold parse_args.
  case_bool_decide; [|done]. case_bool_decide; [|done]. by intros [= <- <-].
Qed.

(** ** The deadline and the callback *)


Lemma datetime_now_ret_inv (w w' : World) (now : Z) :
  datetime_now w = (Ret now, w') ->
  now = clock w (clock_reads w) /\ is_datetime now = true /\
  w' = mkWorld (fs w) (stdout w) (clock w) (S (clock_reads w))
               (dist_initialized w) (Trainer_init w).
Proof.
  unfold datetime_now.
  destruct (is_datetime (clock w (clock_reads w))) eqn:Hrange; [|done].
  by intros [= <- <-].
Qed.

(** What a preamble that reaches its end has done to the process: the
    bootstrap, then one clock reading, then one wrapper, holding the task
    type and the model of the command line and the formatted end of the
    budget. *)
Lemma main_preamble_installs (X : Collaborators) (r : Z) (argv : Args)
    (w w1 : World) (cp : string) :
  main_preamble X r argv w = (Ret cp, w1) ->
  exists wa wb budget t,
    same_process w wa /\
    setup_distributed X wa = (Ret tt, wb) /\
    same_process wa wb /\
    fst (datetime_now wb) = Ret (clock w (clock_reads w)) /\
    timedelta_hours (arg_hours_to_complete argv) = Ok budget /\
    datetime_add (clock w (clock_reads w)) budget = Ok t /\
    clock w1 = clock w /\
    clock_reads w1 = S (clock_reads w) /\
    dist_initialized w1 = dist_initialized wb /\
    Trainer_init w1 =
      mkClosure (arg_task_type argv) (strftime (zero_padded_year X) t)
        (get_checkpoints_output_path X (arg_task_id argv) (arg_expected_repo_name argv))
        (get_checkpoints_output_path X (arg_task_id argv)
           (Some (fstr_opt (arg_expected_repo_name argv) ++ "_temp")))
        (arg_model argv)
      :: Trainer_init w /\
    w1 = mkWorld (fs wb)
           (stdout wb ++ ["end_time:  " ++ strftime (zero_padded_year X) t])
           (clock wb) (S (clock_reads wb)) (dist_initialized wb)
           (mkClosure (arg_task_type argv) (strftime (zero_padded_year X) t)
              (get_checkpoints_output_path X (arg_task_id argv)
                 (arg_expected_repo_name argv))
              (get_checkpoints_output_path X (arg_task_id argv)
                 (Some (fstr_opt (arg_expected_repo_name argv) ++ "_temp")))
              (arg_model argv)
            :: Trainer_init wb).
Proof.
  unfold main_preamble. intros H.
  apply bind_ret_inv in H as ([] & wa & Ha & H).
  apply (preserves_ret_inv same_process) in Ha; [|apply same_process_print].
  apply bind_ret_inv in H as (args & wb & Hb & H).
  apply parse_args_ret_inv in Hb as (-> & -> & _ & _).
  apply bind_ret_inv in H as ([] & wc & Hc & H).
  apply (preserves_ret_inv same_process) in Hc;
    [|unfold ensure_dir, os_makedirs; frame_same_process].
  apply bind_ret_inv in H as ([] & wd & Hd & H).
  apply (preserves_ret_inv same_process) in Hd;
    [|unfold ensure_dir, os_makedirs; frame_same_process].
  apply bind_ret_inv in H as (configs & we & He & H).
  apply const_getitem_ret_inv in He as [_ ->].
  apply bind_ret_inv in H as ([] & wf & Hf & H).
  apply (preserves_ret_inv same_process) in Hf;
    [|destruct (is_main_process r); [apply same_process_prepare_run | frame_same_process]].
  apply bind_ret_inv in H as ([] & wg & Hg & H).
  injection H as <- <-.
  unfold install_supervisor in Hg.
  apply bind_ret_inv in Hg as ([] & wh & Hh & Hg).
  pose proof Hh as Hsetup.
  apply (preserves_ret_inv same_process) in Hh; [|apply same_process_setup_distributed].
  apply bind_ret_inv in Hg as (now & wi & Hi & Hg).
  pose proof Hi as Hnow.
  apply datetime_now_ret_inv in Hi as (-> & _ & ->).
  apply bind_ret_inv in Hg as (budget & wj & Hj & Hg).
  apply of_result_ret_inv in Hj as [Hbudget ->].
  apply bind_ret_inv in Hg as (t & wk & Hk & Hg).
  apply of_result_ret_inv in Hk as [Hadd ->].
  apply bind_ret_inv in Hg as ([] & wl & Hl & Hg).
  injection Hl as <-. injection Hg as <-.
  assert (Hw : same_process w wf) by (do 3 (etrans; [eassumption|]); done).
  destruct Hw as (Hclock & Hreads & Hinit).
  destruct Hh as (Hclock' & Hreads' & Hinit').
  rewrite Hclock', Hreads', Hclock, Hreads in Hadd.
  exists wf, wh, budget, t.
  split; [done|]. split; [done|]. split; [done|].
  split; [by rewrite Hnow; cbn [fst]; rewrite Hclock', Hreads', Hclock, Hreads|].
  split; [done|]. split; [done|]. cbn [clock clock_reads dist_initialized Trainer_init].
  by rewrite Hclock', Hreads', Hinit', Hclock, Hreads, Hinit.
Qed.







Example deadlines_of_two_ranks :
  deadline_of (snd (main Demo.collaborators 0
                      (Demo.argv "InstructTextTask" Demo.instruct_payload "m" "json")
                      (Demo.world 1793699999999999))) = Some "2026-11-03 11:59:59" /\
  deadline_of (snd (main Demo.collaborators 1
                      (Demo.argv "InstructTextTask" Demo.instruct_payload "m" "json")
                      (Demo.world 1793700000000001))) = Some "2026-11-03 12:00:00".
Proof. split; vm_compute; reflexivity. Qed.

(** C3. Each construction of a trainer appends exactly one callback after
    the ones it was given, chosen by the task type of the command line as
    [main] captured it: the GRPO callback if and only if that task type is
    "GrpoTask", the standard one otherwise.  Whatever is rewritten on the
    file system afterwards, configuration document included, the choice is
    the same. *)
Theorem callback_variant_from_original_task_type
    (X : Collaborators) (r : Z) (argv : Args) (w w1 : World) (cp : string) :
  main_preamble X r argv w = (Ret cp, w1) ->
  exists cb,
    (forall f' callbacks,
       Trainer_new (Trainer_init (set_fs f' w1)) callbacks
       = Trainer_new (Trainer_init w) (Some (default [] callbacks ++ [cb])%list)) /\
    (is_grpo_callback cb = true <-> arg_task_type argv = TaskType_GRPOTASK) /\
    (is_standard_callback cb = true <-> arg_task_type argv <> TaskType_GRPOTASK).
Proof.
  intros H.
  apply main_preamble_installs in H
    as (wa & wb & budget & t & _ & _ & _ & _ & _ & _ & _ & _ & _ & Hinit & _).
  destruct (String.eqb (arg_task_type argv) TaskType_GRPOTASK) eqn:Htag.
  - eexists (GRPOCustomEvalSaveCallback _ _ _ _). split; [|split].
    + intros f' callbacks. cbn [set_fs Trainer_init]. rewrite Hinit.
      cbn [Trainer_new]. unfold patched_init. cbn [original_task_type]. by rewrite Htag.
    + apply String.eqb_eq in Htag. by split.
    + apply String.eqb_eq in Htag. by split.
  - eexists (CustomEvalSaveCallback _ _ _ _). split; [|split].
    + intros f' callbacks. cbn [set_fs Trainer_init]. rewrite Hinit.
      cbn [Trainer_new]. unfold patched_init. cbn [original_task_type]. by rewrite Htag.
    + apply String.eqb_neq in Htag. by split.
    + apply String.eqb_neq in Htag. by split.
Qed.

(** A GRPO run and a DPO run on the concrete installation. *)
Lemma callback_variant_from_original_task_type_witness :
  fst (main_preamble Demo.collaborators 0
         (Demo.argv "GrpoTask" Demo.grpo_payload "m" "json") (Demo.world 0))
  = Ret "/workspace/axolotl/configs/t1.yml" /\
  exists cb,
    (forall f' callbacks,
       Trainer_new
         (Trainer_init
            (set_fs f'
               (snd (main_preamble Demo.collaborators 0
                       (Demo.argv "GrpoTask" Demo.grpo_payload "m" "json")
                       (Demo.world 0))))) callbacks
       = Trainer_new (Trainer_init (Demo.world 0))
           (Some (default [] callbacks ++ [cb])%list)) /\
    (is_grpo_callback cb = true <-> "GrpoTask" = TaskType_GRPOTASK) /\
    (is_standard_callback cb = true <-> "GrpoTask" <> TaskType_GRPOTASK).
Proof.
  assert (H : fst (main_preamble Demo.collaborators 0
                     (Demo.argv "GrpoTask" Demo.grpo_payload "m" "json") (Demo.world 0))
              = Ret "/workspace/axolotl/configs/t1.yml")
    by (vm_compute; reflexivity).
  split; [exact H|].
  exact (callback_variant_from_original_task_type Demo.collaborators 0
           (Demo.argv "GrpoTask" Demo.grpo_payload "m" "json") (Demo.world 0)
           _ _ (pair_of_fst _ _ H)).
Defined.

Example callbacks_of_two_runs :
  Trainer_new
    (Trainer_init (snd (main_preamble Demo.collaborators 0
                          (Demo.argv "GrpoTask" Demo.grpo_payload "m" "json")
                          (Demo.world 1793700000000000))))
    (Some [LoopCallback "progress"])
  = [LoopCallback "progress";
     GRPOCustomEvalSaveCallback (mkWhenToEvalHandler "2026-11-03 12:00:00" 5)
       "/app/checkpoints/t1/repo" "/app/checkpoints/t1/repo_temp" "m"] /\
  Trainer_new
    (Trainer_init (snd (main_preamble Demo.collaborators 0
                          (Demo.argv "DpoTask" Demo.instruct_payload "m" "json")
                          (Demo.world 1793700000000000))))
    None
  = [CustomEvalSaveCallback (mkWhenToEvalHandler "2026-11-03 12:00:00" 5)
       "/app/checkpoints/t1/repo" "/app/checkpoints/t1/repo_temp" "m"].
Proof. split; vm_compute; reflexivity. Qed.

(** ** Input errors *)








Example unsupported_task_type_sample :
  main Demo.collaborators 0 (Demo.argv "ImageTask" Demo.instruct_payload "m" "csv")
    (Demo.world 0)
  = (Exit 2 "argument --task-type: invalid choice: ImageTask", after_banner (Demo.world 0)).
Proof. vm_compute. reflexivity. Qed.

(** * Further properties of the script *)

(** ** The metadata patcher beyond its error handling *)

Lemma string_append_nil_r (s : string) : s ++ "" = s.
Proof.
  induction s as [|c s IH]; [done|].
  change (String c (s ++ "") = String c s). by rewrite IH.
Qed.

Lemma string_of_list_ascii_append (l1 l2 : list ascii) :
  string_of_list_ascii (l1 ++ l2)%list
  = string_of_list_ascii l1 ++ string_of_list_ascii l2.
Proof.
  induction l1 as [|c l1 IH]; [done|].
  change (String c (string_of_list_ascii (l1 ++ l2)%list)
          = String c (string_of_list_ascii l1 ++ string_of_list_ascii l2)).
  by rewrite IH.
Qed.

Lemma split_lines_writelines (acc cs : list ascii) :
  writelines (split_lines acc cs) = string_of_list_ascii (rev acc ++ cs)%list.
Proof.
  revert acc. induction cs as [|c cs IH]; intros acc.
  - rewrite app_nil_r. destruct acc as [|a acc]; [done|].
    cbn [split_lines writelines fold_right]. apply string_append_nil_r.
  - cbn [split_lines]. destruct (Ascii.eqb c newline).
    + cbn [writelines fold_right]. fold (writelines (split_lines [] cs)).
      rewrite IH. cbn [rev app]. rewrite <- string_of_list_ascii_append.
      by rewrite <- app_assoc.
    + rewrite IH. cbn [rev]. by rewrite <- app_assoc.
Qed.

(** Writing back the lines that were read gives the text that was read. *)
Lemma writelines_readlines (text : string) : writelines (readlines text) = text.
Proof.
  unfold readlines. rewrite split_lines_writelines. simpl.
  apply string_of_list_ascii_of_string.
Qed.

Lemma patch_lines_unmatched (base_model_id : string) (lines : list string) :
  Forall (fun line => startswith (strip line) "base_model:" = false) lines ->
  patch_readme_line base_model_id <$> lines = lines.
Proof.
  induction 1 as [|line lines Hline _ IH]; [done|].
  cbn [fmap list_fmap]. unfold patch_readme_line at 1. rewrite Hline. f_equal. exact IH.
Qed.

Lemma set_fs_same (w : World) : set_fs (fs w) w = w.
Proof. by destruct w. Qed.

Lemma read_file_run (p : string) (w : World) :
  read_file p w =
    match faults (fs w) !! p with
    | Some e => (Raise e, w)
    | None => match files (fs w) !! p with
              | Some text => (Ret text, w)
              | None =>
                  if bool_decide (p ∈ dirs (fs w))
                  then (Raise (os_error "[Errno 21] Is a directory" p), w)
                  else (Raise (os_error "[Errno 2] No such file or directory" p), w)
              end
    end.
Proof.
  unfold read_file, lift_fs, read_fs, fs_fault.
  destruct (faults (fs w) !! p); [by rewrite set_fs_same|].
  destruct (files (fs w) !! p); [by rewrite set_fs_same|].
  case_bool_decide; by rewrite set_fs_same.
Qed.

Lemma write_file_run (p text : string) (w : World) :
  write_file p text w =
    match faults (fs w) !! p with
    | Some e => (Raise e, w)
    | None =>
        if bool_decide (p ∈ dirs (fs w))
        then (Raise (os_error "[Errno 21] Is a directory" p), w)
        else (Ret tt, set_fs (mkFS (dirs (fs w)) (<[p := text]> (files (fs w)))
                                (faults (fs w))) w)
    end.
Proof.
  unfold write_file, lift_fs, write_fs, fs_fault.
  destruct (faults (fs w) !! p); [by rewrite set_fs_same|].
  case_bool_decide; [by rewrite set_fs_same | done].
Qed.

Lemma patched_only_refl (paths : list string) (w : World) : patched_only paths w w.
Proof. by repeat split. Qed.

Lemma patched_only_print (paths : list string) (line : string) (w w' : World) :
  patched_only paths w w' -> patched_only paths w (snd (print line w')).
Proof.
  intros (H1 & H2 & H3 & H4 & H5). repeat split; simpl; try done; apply H5.
Qed.

Lemma patched_only_print_on (paths : list string) (sink : nat -> option string)
    (line : string) (w w' w'' : World) (o : outcome unit) :
  patched_only paths w w' -> print_on sink line w' = (o, w'') ->
  patched_only paths w w'' /\ forall s msg, o <> Exit s msg.
Proof.
  intros Hw. unfold print_on. destruct (sink _).
  - by intros [= <- <-].
  - intros [= <- <-]. split; [|done]. by apply (patched_only_print paths line w).
Qed.

Lemma patched_only_write (paths : list string) (p text : string) (w w' : World) :
  p ∈ paths -> is_Some (files (fs w') !! p) ->
  patched_only paths w w' ->
  patched_only paths w
    (set_fs (mkFS (dirs (fs w')) (<[p := text]> (files (fs w'))) (faults (fs w'))) w').
Proof.
  intros Hp Hsome (H1 & H2 & H3 & H4 & H5). repeat split; simpl; try done.
  - rewrite dom_insert_lookup_L by done. done.
  - intros q Hq. rewrite lookup_insert_ne by (intros ->; done). by apply H4.
  - apply H5.
  - apply H5.
  - apply H5.
Qed.

Lemma patched_only_trans (paths : list string) (w1 w2 w3 : World) :
  patched_only paths w1 w2 -> patched_only paths w2 w3 -> patched_only paths w1 w3.
Proof.
  intros (H1 & H2 & H3 & H4 & H5) (G1 & G2 & G3 & G4 & G5).
  split; [|split; [|split; [|split]]].
  - by rewrite G1.
  - by rewrite G2.
  - by rewrite G3.
  - intros p Hp. rewrite G4 by done. by apply H4.
  - by etrans.
Qed.

(** The body of the patcher is its two updates, each behind its test. *)
Lemma patch_model_metadata_body_steps (X : Collaborators) (sink : nat -> option string)
    (output_dir base_model_id : string) (w : World) :
  patch_model_metadata_body X sink output_dir base_model_id w =
  ((if path_exists (path_join output_dir "adapter_config.json") (fs w)
    then update_adapter_config X sink (path_join output_dir "adapter_config.json")
           base_model_id
    else print_on sink " adapter_config.json not found");;
   found ← os_path_exists (path_join output_dir "README.md");
   if found : bool
   then update_readme sink (path_join output_dir "README.md") base_model_id
   else print_on sink "README.md not found") w.
Proof. reflexivity. Qed.

Lemma update_adapter_config_frame (X : Collaborators) (sink : nat -> option string)
    (paths : list string) (path base_model_id : string) (w w1 : World)
    (o : outcome unit) :
  path ∈ paths ->
  update_adapter_config X sink path base_model_id w = (o, w1) ->
  patched_only paths w w1 /\ forall s msg, o <> Exit s msg.
Proof.
  intros Hin. unfold update_adapter_config.
  rewrite bind_run, read_file_run.
  destruct (faults (fs w) !! path) eqn:Hfault;
    [intros [= <- <-]; split; [apply patched_only_refl | done]|].
  destruct (files (fs w) !! path) as [text|] eqn:Htext;
    [|case_bool_decide; intros [= <- <-]; split; try apply patched_only_refl; done].
  rewrite bind_run.
  destruct (json_loads X text) as [config|e]; cbn [of_result];
    [|intros [= <- <-]; split; [apply patched_only_refl | done]].
  rewrite bind_run.
  destruct (setitem config "base_model_name_or_path" (YStr base_model_id))
    as [config'|e]; cbn [of_result];
    [|intros [= <- <-]; split; [apply patched_only_refl | done]].
  rewrite bind_run, write_file_run, Hfault.
  case_bool_decide; [intros [= <- <-]; split; [apply patched_only_refl | done]|].
  intros Hprint. eapply patched_only_print_on; [|exact Hprint].
  apply patched_only_write; [done | by rewrite Htext | apply patched_only_refl].
Qed.

Lemma update_readme_frame (sink : nat -> option string) (paths : list string)
    (path base_model_id : string) (w w1 : World) (o : outcome unit) :
  path ∈ paths ->
  update_readme sink path base_model_id w = (o, w1) ->
  patched_only paths w w1 /\ forall s msg, o <> Exit s msg.
Proof.
  intros Hin. unfold update_readme.
  rewrite bind_run, read_file_run.
  destruct (faults (fs w) !! path) eqn:Hfault;
    [intros [= <- <-]; split; [apply patched_only_refl | done]|].
  destruct (files (fs w) !! path) as [text|] eqn:Htext;
    [|case_bool_decide; intros [= <- <-]; split; try apply patched_only_refl; done].
  rewrite bind_run, write_file_run, Hfault.
  case_bool_decide; [intros [= <- <-]; split; [apply patched_only_refl | done]|].
  intros Hprint. eapply patched_only_print_on; [|exact Hprint].
  apply patched_only_write; [done | by rewrite Htext | apply patched_only_refl].
Qed.

Lemma patch_model_metadata_body_frame (X : Collaborators) (sink : nat -> option string)
    (output_dir base_model_id : string) (w w1 : World) (o : outcome unit) :
  patch_model_metadata_body X sink output_dir base_model_id w = (o, w1) ->
  patched_only [path_join output_dir "adapter_config.json";
                path_join output_dir "README.md"] w w1.
Proof.
  set (paths := [path_join output_dir "adapter_config.json"; path_join output_dir "README.md"]).
  assert (Ha : path_join output_dir "adapter_config.json" ∈ paths) by apply list_elem_of_here.
  assert (Hr : path_join output_dir "README.md" ∈ paths)
    by apply list_elem_of_further, list_elem_of_here.
  clearbody paths.
  rewrite patch_model_metadata_body_steps, bind_run.
  assert (Hfirst : exists o1 w0,
             (if path_exists (path_join output_dir "adapter_config.json") (fs w)
              then update_adapter_config X sink (path_join output_dir "adapter_config.json")
                     base_model_id
              else print_on sink " adapter_config.json not found") w = (o1, w0) /\
             patched_only paths w w0 /\ forall s msg, o1 <> Exit s msg).
  { destruct (path_exists (path_join output_dir "adapter_config.json") (fs w)).
    - destruct (update_adapter_config X sink _ base_model_id w) as [o1 w0] eqn:H1.
      exists o1, w0. split; [done|].
      exact (update_adapter_config_frame X sink paths _ _ _ _ _ Ha H1).
    - destruct (print_on sink " adapter_config.json not found" w) as [o1 w0] eqn:H1.
      exists o1, w0. split; [done|].
      exact (patched_only_print_on paths sink _ w w w0 o1 (patched_only_refl paths w) H1). }
  destruct Hfirst as (o1 & w0 & -> & Hw0 & Hno).
  destruct o1 as [[]|e|s msg]; [|by intros [= <- <-] | by destruct (Hno s msg)].
  rewrite bind_run. cbn [os_path_exists].
  destruct (path_exists (path_join output_dir "README.md") (fs w0)).
  - intros H2. eapply patched_only_trans; [exact Hw0|].
    exact (proj1 (update_readme_frame sink paths _ _ _ _ _ Hr H2)).
  - intros H2. exact (proj1 (patched_only_print_on paths sink _ w w0 w1 o Hw0 H2)).
Qed.

(** X1. Whatever happens inside it, and whether or not the standard output
    takes its lines, the metadata patcher makes no directory, creates and
    removes no file, reads no clock and changes the text of no file other
    than [adapter_config.json] and [README.md] of the output directory. *)
Theorem patch_model_metadata_touches_two_files
    (X : Collaborators) (sink : nat -> option string)
    (output_dir base_model_id : string) (w : World) :
  let w' := snd (patch_model_metadata X sink output_dir base_model_id w) in
  dirs (fs w') = dirs (fs w) /\
  dom (files (fs w')) = dom (files (fs w)) /\
  (forall p, p <> path_join output_dir "adapter_config.json" ->
             p <> path_join output_dir "README.md" ->
             files (fs w') !! p = files (fs w) !! p) /\
  same_process w w'.
Proof.
  intros w'. subst w'.
  unfold patch_model_metadata, try_except.
  destruct (patch_model_metadata_body X sink output_dir base_model_id w)
    as [o w1] eqn:Hbody.
  apply patch_model_metadata_body_frame in Hbody.
  assert (H : patched_only [path_join output_dir "adapter_config.json";
                            path_join output_dir "README.md"] w
                (snd (match o with
                      | Raise e => print_on sink ("Error updating metadata: " ++ e) w1
                      | _ => (o, w1)
                      end))).
  { destruct o as [[]|e|s msg]; [done | | done].
    destruct (print_on sink ("Error updating metadata: " ++ e) w1) as [o2 w2] eqn:H2.
    exact (proj1 (patched_only_print_on _ sink _ w w1 w2 o2 Hbody H2)). }
  destruct H as (H1 & _ & H3 & H4 & H5).
  destruct o as [[]|e|s msg]; (split; [done|]; split; [done|]; split; [|done]);
    intros p Hp1 Hp2; apply H4;
    intros Hin; apply elem_of_cons in Hin as [-> | Hin]; try done;
    apply elem_of_cons in Hin as [-> | Hin]; try done; by apply elem_of_nil in Hin.
Qed.

(** X2. One handler guards both updates: when [adapter_config.json] exists
    and is readable but is not JSON, or is JSON that is not an object, and
    the standard output takes the line, the patcher prints the error and
    stops there, so the README keeps its [base_model:] lines and the file
    system is exactly as it was. *)
Theorem corrupt_adapter_config_blocks_readme
    (X : Collaborators) (sink : nat -> option string)
    (output_dir base_model_id text e : string) (w : World) :
  files (fs w) !! path_join output_dir "adapter_config.json" = Some text ->
  faults (fs w) !! path_join output_dir "adapter_config.json" = None ->
  json_loads X text = Err e \/
  (exists v, json_loads X text = Ok v /\
             setitem v "base_model_name_or_path" (YStr base_model_id) = Err e) ->
  sink (length (stdout w)) = None ->
  patch_model_metadata X sink output_dir base_model_id w
  = (Ret tt, snd (print ("Error updating metadata: " ++ e) w)) /\
  fs (snd (patch_model_metadata X sink output_dir base_model_id w)) = fs w.
Proof.
  intros Htext Hfault Hbad Hsink.
  assert (Hrun : patch_model_metadata X sink output_dir base_model_id w
                 = (Ret tt, snd (print ("Error updating metadata: " ++ e) w))).
  { unfold patch_model_metadata, try_except.
    rewrite patch_model_metadata_body_steps, bind_run.
    unfold path_exists. rewrite Htext.
    rewrite (bool_decide_eq_true_2 (is_Some (Some text))) by eauto.
    rewrite orb_true_r. unfold update_adapter_config.
    rewrite bind_run, read_file_run, Hfault, Htext, bind_run.
    destruct Hbad as [-> | (v & -> & Hset)]; cbn [of_result];
      [by rewrite print_on_accepted|].
    rewrite bind_run, Hset. cbn [of_result]. by rewrite print_on_accepted. }
  split; [exact Hrun | by rewrite Hrun].
Qed.

Lemma corrupt_adapter_config_blocks_readme_witness :
  patch_model_metadata Demo.collaborators (fun _ => None) "/out" "org/model"
    (mkWorld (mkFS ∅ (<["/out/adapter_config.json" := "not json"]>
                        (<["/out/README.md" := "base_model: old"]> ∅)) ∅)
       [] (fun _ => 0) 0 false [])
  = (Ret tt,
     snd (print ("Error updating metadata: " ++ "Expecting value: line 1 column 1 (char 0)")
            (mkWorld (mkFS ∅ (<["/out/adapter_config.json" := "not json"]>
                                (<["/out/README.md" := "base_model: old"]> ∅)) ∅)
               [] (fun _ => 0) 0 false []))).
Proof.
  refine (proj1 (corrupt_adapter_config_blocks_readme Demo.collaborators (fun _ => None)
                   "/out" "org/model" "not json"
                   "Expecting value: line 1 column 1 (char 0)" _ _ _ _ _)).
  - vm_compute. reflexivity.
  - vm_compute. reflexivity.
  - left. vm_compute. reflexivity.
  - reflexivity.
Defined.

Lemma update_readme_run (sink : nat -> option string)
    (path base_model_id text : string) (w : World) :
  files (fs w) !! path = Some text ->
  faults (fs w) !! path = None ->
  path ∉ dirs (fs w) ->
  sink (length (stdout w)) = None ->
  update_readme sink path base_model_id w
  = (Ret tt,
     snd (print ("Updated README.md with base_model: " ++ base_model_id)
            (set_fs (mkFS (dirs (fs w))
                       (<[path := writelines (patch_readme_line base_model_id
                                                <$> readlines text)]> (files (fs w)))
                       (faults (fs w))) w))).
Proof.
  intros Htext Hfault Hdir Hsink. unfold update_readme.
  rewrite bind_run, read_file_run, Hfault, Htext, bind_run, write_file_run, Hfault.
  rewrite (bool_decide_eq_false_2 _ Hdir). by rewrite print_on_accepted.
Qed.

(** X3. A missing [adapter_config.json] does not stop the patcher: the README
    is still rewritten, and when it is a text of ASCII characters without
    carriage return and none of its lines starts, once stripped, with
    [base_model:], it is written back exactly as it was read, so the file
    system is unchanged.  The standard output takes the two lines. *)
Theorem readme_without_base_model_line_unchanged
    (X : Collaborators) (sink : nat -> option string)
    (output_dir base_model_id text : string) (w : World) :
  path_exists (path_join output_dir "adapter_config.json") (fs w) = false ->
  files (fs w) !! path_join output_dir "README.md" = Some text ->
  faults (fs w) !! path_join output_dir "README.md" = None ->
  path_join output_dir "README.md" ∉ dirs (fs w) ->
  plain_text text ->
  Forall (fun line => startswith (strip line) "base_model:" = false) (readlines text) ->
  sink (length (stdout w)) = None ->
  sink (S (length (stdout w))) = None ->
  fst (patch_model_metadata X sink output_dir base_model_id w) = Ret tt /\
  fs (snd (patch_model_metadata X sink output_dir base_model_id w)) = fs w /\
  stdout (snd (patch_model_metadata X sink output_dir base_model_id w))
  = app (stdout w) [" adapter_config.json not found";
                    "Updated README.md with base_model: " ++ base_model_id].
Proof.
  intros Hadapter Htext Hfault Hdir _ Hlines Hsink0 Hsink1.
  assert (Hrun : patch_model_metadata X sink output_dir base_model_id w
                 = (Ret tt,
                    snd (print ("Updated README.md with base_model: " ++ base_model_id)
                           (snd (print " adapter_config.json not found" w))))).
  { unfold patch_model_metadata, try_except.
    rewrite patch_model_metadata_body_steps, bind_run, Hadapter.
    rewrite print_on_accepted by done. cbn [print].
    rewrite bind_run. cbn [os_path_exists fs].
    unfold path_exists. rewrite Htext.
    rewrite (bool_decide_eq_true_2 (is_Some (Some text))) by eauto.
    rewrite orb_true_r.
    rewrite (update_readme_run _ _ _ text); try done;
      [|by cbn [stdout]; rewrite length_app, Nat.add_1_r].
    rewrite patch_lines_unmatched by done.
    rewrite writelines_readlines. cbn [fs files dirs faults].
    rewrite insert_id by done. by destruct w as [[]]. }
  rewrite Hrun. split; [done|]. split; [done|].
  cbn [snd print stdout]. by rewrite <- app_assoc.
Qed.

Lemma readme_without_base_model_line_unchanged_witness :
  fs (snd (patch_model_metadata Demo.collaborators (fun _ => None) "/out" "org/model"
             (mkWorld (mkFS ∅ (<["/out/README.md" := "license: mit"]> ∅) ∅)
                [] (fun _ => 0) 0 false [])))
  = mkFS ∅ (<["/out/README.md" := "license: mit"]> ∅) ∅.
Proof.
  refine (proj1 (proj2 (readme_without_base_model_line_unchanged Demo.collaborators
                          (fun _ => None) "/out" "org/model" "license: mit"
                          (mkWorld (mkFS ∅ (<["/out/README.md" := "license: mit"]> ∅) ∅)
                             [] (fun _ => 0) 0 false []) _ _ _ _ _ _ _ _))).
  - vm_compute. reflexivity.
  - vm_compute. reflexivity.
  - vm_compute. reflexivity.
  - apply not_elem_of_empty.
  - vm_compute. repeat constructor; (lia || discriminate).
  - vm_compute. repeat constructor.
  - reflexivity.
  - reflexivity.
Defined.

(** *** The lines of a patched README *)

Lemma list_ascii_of_string_append (s1 s2 : string) :
  list_ascii_of_string (s1 ++ s2)
  = (list_ascii_of_string s1 ++ list_ascii_of_string s2)%list.
Proof.
  induction s1 as [|c s1 IH]; [done|].
  change (c :: list_ascii_of_string (s1 ++ s2)
          = c :: (list_ascii_of_string s1 ++ list_ascii_of_string s2)%list).
  by rewrite IH.
Qed.

Lemma split_lines_skip (acc u cs : list ascii) :
  Forall (fun c => c <> newline) u ->
  split_lines acc (u ++ cs) = split_lines (rev u ++ acc) cs.
Proof.
  intros Hu. revert acc. induction Hu as [|c u Hc _ IH]; intros acc; [done|].
  cbn [app split_lines]. apply Ascii.eqb_neq in Hc. rewrite Hc, IH.
  cbn [rev]. by rewrite <- app_assoc.
Qed.

Lemma readlines_terminated (s rest : string) :
  terminated s -> readlines (s ++ rest) = s :: readlines rest.
Proof.
  intros (u & Hu & Hs). unfold readlines.
  rewrite list_ascii_of_string_append, Hs, <- app_assoc, split_lines_skip by done.
  cbn [app split_lines]. rewrite Ascii.eqb_refl. f_equal.
  rewrite app_nil_r. cbn [rev]. rewrite rev_involutive, <- Hs.
  apply string_of_list_ascii_of_string.
Qed.

Lemma readlines_open_line (s : string) : open_line s -> readlines s = [s].
Proof.
  intros [Hne Hs]. unfold readlines.
  rewrite <- (app_nil_r (list_ascii_of_string s)), split_lines_skip by done.
  rewrite app_nil_r. cbn [split_lines].
  destruct (rev (list_ascii_of_string s)) as [|c l] eqn:Hrev.
  - apply (f_equal (@rev ascii)) in Hrev. rewrite rev_involutive in Hrev.
    destruct s; [done | discriminate Hrev].
  - rewrite <- Hrev, rev_involutive. by rewrite string_of_list_ascii_of_string.
Qed.

Lemma replacement_terminated (base_model_id : string) :
  single_line base_model_id ->
  terminated ("base_model: " ++ base_model_id ++ String newline "").
Proof.
  intros Hid. exists (list_ascii_of_string ("base_model: " ++ base_model_id)). split.
  - rewrite list_ascii_of_string_append. apply Forall_app. split; [|done].
    vm_compute. repeat constructor; discriminate.
  - change ("base_model: " ++ base_model_id ++ String newline "")
      with ("base_model: " ++ (base_model_id ++ String newline "")).
    by rewrite !list_ascii_of_string_append, app_assoc.
Qed.

Lemma patch_readme_line_terminated (base_model_id line : string) :
  single_line base_model_id -> terminated line ->
  terminated (patch_readme_line base_model_id line).
Proof.
  intros Hid Hline. unfold patch_readme_line.
  destruct (startswith (strip line) "base_model:"); [|done].
  by apply replacement_terminated.
Qed.

(** Reading back what was written gives the patched lines themselves. *)
Lemma readlines_patched (base_model_id : string) (acc cs : list ascii) :
  single_line base_model_id ->
  Forall (fun c => c <> newline) acc ->
  readlines (writelines (patch_readme_line base_model_id <$> split_lines acc cs))
  = patch_readme_line base_model_id <$> split_lines acc cs.
Proof.
  intros Hid. revert acc. induction cs as [|c cs IH]; intros acc Hacc.
  - cbn [split_lines]. destruct acc as [|a acc]; [done|].
    cbn [fmap list_fmap writelines fold_right]. rewrite string_append_nil_r.
    unfold patch_readme_line.
    destruct (startswith (strip (string_of_list_ascii (rev (a :: acc)))) "base_model:").
    + rewrite <- (string_append_nil_r ("base_model: " ++ base_model_id ++ String newline "")) at 1.
      rewrite readlines_terminated by (by apply replacement_terminated). done.
    + apply readlines_open_line. split.
      * intros Hempty. apply (f_equal list_ascii_of_string) in Hempty.
        rewrite list_ascii_of_string_of_list_ascii in Hempty.
        cbn [rev] in Hempty. by destruct (rev acc).
      * unfold single_line. rewrite list_ascii_of_string_of_list_ascii.
        by apply Forall_rev.
  - cbn [split_lines]. destruct (Ascii.eqb c newline) eqn:Hc.
    + cbn [fmap list_fmap writelines fold_right].
      fold (writelines (patch_readme_line base_model_id <$> split_lines [] cs)).
      rewrite readlines_terminated; [by rewrite IH|].
      apply patch_readme_line_terminated; [done|].
      exists (rev acc). split; [by apply Forall_rev|].
      rewrite list_ascii_of_string_of_list_ascii. apply Ascii.eqb_eq in Hc as ->. done.
    + apply IH. constructor; [by apply Ascii.eqb_neq | done].
Qed.

Lemma lstrip_chars_keeps (l q : list ascii) (c : ascii) :
  is_space c = false ->
  exists t, lstrip_chars (l ++ c :: q) = (t ++ c :: q)%list.
Proof.
  intros Hc. induction l as [|a l IH].
  - exists []. cbn [app lstrip_chars]. by rewrite Hc.
  - cbn [app lstrip_chars]. destruct (is_space a); [exact IH|].
    by exists (a :: l).
Qed.

(** The line the patcher writes is one it would replace again. *)
Lemma replacement_matches (base_model_id : string) :
  startswith (strip ("base_model: " ++ base_model_id ++ String newline "")) "base_model:"
  = true.
Proof.
  unfold strip.
  set (rest := (" "%char :: list_ascii_of_string (base_model_id ++ String newline ""))).
  assert (Hchars : list_ascii_of_string ("base_model: " ++ base_model_id ++ String newline "")
                   = (list_ascii_of_string "base_model:" ++ rest)%list).
  { change ("base_model: " ++ base_model_id ++ String newline "")
      with ("base_model:" ++ (String " " (base_model_id ++ String newline ""))).
    by rewrite list_ascii_of_string_append. }
  rewrite Hchars.
  assert (Hleft : lstrip_chars (list_ascii_of_string "base_model:" ++ rest)
                  = (list_ascii_of_string "base_model:" ++ rest)%list) by done.
  rewrite Hleft, rev_app_distr.
  destruct (lstrip_chars_keeps (rev rest) (rev (list_ascii_of_string "base_model"))
              ":"%char eq_refl) as [t Ht].
  change (rev (list_ascii_of_string "base_model:"))
    with (":"%char :: rev (list_ascii_of_string "base_model")).
  rewrite Ht, rev_app_distr.
  change (rev (":"%char :: rev (list_ascii_of_string "base_model")))
    with (list_ascii_of_string "base_model:").
  unfold startswith. cbn. by destruct (string_of_list_ascii (rev t)).
Qed.

Lemma patch_readme_line_idempotent (base_model_id line : string) :
  patch_readme_line base_model_id (patch_readme_line base_model_id line)
  = patch_readme_line base_model_id line.
Proof.
  unfold patch_readme_line.
  destruct (startswith (strip line) "base_model:") eqn:Hline.
  - by rewrite replacement_matches.
  - by rewrite Hline.
Qed.

Lemma Forall_split_lines (P : ascii -> Prop) (acc cs : list ascii) :
  Forall P acc -> Forall P cs ->
  Forall (fun line => Forall P (list_ascii_of_string line)) (split_lines acc cs).
Proof.
  revert acc. induction cs as [|c cs IH]; intros acc Hacc Hcs; cbn [split_lines].
  - destruct acc as [|a acc]; [done|]. constructor; [|done].
    rewrite list_ascii_of_string_of_list_ascii. by apply Forall_rev.
  - apply Forall_cons in Hcs as [Hc Hcs]. destruct (Ascii.eqb c newline).
    + constructor; [|by apply IH].
      rewrite list_ascii_of_string_of_list_ascii. apply Forall_rev. by constructor.
    + apply IH; [by constructor | done].
Qed.

Lemma Forall_writelines (P : ascii -> Prop) (lines : list string) :
  Forall (fun line => Forall P (list_ascii_of_string line)) lines ->
  Forall P (list_ascii_of_string (writelines lines)).
Proof.
  induction 1 as [|line lines Hline _ IH]; [done|].
  change (writelines (line :: lines)) with (line ++ writelines lines).
  rewrite list_ascii_of_string_append. by apply Forall_app.
Qed.

Lemma plain_text_patched_line (base_model_id line : string) :
  plain_text base_model_id -> plain_text line ->
  plain_text (patch_readme_line base_model_id line).
Proof.
  intros Hid Hline. unfold patch_readme_line.
  destruct (startswith (strip line) "base_model:"); [|done].
  unfold plain_text. rewrite !list_ascii_of_string_append.
  apply Forall_app. split; [|apply Forall_app; split; [done|]].
  - repeat constructor; (cbv; lia) || discriminate.
  - repeat constructor; (cbv; lia) || discriminate.
Qed.

(** X4. For a README and a model identifier of ASCII characters without
    carriage return, the identifier on one line: the README the patcher
    writes has the lines of the README it read, in the same number and
    order, each either kept as it is or replaced by the one [base_model:]
    line; it is again such a text; and patching it again gives the same
    text. *)
Theorem patched_readme_lines_and_idempotence (base_model_id text : string) :
  single_line base_model_id ->
  plain_text base_model_id ->
  plain_text text ->
  readlines (patched_readme base_model_id text)
  = patch_readme_line base_model_id <$> readlines text /\
  length (readlines (patched_readme base_model_id text)) = length (readlines text) /\
  (forall i line,
     readlines (patched_readme base_model_id text) !! i = Some line ->
     readlines text !! i = Some line \/
     line = "base_model: " ++ base_model_id ++ String newline "") /\
  plain_text (patched_readme base_model_id text) /\
  patched_readme base_model_id (patched_readme base_model_id text)
  = patched_readme base_model_id text.
Proof.
  intros Hid Hplain Htext.
  assert (Hlines : readlines (patched_readme base_model_id text)
                   = patch_readme_line base_model_id <$> readlines text)
    by (by apply readlines_patched).
  split; [exact Hlines|]. split; [by rewrite Hlines, length_fmap|]. split; [|split].
  - intros i line. rewrite Hlines, list_lookup_fmap.
    destruct (readlines text !! i) as [old|]; [|done].
    intros [= <-]. unfold patch_readme_line.
    destruct (startswith (strip old) "base_model:"); [by right | by left].
  - unfold patched_readme. apply Forall_writelines, Forall_fmap.
    eapply Forall_impl; [apply (Forall_split_lines _ [] _ (Forall_nil_2 _) Htext)|].
    intros line Hline. by apply plain_text_patched_line.
  - unfold patched_readme at 1. rewrite Hlines. unfold patched_readme. f_equal.
    rewrite <- list_fmap_compose. apply list_fmap_ext.
    intros i line _. apply patch_readme_line_idempotent.
Qed.

Lemma patched_readme_lines_and_idempotence_witness :
  patched_readme "org/model"
    (patched_readme "org/model"
       ("tags: x" ++ String newline ("base_model: old" ++ String newline "license: mit")))
  = "tags: x" ++ String newline ("base_model: org/model" ++ String newline "license: mit").
Proof.
  rewrite (proj2 (proj2 (proj2 (proj2 (patched_readme_lines_and_idempotence "org/model"
             ("tags: x" ++ String newline ("base_model: old" ++ String newline "license: mit"))
             ltac:(vm_compute; repeat constructor; discriminate)
             ltac:(vm_compute; repeat constructor; (lia || discriminate))
             ltac:(vm_compute; repeat constructor; (lia || discriminate))))))).
  vm_compute. reflexivity.
Defined.

(** ** Distributed bootstrap *)

Lemma setup_distributed_skips (X : Collaborators) (w : World) :
  get_available_gpu_count X <= 1 \/ dist_initialized w = true ->
  setup_distributed X w = (Ret tt, w).
Proof.
  intros H. unfold setup_distributed.
  destruct (1 <? get_available_gpu_count X) eqn:Hgpu; [|done].
  destruct H as [H | H]; [apply Z.ltb_lt in Hgpu; lia|].
  rewrite bind_run. cbn beta iota. by rewrite H.
Qed.

(** X5. [setup_distributed] bootstraps at most once.  With at most one device,
    or with the process group already initialised, it returns at once and
    changes nothing, whatever [init_process_group] would do.  When it returns
    normally it has changed nothing but the initialised flag, and calling it
    again changes nothing.  When only the barrier fails, the group is already
    marked initialised, so a second call returns normally without any
    barrier. *)
Theorem setup_distributed_bootstraps_once (X : Collaborators) (w : World) :
  (get_available_gpu_count X <= 1 \/ dist_initialized w = true ->
   setup_distributed X w = (Ret tt, w)) /\
  (forall w1,
     setup_distributed X w = (Ret tt, w1) ->
     fs w1 = fs w /\ stdout w1 = stdout w /\ same_process w w1 /\
     setup_distributed X w1 = (Ret tt, w1)) /\
  (forall e w1,
     setup_distributed X w = (Raise e, w1) ->
     fs w1 = fs w /\
     (init_process_group X = Ok tt ->
      dist_initialized w1 = true /\ setup_distributed X w1 = (Ret tt, w1))).
Proof.
  split; [apply setup_distributed_skips|].
  unfold setup_distributed at 1 3.
  destruct (1 <? get_available_gpu_count X) eqn:Hgpu.
  - rewrite bind_run. cbn beta iota.
    destruct (dist_initialized w) eqn:Hinit.
    + split.
      * intros w1 [= <-]. repeat split; try done.
        apply setup_distributed_skips. by right.
      * intros e w1 [=].
    + rewrite bind_run.
      destruct (init_process_group X) as [[]|e0]; cbn [of_result].
      * rewrite bind_run. cbn [mark_initialized].
        destruct (barrier X) as [[]|e1]; cbn [of_result]; split.
        -- intros w1 [= <-]. repeat split; try done.
           apply setup_distributed_skips. by right.
        -- intros e w1 [=].
        -- intros w1 [=].
        -- intros e w1 [= <- <-]. split; [done|]. intros _. split; [done|].
           apply setup_distributed_skips. by right.
      * split; [intros w1 [=]|]. intros e w1 [= <- <-]. split; [done|]. intros [=].
  - split.
    + intros w1 [= <-]. repeat split; try done.
      apply setup_distributed_skips. left. apply Z.ltb_ge in Hgpu. lia.
    + intros e w1 [=].
Qed.

Lemma setup_distributed_bootstraps_once_witness :
  dist_initialized (snd (setup_distributed Demo.collaborators (Demo.world 0))) = true /\
  setup_distributed Demo.collaborators
    (snd (setup_distributed Demo.collaborators (Demo.world 0)))
  = (Ret tt, snd (setup_distributed Demo.collaborators (Demo.world 0))).
Proof.
  split; [reflexivity|].
  apply (proj1 (proj2 (setup_distributed_bootstraps_once Demo.collaborators (Demo.world 0)))).
  reflexivity.
Defined.

(** ** Stacked wrappers *)

Lemma patched_init_appends (c : Closure) (callbacks : option (list Callback)) :
  patched_init c callbacks = (default [] callbacks ++ patched_init c None)%list.
Proof.
  unfold patched_init. by destruct (String.eqb (original_task_type c) TaskType_GRPOTASK).
Qed.

(** X6. Installing the wrapper is not idempotent.  A trainer constructed under
    any stack of installed wrappers is given the callbacks it was constructed
    with, in their order, followed by exactly one callback per wrapper, the
    one installed last first. *)
Theorem Trainer_new_appends_one_per_wrapper
    (inits : list Closure) (callbacks : option (list Callback)) :
  Trainer_new inits callbacks
  = (default [] callbacks ++ concat ((fun c => patched_init c None) <$> inits))%list /\
  length (Trainer_new inits callbacks)
  = (length (default [] callbacks) + length inits)%nat.
Proof.
  assert (H : forall inits callbacks,
             Trainer_new inits callbacks
             = (default [] callbacks
                ++ concat ((fun c => patched_init c None) <$> inits))%list).
  { clear. induction inits as [|c inits IH]; intros callbacks.
    - cbn [Trainer_new fmap list_fmap concat]. by rewrite app_nil_r.
    - cbn [Trainer_new fmap list_fmap concat]. rewrite IH.
      change (default [] (Some (patched_init c callbacks))) with (patched_init c callbacks).
      rewrite (patched_init_appends c callbacks). symmetry. apply app_assoc. }
  split; [apply H|]. rewrite H, length_app. f_equal.
  clear. induction inits as [|c inits IH]; [done|].
  cbn [fmap list_fmap concat]. rewrite length_app, IH.
  unfold patched_init. by destruct (String.eqb (original_task_type c) TaskType_GRPOTASK).
Qed.

(** Running the preamble twice in one process: two callbacks per trainer. *)
Example wrappers_installed_twice :
  let w1 := snd (main_preamble Demo.collaborators 0
                   (Demo.argv "GrpoTask" Demo.grpo_payload "m" "json")
                   (Demo.world 1793700000000000)) in
  let w2 := snd (main_preamble Demo.collaborators 0
                   (Demo.argv "GrpoTask" Demo.grpo_payload "m" "json") w1) in
  is_grpo_callback <$> Trainer_new (Trainer_init w2) (Some [LoopCallback "progress"])
  = [false; true; true].
Proof. vm_compute. reflexivity. Qed.

(** ** How [main] can end the process *)

Lemma bind_exit_inv {A B : Type} (m : M A) (f : A -> M B) (w w' : World)
    (s : Z) (msg : string) :
  (m ≫= f) w = (Exit s msg, w') ->
  m w = (Exit s msg, w') \/ exists a w1, m w = (Ret a, w1) /\ f a w1 = (Exit s msg, w').
Proof.
  intros H. rewrite bind_run in H. destruct (m w) as [[a|e|s0 msg0] w1].
  - right. exists a, w1. split; [reflexivity | exact H].
  - discriminate H.
  - left. by injection H as -> -> ->.
Qed.

Lemma no_exit_raise {A : Type} (e : string) : no_exit (raise e : M A).
Proof. by intros w s msg w'. Qed.

Lemma no_exit_const_getitem (d : list (string * string)) (k : string) :
  no_exit (const_getitem d k).
Proof.
  unfold const_getitem. destruct (assoc k d); [apply no_exit_ret | apply no_exit_raise].
Qed.

Lemma no_exit_for_each {A : Type} (xs : list A) (body : A -> M unit) :
  (forall x, no_exit (body x)) -> no_exit (for_each xs body).
Proof.
  intros Hbody. induction xs as [|x xs IH]; cbn [for_each].
  - apply no_exit_ret.
  - apply no_exit_bind; [apply Hbody | by intros _].
Qed.

(** Solves [no_exit m] for the computations of the script that call neither
    [sys.exit] nor the argument parser. *)
Ltac solve_no_exit :=
  repeat first
    [ apply no_exit_lift_fs
    | apply no_exit_print
    | apply no_exit_ret
    | apply no_exit_raise
    | apply no_exit_of_result
    | apply no_exit_const_getitem
    | apply no_exit_exists
    | apply no_exit_bind; [|intros ?]
    | apply no_exit_for_each; intros ?
    | match goal with
      | |- no_exit (if ?b then _ else _) => destruct b
      | |- no_exit (match ?x with _ => _ end) => destruct x
      end ].

Lemma no_exit_create_config
    (X : Collaborators) (task_id model dataset : string) (dataset_type : DatasetType)
    (file_format output_dir : string) (expected_repo_name : option string)
    (log_wandb : bool) :
  no_exit (create_config X task_id model dataset dataset_type file_format output_dir
             expected_repo_name log_wandb).
Proof.
  unfold create_config, save_config, build_config, config_before_tokenizer,
    config_before_localize, base_config, task_settings, localize_datasets,
    create_reward_funcs_file, FileFormat_of, read_file, write_file, os_makedirs.
  solve_no_exit.
Qed.

Lemma no_exit_copy_dataset (X : Collaborators) (dataset_path : string) :
  no_exit (copy_dataset_to_axolotl_directories X dataset_path).
Proof.
  unfold copy_dataset_to_axolotl_directories, shutil_copy, read_file, write_file.
  destruct (get_axolotl_dataset_paths X _). solve_no_exit; by intros ? ? ? ?.
Qed.

Lemma no_exit_ensure_dir (d : string) : no_exit (ensure_dir d).
Proof. unfold ensure_dir, os_makedirs. solve_no_exit. Qed.

Lemma no_exit_install_supervisor (X : Collaborators) (args : Args)
    (submission_dir output_dir : string) :
  no_exit (install_supervisor X args submission_dir output_dir).
Proof.
  unfold install_supervisor, setup_distributed.
  apply no_exit_bind.
  - destruct (1 <? get_available_gpu_count X); [|apply no_exit_ret].
    apply no_exit_bind; [by intros w s msg w'|]. intros [|]; [apply no_exit_ret|].
    apply no_exit_bind; [apply no_exit_of_result|]. intros _.
    apply no_exit_bind; [by intros w s msg w'|]. intros _. apply no_exit_of_result.
  - intros _. apply no_exit_bind.
    { intros w s msg w'. unfold datetime_now. by destruct (is_datetime _). }
    intros now.
    apply no_exit_bind; [apply no_exit_of_result|]. intros budget.
    apply no_exit_bind; [apply no_exit_of_result|]. intros end_time.
    apply no_exit_bind; [apply no_exit_print|]. intros _. by intros w s msg w'.
Qed.

Lemma no_exit_run_training (X : Collaborators) (config_path : string) :
  no_exit (run_training X config_path).
Proof. intros w s msg w'. unfold run_training. apply no_exit_lift_fs. Qed.

Lemma construct_dataset_type_pure (X : Collaborators) (task_type : string) (d : yaml)
    (w w' : World) (o : outcome DatasetType) :
  construct_dataset_type X task_type d w = (o, w') ->
  w' = w /\ forall w2, construct_dataset_type X task_type d w2 = (o, w2).
Proof.
  unfold construct_dataset_type.
  destruct (String.eqb task_type TaskType_DPOTASK).
  { rewrite bind_run. destruct (validate_DpoDatasetType X d); cbn [of_result];
      intros [= <- <-]; split; try done; intros w2; by rewrite bind_run. }
  destruct (String.eqb task_type TaskType_INSTRUCTTEXTTASK).
  { rewrite bind_run. destruct (validate_InstructTextDatasetType X d); cbn [of_result];
      intros [= <- <-]; split; try done; intros w2; by rewrite bind_run. }
  destruct (String.eqb task_type TaskType_GRPOTASK).
  { rewrite bind_run. destruct (validate_GrpoDatasetType X d) as [[rfs fields]|e];
      cbn [of_result]; intros [= <- <-]; split; try done; intros w2; by rewrite bind_run. }
  intros [= <- <-]. by split.
Qed.

Lemma construct_dataset_type_no_exit (X : Collaborators) (task_type : string) (d : yaml) :
  task_type ∈ task_type_choices -> no_exit (construct_dataset_type X task_type d).
Proof.
  intros Hin. unfold construct_dataset_type.
  destruct (String.eqb task_type TaskType_DPOTASK) eqn:H1; [solve_no_exit|].
  destruct (String.eqb task_type TaskType_INSTRUCTTEXTTASK) eqn:H2; [solve_no_exit|].
  destruct (String.eqb task_type TaskType_GRPOTASK) eqn:H3; [solve_no_exit|].
  exfalso. apply String.eqb_neq in H1, H2, H3.
  unfold task_type_choices in Hin.
  repeat (apply elem_of_cons in Hin as [Hin | Hin]; [done|]).
  by apply elem_of_nil in Hin.
Qed.

(** What a [SystemExit] out of [load_dataset_type] looks like, for a task type
    the parser accepts. *)
Lemma load_dataset_type_exit (X : Collaborators) (argv : Args) (w w' : World)
    (s : Z) (msg : string) :
  arg_task_type argv ∈ task_type_choices ->
  load_dataset_type X argv w = (Exit s msg, w') ->
  s = 1 /\ w' = w /\
  exists e, msg = "Error creating dataset type object: " ++ e /\ payload_malformed X argv e.
Proof.
  intros Htag. unfold load_dataset_type, try_except. rewrite bind_run.
  destruct (json_loads X (arg_dataset_type argv)) as [d|e] eqn:Hjson; cbn [of_result].
  - destruct (construct_dataset_type X (arg_task_type argv) d w) as [[dt|e|s0 m0] w1] eqn:Hc.
    + done.
    + apply construct_dataset_type_pure in Hc as [-> Hc].
      intros [= <- <- <-]. repeat split. exists e. split; [done|]. right. eauto.
    + by apply construct_dataset_type_no_exit in Hc.
  - intros [= <- <- <-]. repeat split. exists e. split; [done|]. by left.
Qed.

(** X7. A [SystemExit] that ends [main] comes from the argument parser, or
    it has status 1 and a message starting with "Error creating dataset type
    object: ", on the main process, after the parser has returned, for a
    malformed payload; no other line of the script ends the process in that
    way.  In particular the "Unsupported task type" exit of line 228 never
    happens: what the parser lets through is one of the three values that
    lines 221-226 test.  The imported functions are taken to return or
    raise. *)
Theorem main_exit_is_parser_or_payload
    (X : Collaborators) (r : Z) (argv : Args) (w w' : World) (s : Z) (msg : string) :
  main X r argv w = (Exit s msg, w') ->
  parse_args argv (after_banner w) = (Exit s msg, w') \/
  (s = 1 /\ is_main_process r = true /\
   parse_args argv (after_banner w) = (Ret argv, after_banner w) /\
   (forall e, msg <> "Unsupported task type: " ++ e) /\
   exists e, msg = "Error creating dataset type object: " ++ e /\
             payload_malformed X argv e).
Proof.
  unfold main. intros H. apply bind_exit_inv in H as [H | (cp & w1 & _ & H)];
    [|by apply no_exit_run_training in H].
  unfold main_preamble in H.
  apply bind_exit_inv in H as [H | ([] & wa & Ha & H)]; [by apply no_exit_print in H|].
  assert (wa = after_banner w) as -> by (by injection Ha as <-).
  apply bind_exit_inv in H as [H | (args & wb & Hb & H)]; [by left|].
  pose proof Hb as Hparse.
  apply parse_args_ret_inv in Hb as (-> & -> & Htag & Hfmt).
  apply bind_exit_inv in H as [H | ([] & wc & _ & H)]; [by apply no_exit_ensure_dir in H|].
  apply bind_exit_inv in H as [H | ([] & wd & _ & H)]; [by apply no_exit_ensure_dir in H|].
  apply bind_exit_inv in H as [H | (configs & we & _ & H)];
    [by apply no_exit_const_getitem in H|].
  apply bind_exit_inv in H as [H | ([] & wf & _ & H)].
  - right. destruct (is_main_process r) eqn:Hr; [|done].
    unfold prepare_run in H.
    apply bind_exit_inv in H as [H | ([] & wg & _ & H)].
    { exfalso. revert H. apply no_exit_for_each. intros d. unfold os_makedirs.
      apply no_exit_lift_fs. }
    apply bind_exit_inv in H as [H | (dt & wh & _ & H)].
    { apply load_dataset_type_exit in H as (-> & _ & e & -> & He); [|done].
      do 3 (split; [done|]). split; [|by exists e].
      intros e' Heq. vm_compute in Heq. discriminate Heq. }
    exfalso.
    apply bind_exit_inv in H as [H | ([] & wi & _ & H)].
    { revert H.
      destruct (String.eqb (arg_task_type argv) TaskType_DPOTASK);
        [apply no_exit_lift_fs|].
      destruct (String.eqb (arg_task_type argv) TaskType_GRPOTASK);
        [apply no_exit_lift_fs | apply no_exit_ret]. }
    apply bind_exit_inv in H as [H | (dp & wj & _ & H)];
      [by apply no_exit_copy_dataset in H|].
    apply bind_exit_inv in H as [H | (p & wk & _ & H)];
      [by apply no_exit_create_config in H | done].
  - exfalso.
    apply bind_exit_inv in H as [H | ([] & wg & _ & H)];
      [by apply no_exit_install_supervisor in H | done].
Qed.

Lemma main_exit_is_parser_or_payload_witness :
  exists e,
    "Error creating dataset type object: " ++ Demo.open_brace_error
    = "Error creating dataset type object: " ++ e /\
    payload_malformed Demo.collaborators (Demo.argv "DpoTask" "{" "m" "csv") e.
Proof.
  assert (H : main Demo.collaborators 0 (Demo.argv "DpoTask" "{" "m" "csv") (Demo.world 0)
              = (Exit 1 ("Error creating dataset type object: " ++ Demo.open_brace_error),
                 snd (main Demo.collaborators 0 (Demo.argv "DpoTask" "{" "m" "csv")
                        (Demo.world 0))))
    by (apply pair_of_fst; vm_compute; reflexivity).
  destruct (main_exit_is_parser_or_payload Demo.collaborators 0
              (Demo.argv "DpoTask" "{" "m" "csv") (Demo.world 0) _ _ _ H)
    as [Hparse | (_ & _ & _ & _ & He)]; [|exact He].
  vm_compute in Hparse. discriminate Hparse.
Defined.

(** ** Arguments that [main] does not read *)

(** X8. The required [--dataset] argument is never read: on every rank and in
    every world, [main] does the same whatever its value. *)
Theorem main_ignores_dataset_argument
    (X : Collaborators) (r : Z) (argv : Args) (dataset : string) (w : World) :
  main X r (with_dataset argv dataset) w = main X r argv w.
Proof.
  unfold main, main_preamble. rewrite !bind_run. cbn [print].
  rewrite !(bind_run (parse_args _)). unfold parse_args. cbn [with_dataset arg_task_type arg_file_format].
  destruct (negb (bool_decide (arg_task_type argv ∈ task_type_choices))); [done|].
  destruct (negb (bool_decide (arg_file_format argv ∈ file_format_choices))); [done|].
  reflexivity.
Qed.

Lemma setup_distributed_fs (X : Collaborators) (w w' : World) (o : outcome unit) :
  setup_distributed X w = (o, w') -> fs w' = fs w.
Proof.
  unfold setup_distributed.
  destruct (1 <? get_available_gpu_count X); [|by intros [= _ <-]].
  rewrite bind_run. cbn beta iota.
  destruct (dist_initialized w); [by intros [= _ <-]|].
  rewrite bind_run.
  destruct (init_process_group X) as [[]|e]; cbn [of_result]; [|by intros [= _ <-]].
  rewrite bind_run. cbn [mark_initialized].
  destruct (barrier X) as [[]|e]; cbn [of_result]; by intros [= _ <-].
Qed.

Lemma install_supervisor_fs (X : Collaborators) (args : Args)
    (submission_dir output_dir : string) (w w' : World) (o : outcome unit) :
  install_supervisor X args submission_dir output_dir w = (o, w') -> fs w' = fs w.
Proof.
  unfold install_supervisor. rewrite bind_run.
  destruct (setup_distributed X w) as [[[]|e|s msg] w1] eqn:Hsetup;
    apply setup_distributed_fs in Hsetup; [|by intros [= _ <-]..].
  rewrite bind_run. unfold datetime_now.
  destruct (is_datetime _); [|by intros [= _ <-]].
  rewrite bind_run.
  destruct (timedelta_hours _) as [budget|e]; cbn [of_result]; [|by intros [= _ <-]].
  rewrite bind_run.
  destruct (datetime_add _ _) as [t|e]; cbn [of_result]; [|by intros [= _ <-]].
  rewrite bind_run. cbn [print install_patched_init]. by intros [= _ <-].
Qed.

Lemma ensure_dir_dirs (d : string) (w w' : World) (o : outcome unit) :
  ensure_dir d w = (o, w') ->
  files (fs w') = files (fs w) /\ dirs (fs w') ⊆ {[d]} ∪ dirs (fs w).
Proof.
  unfold ensure_dir. rewrite bind_run. cbn [os_path_exists].
  destruct (path_exists d (fs w)).
  - intros [= <- <-]. split; [done | set_solver].
  - unfold os_makedirs, lift_fs, makedirs_fs, fs_fault.
    destruct (faults (fs w) !! d); [intros [= <- <-]; split; [done | set_solver]|].
    destruct (files (fs w) !! d); intros [= <- <-]; (split; [done | simpl; set_solver]).
Qed.

(** X9. Only the main process prepares the run.  On any other rank [main]
    does the same whatever the [--dataset-type] payload is, malformed or not,
    and by the time it enters the training loop it has written no file and
    made no directory other than the submission and working directories. *)
Theorem other_ranks_prepare_nothing
    (X : Collaborators) (r : Z) (argv : Args) (w : World) :
  is_main_process r = false ->
  (forall payload, main X r (with_dataset_type argv payload) w = main X r argv w) /\
  (forall cp w1,
     main_preamble X r argv w = (Ret cp, w1) ->
     files (fs w1) = files (fs w) /\
     dirs (fs w1) ⊆
       {[get_checkpoints_output_path X (arg_task_id argv) (arg_expected_repo_name argv);
         get_checkpoints_output_path X (arg_task_id argv)
           (Some (fstr_opt (arg_expected_repo_name argv) ++ "_temp"))]}
       ∪ dirs (fs w)).
Proof.
  intros Hr. split.
  - intros payload. unfold main, main_preamble. rewrite !bind_run. cbn [print].
    rewrite !(bind_run (parse_args _)). unfold parse_args.
    cbn [with_dataset_type arg_task_type arg_file_format].
    destruct (negb (bool_decide (arg_task_type argv ∈ task_type_choices))); [done|].
    destruct (negb (bool_decide (arg_file_format argv ∈ file_format_choices))); [done|].
    cbn beta iota. rewrite Hr. reflexivity.
  - intros cp w1 H. unfold main_preamble in H.
    apply bind_ret_inv in H as ([] & wa & Ha & H). injection Ha as <-.
    apply bind_ret_inv in H as (args & wb & Hb & H).
    apply parse_args_ret_inv in Hb as (-> & -> & _ & _).
    apply bind_ret_inv in H as ([] & wc & Hc & H).
    apply ensure_dir_dirs in Hc as [Hc1 Hc2].
    apply bind_ret_inv in H as ([] & wd & Hd & H).
    apply ensure_dir_dirs in Hd as [Hd1 Hd2].
    apply bind_ret_inv in H as (configs & we & He & H).
    apply const_getitem_ret_inv in He as [_ ->].
    rewrite Hr in H.
    apply bind_ret_inv in H as ([] & wf & Hf & H). injection Hf as <-.
    apply bind_ret_inv in H as ([] & wg & Hg & H). injection H as <- <-.
    apply install_supervisor_fs in Hg. rewrite Hg.
    split; [by rewrite Hd1, Hc1|].
    intros x Hx. apply Hd2, elem_of_union in Hx as [Hx | Hx].
    + apply elem_of_union_l, elem_of_union_r. exact Hx.
    + apply Hc2, elem_of_union in Hx as [Hx | Hx].
      * apply elem_of_union_l, elem_of_union_l. exact Hx.
      * apply elem_of_union_r. exact Hx.
Qed.

Lemma other_ranks_prepare_nothing_witness :
  main Demo.collaborators 1
    (with_dataset_type (Demo.argv "DpoTask" Demo.instruct_payload "m" "csv") "{") (Demo.world 0)
  = main Demo.collaborators 1 (Demo.argv "DpoTask" Demo.instruct_payload "m" "csv")
      (Demo.world 0).
Proof.
  apply (proj1 (other_ranks_prepare_nothing Demo.collaborators 1
                  (Demo.argv "DpoTask" Demo.instruct_payload "m" "csv") (Demo.world 0)
                  eq_refl)).
Defined.

(** A malformed payload on rank 1: the training loop is entered all the
    same. *)
Example malformed_payload_on_rank_one :
  fst (main Demo.collaborators 1 (Demo.argv "DpoTask" "{" "m" "csv") (Demo.world 0)) = Ret tt.
Proof. vm_compute. reflexivity. Qed.

(** ** More on the configuration builder *)

Lemma makedirs_ret_inv (d : string) (w w' : World) :
  os_makedirs d w = (Ret tt, w') ->
  w' = set_fs (mkFS ({[d]} ∪ dirs (fs w)) (files (fs w)) (faults (fs w))) w.
Proof.
  unfold os_makedirs. intros H. apply lift_fs_ret_inv in H as (f' & H & ->).
  unfold makedirs_fs, fs_fault in H.
  destruct (faults (fs w) !! d); [done|]. destruct (files (fs w) !! d); [done|].
  by injection H as <-.
Qed.

Lemma read_file_ret_inv (p text : string) (w w' : World) :
  read_file p w = (Ret text, w') -> files (fs w) !! p = Some text /\ w' = w.
Proof.
  rewrite read_file_run. destruct (faults (fs w) !! p); [done|].
  destruct (files (fs w) !! p); [|by case_bool_decide]. by intros [= <- <-].
Qed.

Lemma FileFormat_of_ret_inv (file_format format : string) (w w' : World) :
  FileFormat_of file_format w = (Ret format, w') ->
  format = file_format /\ w' = w /\ file_format ∈ FileFormat_values.
Proof.
  unfold FileFormat_of. case_bool_decide; [|done]. by intros [= <- <-].
Qed.

(** Lines 136-158 taken apart: what was read, what was built and handed to
    [update_flash_attention], and what happened to the file system. *)
Lemma base_config_inv
    (X : Collaborators) (task_id model dataset : string) (dataset_type : DatasetType)
    (file_format output_dir : string) (expected_repo_name : option string)
    (log_wandb : bool) (w w' : World) (config : gmap string yaml) :
  base_config X task_id model dataset dataset_type file_format output_dir
    expected_repo_name log_wandb w = (Ret config, w') ->
  exists text template entry,
    files (fs w) !! get_axolotl_base_config_path X dataset_type = Some text /\
    yaml_safe_load X text = Ok (YMap template) /\
    file_format ∈ FileFormat_values /\
    create_dataset_entry X dataset dataset_type file_format = Ok entry /\
    let settled :=
      <["output_dir" := YStr output_dir]>
        (<["mlflow_experiment_name" := YStr dataset]>
           (<["base_model" := YStr (get_text_base_model_path X model)]>
              (<["datasets" := YList [entry]]> template))) in
    let run := task_id ++ "_" ++ fstr_opt expected_repo_name in
    update_flash_attention X
      (if log_wandb
       then <["wandb_mode" := YStr "offline"]>
              (<["wandb_name" := YStr run]> (<["wandb_runid" := YStr run]> settled))
       else filter (fun kv => negb (startswith kv.1 "wandb") = true) settled)
      model = Ok config /\
    w' = set_fs (mkFS ((if log_wandb then {[WANDB_LOGS_DIR X]} else ∅)
                       ∪ ({[output_dir]} ∪ dirs (fs w)))
                   (files (fs w)) (faults (fs w))) w.
Proof.
  unfold base_config. intros H.
  apply bind_ret_inv in H as (text & w1 & Htext & H).
  apply read_file_ret_inv in Htext as [Htext ->].
  apply bind_ret_inv in H as (tpl & w1 & Htpl & H).
  apply of_result_ret_inv in Htpl as [Htpl ->].
  apply bind_ret_inv in H as (format & w1 & Hfmt & H).
  apply FileFormat_of_ret_inv in Hfmt as (-> & -> & Hfmt).
  apply bind_ret_inv in H as (entry & w1 & Hentry & H).
  apply of_result_ret_inv in Hentry as [Hentry ->].
  apply bind_ret_inv in H as (c & w1 & Hc & H).
  destruct tpl as [| | | | | |template]; try done. injection Hc as <- <-.
  apply bind_ret_inv in H as ([] & w1 & Hmk & H).
  apply makedirs_ret_inv in Hmk as ->.
  apply bind_ret_inv in H as (c0 & w2 & Hc0 & H).
  apply of_result_ret_inv in H as [H ->].
  exists text, template, entry. do 4 (split; [done|]).
  destruct log_wandb.
  - apply bind_ret_inv in Hc0 as ([] & w3 & Hmk & Hc0).
    apply makedirs_ret_inv in Hmk as ->. injection Hc0 as <- <-.
    split; [done|]. done.
  - injection Hc0 as <- <-. split; [done|].
    unfold set_fs. cbn [fs dirs files faults stdout clock clock_reads dist_initialized
                        Trainer_init]. by rewrite union_empty_l_L.
Qed.

(** X10. What lines 141-156 hand to [update_flash_attention]: the template
    with [datasets], [base_model], [mlflow_experiment_name] and [output_dir]
    set; with logging on, the three tracker keys set as well, the run named
    task id, underscore, expected repository name ("None" when absent), and
    the tracker's log directory made; with logging off, every key starting
    with "wandb" gone and every other template key kept. *)
Theorem base_config_tracker_keys
    (X : Collaborators) (task_id model dataset : string) (dataset_type : DatasetType)
    (file_format output_dir : string) (expected_repo_name : option string)
    (log_wandb : bool) (w w' : World) (config : gmap string yaml) :
  base_config X task_id model dataset dataset_type file_format output_dir
    expected_repo_name log_wandb w = (Ret config, w') ->
  exists text template entry handed,
    files (fs w) !! get_axolotl_base_config_path X dataset_type = Some text /\
    yaml_safe_load X text = Ok (YMap template) /\
    create_dataset_entry X dataset dataset_type file_format = Ok entry /\
    update_flash_attention X handed model = Ok config /\
    handed !! "datasets" = Some (YList [entry]) /\
    handed !! "base_model" = Some (YStr (get_text_base_model_path X model)) /\
    handed !! "mlflow_experiment_name" = Some (YStr dataset) /\
    handed !! "output_dir" = Some (YStr output_dir) /\
    output_dir ∈ dirs (fs w') /\
    (log_wandb = true ->
     handed !! "wandb_runid" = Some (YStr (task_id ++ "_" ++ fstr_opt expected_repo_name)) /\
     handed !! "wandb_name" = Some (YStr (task_id ++ "_" ++ fstr_opt expected_repo_name)) /\
     handed !! "wandb_mode" = Some (YStr "offline") /\
     WANDB_LOGS_DIR X ∈ dirs (fs w') /\
     forall k, k ∉ ["datasets"; "base_model"; "mlflow_experiment_name"; "output_dir";
                    "wandb_runid"; "wandb_name"; "wandb_mode"] ->
               handed !! k = template !! k) /\
    (log_wandb = false ->
     (forall k, startswith k "wandb" = true -> handed !! k = None) /\
     forall k, startswith k "wandb" = false ->
               k ∉ ["datasets"; "base_model"; "mlflow_experiment_name"; "output_dir"] ->
               handed !! k = template !! k).
Proof.
  intros H. apply base_config_inv in H
    as (text & template & entry & Htext & Htpl & _ & Hentry & Hflash & ->).
  eexists text, template, entry, _. do 3 (split; [done|]). split; [exact Hflash|].
  destruct log_wandb.
  - split; [by rewrite !lookup_insert_ne, lookup_insert_eq by done|].
    split; [by rewrite !lookup_insert_ne, lookup_insert_eq by done|].
    split; [by rewrite !lookup_insert_ne, lookup_insert_eq by done|].
    split; [by rewrite !lookup_insert_ne, lookup_insert_eq by done|].
    split; [cbn; set_solver|]. split; [|done]. intros _.
    split; [by rewrite !lookup_insert_ne, lookup_insert_eq by done|].
    split; [by rewrite !lookup_insert_ne, lookup_insert_eq by done|].
    split; [by rewrite lookup_insert_eq|].
    split; [cbn; set_solver|].
    intros k Hk. rewrite !lookup_insert_ne; [done|..]; intros <-; apply Hk; set_solver.
  - set (settled := <["output_dir" := YStr output_dir]>
                      (<["mlflow_experiment_name" := YStr dataset]>
                         (<["base_model" := YStr (get_text_base_model_path X model)]>
                            (<["datasets" := YList [entry]]> template)))).
    assert (Hkeep : forall k,
               startswith k "wandb" = false ->
               filter (fun kv : string * yaml => negb (startswith kv.1 "wandb") = true)
                 settled !! k = settled !! k).
    { intros k Hk. destruct (settled !! k) as [x|] eqn:Hx.
      - apply map_lookup_filter_Some. split; [done|].
        change (negb (startswith k "wandb") = true). by rewrite Hk.
      - apply map_lookup_filter_None. by left. }
    subst settled.
    split; [rewrite Hkeep by done; by rewrite !lookup_insert_ne, lookup_insert_eq by done|].
    split; [rewrite Hkeep by done; by rewrite !lookup_insert_ne, lookup_insert_eq by done|].
    split; [rewrite Hkeep by done; by rewrite !lookup_insert_ne, lookup_insert_eq by done|].
    split; [rewrite Hkeep by done; by rewrite lookup_insert_eq|].
    split; [cbn; set_solver|]. split; [done|]. intros _. split.
    + intros k Hk. apply map_lookup_filter_None. right.
      intros x _. change (negb (startswith k "wandb") <> true). by rewrite Hk.
    + intros k Hk Hnot. rewrite Hkeep by done.
      rewrite !lookup_insert_ne; [done|..]; intros <-; apply Hnot; set_solver.
Qed.

(** Logging off on the concrete installation: the template's
    [wandb_project] is not handed on. *)
Lemma base_config_tracker_keys_witness :
  exists handed,
    update_flash_attention Demo.collaborators handed "m"
    = Ok (<["flash_attention" := YBool false]> handed) /\
    handed !! "wandb_project" = None /\
    handed !! "output_dir" = Some (YStr "/out").
Proof.
  destruct (base_config_tracker_keys Demo.collaborators "t1" "m" "org/dataset"
              (InstructTextDatasetType YNull) "hf" "/out" None false (Demo.world 0)
              _ _ (pair_of_fst _ _ eq_refl))
    as (text & template & entry & handed & _ & _ & _ & _ & _ & _ & _ & Hout & _ & _ & Hoff).
  exists handed. split; [reflexivity|]. split; [|exact Hout].
  apply (proj1 (Hoff eq_refl)). reflexivity.
Defined.

Lemma bind_raise_run {A B : Type} (m : M A) (f : A -> M B) (w w' : World) (e : string) :
  m w = (Raise e, w') -> (m ≫= f) w = (Raise e, w').
Proof. intros H. by rewrite bind_run, H. Qed.

(** X11. [create_config] fails before it touches anything when its first
    lines fail: with the base template missing, or with a file format that is
    not a member of [FileFormat], it raises and leaves the world as it was,
    the output directory not even made. *)
Theorem create_config_fails_early_untouched
    (X : Collaborators) (task_id model dataset : string) (dataset_type : DatasetType)
    (file_format output_dir : string) (expected_repo_name : option string)
    (log_wandb : bool) (w : World) :
  files (fs w) !! get_axolotl_base_config_path X dataset_type = None \/
  file_format ∉ FileFormat_values ->
  exists e,
    create_config X task_id model dataset dataset_type file_format output_dir
      expected_repo_name log_wandb w = (Raise e, w).
Proof.
  intros Hbad.
  enough (H : exists e, base_config X task_id model dataset dataset_type file_format
                          output_dir expected_repo_name log_wandb w = (Raise e, w)).
  { destruct H as [e H]. exists e.
    unfold create_config, build_config, config_before_tokenizer, config_before_localize.
    by do 4 apply bind_raise_run. }
  unfold base_config. rewrite bind_run, read_file_run.
  destruct (faults (fs w) !! get_axolotl_base_config_path X dataset_type); [by eexists|].
  destruct (files (fs w) !! get_axolotl_base_config_path X dataset_type) as [text|] eqn:Htext;
    [|case_bool_decide; by eexists].
  destruct Hbad as [Hbad | Hbad]; [done|].
  rewrite bind_run.
  destruct (yaml_safe_load X text) as [template|e]; cbn [of_result]; [|by eexists].
  rewrite bind_run. unfold FileFormat_of.
  rewrite (bool_decide_eq_false_2 _ Hbad). by eexists.
Qed.

Lemma create_config_fails_early_untouched_witness :
  exists e,
    create_config Demo.collaborators "t1" "m" "d.parquet" (InstructTextDatasetType YNull)
      "parquet" "/out" None true (Demo.world 0) = (Raise e, Demo.world 0).
Proof.
  apply (create_config_fails_early_untouched Demo.collaborators "t1" "m" "d.parquet"
           (InstructTextDatasetType YNull) "parquet" "/out" None true (Demo.world 0)).
  right. intros Hin. unfold FileFormat_values in Hin.
  repeat (apply elem_of_cons in Hin as [Hin | Hin]; [discriminate Hin|]).
  by apply elem_of_nil in Hin.
Defined.

Lemma localize_datasets_world (X : Collaborators) (dataset file_format : string)
    (config config' : gmap string yaml) (w w' : World) :
  localize_datasets X dataset file_format config w = (Ret config', w') -> w' = w.
Proof.
  unfold localize_datasets.
  destruct (negb (file_format =? FileFormat_HF)%string); [|by intros [= _ <-]].
  intros H.
  apply bind_ret_inv in H as (ds & w1 & H1 & H). apply of_result_ret_inv in H1 as [_ ->].
  apply bind_ret_inv in H as (es & w1 & H1 & H). apply of_result_ret_inv in H1 as [_ ->].
  apply bind_ret_inv in H as (es' & w1 & H1 & H). apply of_result_ret_inv in H1 as [_ ->].
  by destruct ds; injection H as _ <-.
Qed.

(** What lines 160-169 do to the world: nothing for the two types without
    reward functions, one written file for GRPO. *)
Lemma task_settings_world (X : Collaborators) (task_id : string)
    (dataset_type : DatasetType) (config config' : gmap string yaml) (w w' : World) :
  task_settings X task_id dataset_type config w = (Ret config', w') ->
  dirs (fs w') = dirs (fs w) /\ faults (fs w') = faults (fs w) /\
  stdout w' = stdout w /\
  (task_family dataset_type <> GRPO -> w' = w).
Proof.
  destruct dataset_type as [fields | fields | rfs fields]; cbn [task_settings task_family].
  - by intros [= _ <-].
  - by intros [= _ <-].
  - intros H.
    apply bind_ret_inv in H as (src & w1 & H1 & H).
    apply const_getitem_ret_inv in H1 as [_ ->].
    apply bind_ret_inv in H as ([filename names] & w1 & H1 & H).
    unfold create_reward_funcs_file in H1.
    apply bind_ret_inv in H1 as ([] & w2 & Hw & H1). injection H1 as _ _ <-.
    rewrite write_file_run in Hw.
    destruct (faults (fs w) !! _); [done|]. case_bool_decide; [done|].
    injection Hw as <-.
    apply bind_ret_inv in H as (trl & w3 & H3 & H). apply of_result_ret_inv in H3 as [_ ->].
    apply bind_ret_inv in H as (trl1 & w3 & H3 & H). apply of_result_ret_inv in H3 as [_ ->].
    apply bind_ret_inv in H as (trl2 & w3 & H3 & H). apply of_result_ret_inv in H3 as [_ ->].
    apply bind_ret_inv in H as (trl3 & w3 & H3 & H). apply of_result_ret_inv in H3 as [_ ->].
    injection H as _ <-. by repeat split.
Qed.

(** A successful [create_config] in full: the document built, the path, the
    directories and the files. *)
Lemma create_config_effects
    (X : Collaborators) (task_id model dataset : string) (dataset_type : DatasetType)
    (file_format output_dir : string) (expected_repo_name : option string)
    (log_wandb : bool) (w w' : World) (p : string) :
  create_config X task_id model dataset dataset_type file_format output_dir
    expected_repo_name log_wandb w = (Ret p, w') ->
  exists doc w1 configs,
    build_config X task_id model dataset dataset_type file_format output_dir
      expected_repo_name log_wandb w = (Ret doc, w1) /\
    assoc "configs" (AXOLOTL_DIRECTORIES X) = Some configs /\
    p = path_join configs (task_id ++ ".yml") /\
    dirs (fs w') = (if log_wandb then {[WANDB_LOGS_DIR X]} else ∅)
                   ∪ ({[output_dir]} ∪ dirs (fs w)) /\
    files (fs w') !! p = Some (yaml_dump X doc) /\
    (task_family dataset_type <> GRPO ->
     files (fs w') = <[p := yaml_dump X doc]> (files (fs w))) /\
    faults (fs w') = faults (fs w) /\
    stdout w' = stdout w.
Proof.
  unfold create_config. intros H.
  apply bind_ret_inv in H as (doc & w1 & Hbuild & H).
  apply bind_ret_inv in H as (configs & w2 & Hcfg & H).
  apply const_getitem_ret_inv in Hcfg as [Hcfg ->].
  apply bind_ret_inv in H as ([] & w3 & Hsave & H). injection H as <- <-.
  unfold save_config in Hsave. rewrite write_file_run in Hsave.
  destruct (faults (fs w1) !! _); [done|]. case_bool_decide; [done|].
  injection Hsave as <-.
  exists doc, w1, configs. split; [done|].
  apply build_config_inv in Hbuild as (pre & tok & c & Hpre & _ & _ & ->).
  apply before_tokenizer_inv in Hpre as (c0 & w0 & Hc0 & Hloc).
  apply localize_datasets_world in Hloc as ->.
  unfold config_before_localize in Hc0.
  apply bind_ret_inv in Hc0 as (c1 & wb & Hbase & Hts).
  apply task_settings_world in Hts as (Hd & Hf & Hs & Hsame).
  apply base_config_inv in Hbase as (_ & _ & _ & _ & _ & _ & _ & _ & ->).
  split; [done|]. split; [done|].
  cbn [set_fs fs dirs files faults stdout] in *.
  split; [by rewrite Hd|]. split; [by rewrite lookup_insert_eq|].
  split; [|by rewrite Hf, Hs].
  intros Hfam. by rewrite (Hsame Hfam).
Qed.

(** X12. What a successful [create_config] leaves on the file system: the
    output directory, and with logging the tracker's log directory, added to
    the directories; the dump of the document under the returned path; and,
    for the two dataset types without reward functions, no other file
    touched.  Nothing is printed. *)
Theorem create_config_file_system_effects
    (X : Collaborators) (task_id model dataset : string) (dataset_type : DatasetType)
    (file_format output_dir : string) (expected_repo_name : option string)
    (log_wandb : bool) (w w' : World) (p : string) :
  create_config X task_id model dataset dataset_type file_format output_dir
    expected_repo_name log_wandb w = (Ret p, w') ->
  exists doc configs,
    assoc "configs" (AXOLOTL_DIRECTORIES X) = Some configs /\
    p = path_join configs (task_id ++ ".yml") /\
    dirs (fs w') = (if log_wandb then {[WANDB_LOGS_DIR X]} else ∅)
                   ∪ ({[output_dir]} ∪ dirs (fs w)) /\
    files (fs w') !! p = Some (yaml_dump X doc) /\
    (task_family dataset_type <> GRPO ->
     files (fs w') = <[p := yaml_dump X doc]> (files (fs w))) /\
    faults (fs w') = faults (fs w) /\
    stdout w' = stdout w.
Proof.
  intros H. apply create_config_effects in H as (doc & w1 & configs & _ & H).
  by exists doc, configs.
Qed.

Lemma create_config_file_system_effects_witness :
  dirs (fs (snd (create_config Demo.collaborators "t1" "m" "org/dataset"
                   (DpoDatasetType YNull) "hf" "/out" None true (Demo.world 0))))
  = {[WANDB_LOGS_DIR Demo.collaborators]} ∪ ({[ "/out" ]} ∪ dirs (fs (Demo.world 0))).
Proof.
  assert (H : fst (create_config Demo.collaborators "t1" "m" "org/dataset"
                     (DpoDatasetType YNull) "hf" "/out" None true (Demo.world 0))
              = Ret "/workspace/axolotl/configs/t1.yml")
    by (vm_compute; reflexivity).
  destruct (create_config_file_system_effects Demo.collaborators "t1" "m" "org/dataset"
              (DpoDatasetType YNull) "hf" "/out" None true (Demo.world 0)
              _ _ (pair_of_fst _ _ H))
    as (doc & configs & _ & _ & Hdirs & _).
  exact Hdirs.
Defined.

(** X13. For the registry format "hf" the loop of lines 171-178 is skipped:
    the [datasets] value of the persisted document is the one the document
    had after lines 136-169, entry built by [create_dataset_entry] included,
    with no [ds_type], [data_files] or local path forced on it.
    [customize_config] is assumed to leave [datasets] alone. *)
Theorem hf_entries_pass_through
    (X : Collaborators) (task_id model dataset : string) (dataset_type : DatasetType)
    (output_dir : string) (expected_repo_name : option string)
    (log_wandb : bool) (w w' : World) (p : string) :
  customize_keeps X "datasets" ->
  create_config X task_id model dataset dataset_type "hf" output_dir
    expected_repo_name log_wandb w = (Ret p, w') ->
  exists doc w1 before w0,
    build_config X task_id model dataset dataset_type "hf" output_dir
      expected_repo_name log_wandb w = (Ret doc, w1) /\
    files (fs w') !! p = Some (yaml_dump X doc) /\
    config_before_localize X task_id model dataset dataset_type "hf" output_dir
      expected_repo_name log_wandb w = (Ret before, w0) /\
    doc !! "datasets" = before !! "datasets".
Proof.
  intros Hkeep H.
  apply create_config_inv in H as (doc & w1 & Hbuild & Hfile).
  pose proof Hbuild as Hdoc.
  apply build_config_inv in Hdoc as (pre & tok & c & Hpre & _ & Hc & ->).
  apply before_tokenizer_inv in Hpre as (c0 & w0 & Hc0 & Hloc).
  eexists _, w1, c0, w0. do 3 (split; [done|]).
  rewrite lookup_insert_ne by done. rewrite (Hkeep _ _ _ _ _ Hc).
  rewrite pad_token_setting_keeps by done.
  unfold localize_datasets in Hloc. cbn in Hloc. by injection Hloc as <- _.
Qed.

Lemma hf_entries_pass_through_witness :
  exists doc w1 before w0,
    build_config Demo.collaborators "t1" "m" "org/dataset" (InstructTextDatasetType YNull)
      "hf" "/out" None true (Demo.world 0) = (Ret doc, w1) /\
    files (fs (snd (create_config Demo.collaborators "t1" "m" "org/dataset"
                      (InstructTextDatasetType YNull) "hf" "/out" None true
                      (Demo.world 0)))) !! "/workspace/axolotl/configs/t1.yml"
      = Some (yaml_dump Demo.collaborators doc) /\
    config_before_localize Demo.collaborators "t1" "m" "org/dataset"
      (InstructTextDatasetType YNull) "hf" "/out" None true (Demo.world 0)
      = (Ret before, w0) /\
    doc !! "datasets" = before !! "datasets".
Proof.
  apply (hf_entries_pass_through Demo.collaborators "t1" "m" "org/dataset"
           (InstructTextDatasetType YNull) "/out" None true (Demo.world 0)).
  - by apply demo_installation_keeps.
  - vm_compute. reflexivity.
Defined.

(** X14. The algorithm tag.  For a DPO dataset type the persisted document
    has [rl] equal to "dpo", whatever the template said; for the two other
    types [create_config] leaves [rl] as lines 136-158 produced it.
    [customize_config] is assumed to leave [rl] alone. *)
Theorem rl_is_dpo_only_for_dpo
    (X : Collaborators) (task_id model dataset : string) (dataset_type : DatasetType)
    (file_format output_dir : string) (expected_repo_name : option string)
    (log_wandb : bool) (w w' : World) (p : string) :
  customize_keeps X "rl" ->
  create_config X task_id model dataset dataset_type file_format output_dir
    expected_repo_name log_wandb w = (Ret p, w') ->
  exists doc w1 base wb,
    build_config X task_id model dataset dataset_type file_format output_dir
      expected_repo_name log_wandb w = (Ret doc, w1) /\
    files (fs w') !! p = Some (yaml_dump X doc) /\
    base_config X task_id model dataset dataset_type file_format output_dir
      expected_repo_name log_wandb w = (Ret base, wb) /\
    doc !! "rl" = match dataset_type with
                  | DpoDatasetType _ => Some (YStr "dpo")
                  | _ => base !! "rl"
                  end.
Proof.
  intros Hkeep H.
  apply create_config_inv in H as (doc & w1 & Hbuild & Hfile).
  pose proof Hbuild as Hdoc.
  apply build_config_inv in Hdoc as (pre & tok & c & Hpre & _ & Hc & ->).
  apply before_tokenizer_inv in Hpre as (c0 & w0 & Hc0 & Hloc).
  unfold config_before_localize in Hc0.
  apply bind_ret_inv in Hc0 as (c1 & wb & Hbase & Hts).
  eexists _, w1, c1, wb. do 3 (split; [done|]).
  rewrite lookup_insert_ne by done. rewrite (Hkeep _ _ _ _ _ Hc).
  rewrite pad_token_setting_keeps by done.
  rewrite (localize_datasets_keeps _ _ _ "rl" _ _ _ _ Hloc) by done.
  destruct dataset_type as [fields | fields | rfs fields]; cbn [task_settings] in Hts.
  - by injection Hts as <- _.
  - injection Hts as <- _. by rewrite lookup_insert_eq.
  - apply bind_ret_inv in Hts as (src & w2 & _ & Hts).
    apply bind_ret_inv in Hts as ([filename names] & w3 & _ & Hts).
    apply bind_ret_inv in Hts as (trl & w4 & _ & Hts).
    apply bind_ret_inv in Hts as (trl1 & w5 & _ & Hts).
    apply bind_ret_inv in Hts as (trl2 & w6 & _ & Hts).
    apply bind_ret_inv in Hts as (trl3 & w7 & _ & Hts).
    injection Hts as <- _. by rewrite !lookup_insert_ne.
Qed.

Lemma rl_is_dpo_only_for_dpo_witness :
  exists doc w1 base wb,
    build_config Demo.collaborators "t1" "m" "org/dataset" (DpoDatasetType YNull)
      "hf" "/out" None true (Demo.world 0) = (Ret doc, w1) /\
    files (fs (snd (create_config Demo.collaborators "t1" "m" "org/dataset"
                      (DpoDatasetType YNull) "hf" "/out" None true
                      (Demo.world 0)))) !! "/workspace/axolotl/configs/t1.yml"
      = Some (yaml_dump Demo.collaborators doc) /\
    base_config Demo.collaborators "t1" "m" "org/dataset" (DpoDatasetType YNull)
      "hf" "/out" None true (Demo.world 0) = (Ret base, wb) /\
    doc !! "rl" = Some (YStr "dpo").
Proof.
  apply (rl_is_dpo_only_for_dpo Demo.collaborators "t1" "m" "org/dataset"
           (DpoDatasetType YNull) "hf" "/out" None true (Demo.world 0)).
  - by apply demo_installation_keeps.
  - vm_compute. reflexivity.
Defined.

(** X15. A GRPO run needs a [trl] dictionary in the document that lines
    136-158 produce: when [create_config] succeeds for a GRPO dataset type,
    that document maps [trl] to a dictionary, and after lines 162-169 every
    key of it other than [reward_funcs] and [reward_weights] is as it was. *)
Theorem grpo_needs_and_keeps_trl
    (X : Collaborators) (task_id model dataset : string)
    (reward_functions : list RewardFunction) (fields : yaml)
    (file_format output_dir : string) (expected_repo_name : option string)
    (log_wandb : bool) (w w' : World) (p : string) :
  create_config X task_id model dataset (GrpoDatasetType reward_functions fields)
    file_format output_dir expected_repo_name log_wandb w = (Ret p, w') ->
  exists base wb trl before w0,
    base_config X task_id model dataset (GrpoDatasetType reward_functions fields)
      file_format output_dir expected_repo_name log_wandb w = (Ret base, wb) /\
    base !! "trl" = Some (YMap trl) /\
    config_before_localize X task_id model dataset (GrpoDatasetType reward_functions fields)
      file_format output_dir expected_repo_name log_wandb w = (Ret before, w0) /\
    forall k, k <> "reward_funcs" -> k <> "reward_weights" ->
              lookup2 before "trl" k = trl !! k.
Proof.
  intros H.
  apply create_config_inv in H as (doc & w1 & Hbuild & _).
  apply build_config_inv in Hbuild as (pre & tok & c & Hpre & _ & _ & _).
  apply before_tokenizer_inv in Hpre as (c0 & w0 & Hc0 & _).
  pose proof Hc0 as Hbefore. unfold config_before_localize in Hc0.
  apply bind_ret_inv in Hc0 as (c1 & wb & Hbase & Hts).
  cbn [task_settings] in Hts.
  apply bind_ret_inv in Hts as (src & w2 & _ & Hts).
  apply bind_ret_inv in Hts as ([filename names] & w3 & _ & Hts).
  apply bind_ret_inv in Hts as (trl & w4 & Htrl & Hts).
  apply of_result_ret_inv in Htrl as [Htrl ->].
  apply bind_ret_inv in Hts as (trl1 & w5 & Htrl1 & Hts).
  apply of_result_ret_inv in Htrl1 as [Htrl1 ->].
  destruct trl as [| | | | | |t]; try done. injection Htrl1 as <-.
  apply bind_ret_inv in Hts as (trl2 & w6 & Htrl2 & Hts).
  apply of_result_ret_inv in Htrl2 as [Htrl2 ->].
  cbn in Htrl2. rewrite lookup_insert_eq in Htrl2. injection Htrl2 as <-.
  apply bind_ret_inv in Hts as (trl3 & w7 & Htrl3 & Hts).
  apply of_result_ret_inv in Htrl3 as [Htrl3 ->].
  injection Htrl3 as <-. injection Hts as <- <-.
  eexists c1, wb, t, _, _. split; [done|]. split.
  - cbn in Htrl. destruct (c1 !! "trl"); [by injection Htrl as -> | done].
  - split; [exact Hbefore|]. intros k H1 H2.
    unfold lookup2. rewrite lookup_insert_eq. by rewrite !lookup_insert_ne.
Qed.

Lemma grpo_needs_and_keeps_trl_witness :
  exists base wb trl before w0,
    base_config Demo.collaborators "t1" "m" "org/dataset"
      (GrpoDatasetType Demo.grpo_rewards YNull) "hf" "/out" None true (Demo.world 0)
      = (Ret base, wb) /\
    base !! "trl" = Some (YMap trl) /\
    config_before_localize Demo.collaborators "t1" "m" "org/dataset"
      (GrpoDatasetType Demo.grpo_rewards YNull) "hf" "/out" None true (Demo.world 0)
      = (Ret before, w0) /\
    forall k, k <> "reward_funcs" -> k <> "reward_weights" ->
              lookup2 before "trl" k = trl !! k.
Proof.
  apply (grpo_needs_and_keeps_trl Demo.collaborators "t1" "m" "org/dataset"
           Demo.grpo_rewards YNull "hf" "/out" None true (Demo.world 0)
           (snd (create_config Demo.collaborators "t1" "m" "org/dataset"
                   (GrpoDatasetType Demo.grpo_rewards YNull) "hf" "/out" None true
                   (Demo.world 0)))
           "/workspace/axolotl/configs/t1.yml").
  apply pair_of_fst. vm_compute. reflexivity.
Defined.

(** ** The main process up to the training loop *)

(** X16. When the main process gets as far as the training loop, the path it
    hands to [do_cli] names a file holding the dump of a document whose
    [val_set_size] is 0, and the working directory exists. *)
Theorem main_process_hands_over_written_config
    (X : Collaborators) (r : Z) (argv : Args) (w w1 : World) (cp : string) :
  is_main_process r = true ->
  main_preamble X r argv w = (Ret cp, w1) ->
  main X r argv w
  = lift_fs (do_cli X (Trainer_new (Trainer_init w1)) cp) w1 /\
  (exists doc,
     files (fs w1) !! cp = Some (yaml_dump X doc) /\
     doc !! "val_set_size" = Some (YInt 0)) /\
  get_checkpoints_output_path X (arg_task_id argv)
    (Some (fstr_opt (arg_expected_repo_name argv) ++ "_temp")) ∈ dirs (fs w1).
Proof.
  intros Hr H. split.
  { unfold main. by rewrite bind_run, H. }
  unfold main_preamble in H.
  apply bind_ret_inv in H as ([] & wa & _ & H).
  apply bind_ret_inv in H as (args & wb & Hb & H).
  apply parse_args_ret_inv in Hb as (-> & -> & _ & _).
  apply bind_ret_inv in H as ([] & wc & _ & H).
  apply bind_ret_inv in H as ([] & wd & _ & H).
  apply bind_ret_inv in H as (configs & we & He & H).
  apply const_getitem_ret_inv in He as [Hconfigs ->].
  rewrite Hr in H.
  apply bind_ret_inv in H as ([] & wf & Hf & H).
  apply bind_ret_inv in H as ([] & wg & Hg & H). injection H as <- <-.
  apply install_supervisor_fs in Hg. rewrite Hg.
  unfold prepare_run in Hf.
  apply bind_ret_inv in Hf as ([] & w2 & _ & Hf).
  apply bind_ret_inv in Hf as (dataset_type & w3 & _ & Hf).
  apply bind_ret_inv in Hf as ([] & w4 & _ & Hf).
  apply bind_ret_inv in Hf as (dataset_path & w5 & _ & Hf).
  apply bind_ret_inv in Hf as (p & w6 & Hcreate & Hf). injection Hf as <-.
  apply create_config_effects in Hcreate
    as (doc & w7 & configs' & Hbuild & Hconfigs' & -> & Hdirs & Hfile & _).
  rewrite Hconfigs in Hconfigs'. injection Hconfigs' as <-.
  split.
  - exists doc. split; [exact Hfile|].
    apply build_config_inv in Hbuild as (pre & tok & c & _ & _ & _ & ->).
    apply lookup_insert_eq.
  - rewrite Hdirs. apply elem_of_union_r, elem_of_union_l. by apply elem_of_singleton.
Qed.

Lemma main_process_hands_over_written_config_witness :
  exists doc,
    files (fs (snd (main_preamble Demo.collaborators 0
                      (Demo.argv "GrpoTask" Demo.grpo_payload "m" "json") (Demo.world 0))))
      !! "/workspace/axolotl/configs/t1.yml" = Some (yaml_dump Demo.collaborators doc) /\
    doc !! "val_set_size" = Some (YInt 0).
Proof.
  assert (H : fst (main_preamble Demo.collaborators 0
                     (Demo.argv "GrpoTask" Demo.grpo_payload "m" "json") (Demo.world 0))
              = Ret "/workspace/axolotl/configs/t1.yml")
    by (vm_compute; reflexivity).
  exact (proj1 (proj2 (main_process_hands_over_written_config Demo.collaborators 0
                         (Demo.argv "GrpoTask" Demo.grpo_payload "m" "json") (Demo.world 0)
                         _ _ eq_refl (pair_of_fst _ _ H)))).
Defined.

(** ** Copying the dataset *)

Lemma shutil_copy_run (src dst text : string) (w : World) :
  files (fs w) !! src = Some text ->
  faults (fs w) !! src = None ->
  faults (fs w) !! dst = None ->
  dst ∉ dirs (fs w) ->
  shutil_copy src dst w
  = (Ret tt, set_fs (mkFS (dirs (fs w)) (<[dst := text]> (files (fs w))) (faults (fs w))) w).
Proof.
  intros Hsrc Hfs Hfd Hdir. unfold shutil_copy.
  rewrite bind_run, read_file_run, Hfs, Hsrc, bind_run. cbn beta iota.
  rewrite (bool_decide_eq_false_2 _ Hdir), write_file_run, Hfd.
  by rewrite (bool_decide_eq_false_2 _ Hdir).
Qed.

(** X17. [copy_dataset_to_axolotl_directories] on a readable dataset file and
    two writable destinations that are neither directories nor the source
    itself: it returns the first of the two paths that
    [get_axolotl_dataset_paths] gives for the file's base name, both paths
    then hold the text of the dataset, and the source and every other file
    are as they were.  When the dataset file does not exist it raises and
    changes nothing. *)
Theorem copy_dataset_fills_both_paths
    (X : Collaborators) (dataset_path text : string) (w : World) :
  let data_path := fst (get_axolotl_dataset_paths X (basename dataset_path)) in
  let root_path := snd (get_axolotl_dataset_paths X (basename dataset_path)) in
  (files (fs w) !! dataset_path = Some text ->
   faults (fs w) !! dataset_path = None ->
   faults (fs w) !! data_path = None -> faults (fs w) !! root_path = None ->
   data_path ∉ dirs (fs w) -> root_path ∉ dirs (fs w) ->
   data_path <> dataset_path -> root_path <> dataset_path ->
   exists w',
     copy_dataset_to_axolotl_directories X dataset_path w = (Ret data_path, w') /\
     files (fs w') = <[root_path := text]> (<[data_path := text]> (files (fs w))) /\
     files (fs w') !! data_path = Some text /\
     files (fs w') !! root_path = Some text /\
     files (fs w') !! dataset_path = Some text /\
     dirs (fs w') = dirs (fs w)) /\
  (files (fs w) !! dataset_path = None ->
   exists e, copy_dataset_to_axolotl_directories X dataset_path w = (Raise e, w)).
Proof.
  intros data_path root_path. subst data_path root_path.
  unfold copy_dataset_to_axolotl_directories.
  destruct (get_axolotl_dataset_paths X (basename dataset_path)) as [data_path root_path].
  cbn [fst snd]. split.
  - intros Hsrc Hfs Hfd Hfr Hdd Hdr Hnd Hnr.
    rewrite bind_run, (shutil_copy_run _ _ text) by done.
    rewrite bind_run, (shutil_copy_run _ _ text);
      [|by cbn; rewrite lookup_insert_ne | done | done | done].
    eexists. split; [reflexivity|]. cbn [set_fs fs files dirs].
    split; [done|]. split.
    + destruct (decide (root_path = data_path)) as [->|Hne].
      * by rewrite lookup_insert_eq.
      * by rewrite lookup_insert_ne, lookup_insert_eq.
    + split; [by rewrite lookup_insert_eq|]. split; [|done].
      by rewrite !lookup_insert_ne.
  - intros Hsrc. rewrite bind_run. unfold shutil_copy.
    rewrite bind_run, read_file_run, Hsrc.
    destruct (faults (fs w) !! dataset_path); [by eexists|].
    case_bool_decide; by eexists.
Qed.

Lemma copy_dataset_fills_both_paths_witness :
  exists w',
    copy_dataset_to_axolotl_directories Demo.collaborators
      "/cache/datasets/t1_train_data.json" (Demo.world 0)
    = (Ret "/workspace/axolotl/data/t1_train_data.json", w') /\
    files (fs w') !! "/workspace/axolotl/t1_train_data.json" = Some "[]".
Proof.
  destruct (proj1 (copy_dataset_fills_both_paths Demo.collaborators
                     "/cache/datasets/t1_train_data.json" "[]" (Demo.world 0))
              eq_refl eq_refl eq_refl eq_refl
              ltac:(apply not_elem_of_empty) ltac:(apply not_elem_of_empty)
              ltac:(discriminate) ltac:(discriminate))
    as (w' & Hrun & _ & _ & Hroot & _).
  exists w'. split; [exact Hrun | exact Hroot].
Defined.
